(** * DeepXCheck: a shallow embedding of [deepxcheck.py]

    The analyser is one Python class, [DeepXCheck]: eight checks append red
    flags to the instance, [_calculate_score] sums and clamps their impacts,
    and [_generate_report] builds a report whose profile view depends on the
    mode. [print_report] writes a report to the console; its output is
    modelled as the list of the lines it prints.

    Modelling choices.
    - A profile is a Python [dict] with string keys: [gmap string value].
    - Python values are dynamically typed: [value] has the shapes a profile
      can hold here (str, int, bool, list of str, None; no float input).
      An operation applied to a value of the wrong shape raises, as in
      Python; raising is the [Raise] case of [result].
    - Strings are Rocq strings read as ASCII text: [str.lower], [str.title]
      and the regex class [\w] have their ASCII behaviour. The non-ASCII
      characters of the source's string literals stand as their UTF-8
      bytes; these literals are only stored and compared.
    - The instance attributes are the record [DeepXCheck]; methods are
      computations in a state-and-exception monad [M] in which the state
      survives a raised exception, as attribute updates do in Python.
    - [int / int] is Python's true division: the correctly rounded
      binary64 quotient, or [OverflowError], computed here in exact
      integer arithmetic. *)

From Stdlib Require Import ZArith Ascii String Permutation.
From stdpp Require Import gmap strings list fin_maps pretty.

Local Open Scope Z_scope.

(** ** Exceptions and results *)

Inductive exn :=
  | TypeError
  | AttributeError
  | ZeroDivisionError
  | OverflowError.

Inductive result (A : Type) :=
  | Ok (a : A)
  | Raise (e : exn).
Arguments Ok {A} a.
Arguments Raise {A} e.

Global Instance exn_eq_dec : EqDecision exn.
Proof. solve_decision. Defined.

Global Instance result_eq_dec {A} `{EqDecision A} : EqDecision (result A).
Proof. solve_decision. Defined.

Definition rbind {A B} (r : result A) (f : A -> result B) : result B :=
  match r with Ok a => f a | Raise e => Raise e end.

(** ** Python built-ins used by the analyser *)

Module Py.

(** *** Characters and strings *)

Definition is_upper (c : ascii) : bool :=
  let n := N_of_ascii c in ((65 <=? n) && (n <=? 90))%N.
Definition is_lower (c : ascii) : bool :=
  let n := N_of_ascii c in ((97 <=? n) && (n <=? 122))%N.
Definition is_digit (c : ascii) : bool :=
  let n := N_of_ascii c in ((48 <=? n) && (n <=? 57))%N.
Definition is_alpha (c : ascii) : bool := is_upper c || is_lower c.

(** The regex class [\w]. *)
Definition is_word (c : ascii) : bool :=
  is_alpha c || is_digit c || Ascii.eqb c "_".

Definition to_lower (c : ascii) : ascii :=
  if is_upper c then ascii_of_N (N_of_ascii c + 32) else c.
Definition to_upper (c : ascii) : ascii :=
  if is_lower c then ascii_of_N (N_of_ascii c - 32) else c.

(** [s.lower()] *)
Fixpoint lower (s : string) : string :=
  match s with
  | EmptyString => EmptyString
  | String c s' => String (to_lower c) (lower s')
  end.

(** [s.title()]: a cased character is upper-cased when the previous
    character is not cased and lower-cased when it is. *)
Fixpoint title_from (previous_is_cased : bool) (s : string) : string :=
  match s with
  | EmptyString => EmptyString
  | String c s' =>
      String (if previous_is_cased then to_lower c else to_upper c)
             (title_from (is_alpha c) s')
  end.
Definition title (s : string) : string := title_from false s.

(** [sub in s] on strings: [sub] occurs in [s] as a contiguous run. *)
Fixpoint contains (sub s : string) : bool :=
  String.prefix sub s
  || match s with
     | EmptyString => false
     | String _ s' => contains sub s'
     end.

(** [sep.join(l)] *)
Definition join (sep : string) (l : list string) : string :=
  String.concat sep l.

(** [s[:n]] and [s[-n:]] for a positive literal [n]. *)
Fixpoint slice_to (n : nat) (s : string) : string :=
  match n, s with
  | S n', String c s' => String c (slice_to n' s')
  | _, _ => EmptyString
  end.
Fixpoint drop (n : nat) (s : string) : string :=
  match n, s with
  | S n', String _ s' => drop n' s'
  | _, _ => s
  end.
Definition slice_last (n : nat) (s : string) : string :=
  drop (String.length s - n) s.

(** *** [repr] of a string, as it shows inside the [str] of a list *)

Definition squote : ascii := ascii_of_N 39.
Definition dquote : ascii := ascii_of_N 34.
Definition backslash : ascii := ascii_of_N 92.

Fixpoint has_char (c : ascii) (s : string) : bool :=
  match s with
  | EmptyString => false
  | String d s' => Ascii.eqb c d || has_char c s'
  end.

Definition hex_digit (n : N) : ascii :=
  if (n <? 10)%N then ascii_of_N (48 + n) else ascii_of_N (87 + n).

Definition escape_char (quote c : ascii) : string :=
  let n := N_of_ascii c in
  if Ascii.eqb c quote || Ascii.eqb c backslash
  then String backslash (String c EmptyString)
  else if (n =? 9)%N then String backslash "t"
  else if (n =? 10)%N then String backslash "n"
  else if (n =? 13)%N then String backslash "r"
  else if (n <? 32)%N || (n =? 127)%N
  then String backslash
         (String "x" (String (hex_digit (n / 16)) (String (hex_digit (n mod 16)) EmptyString)))
  else String c EmptyString.

Fixpoint escape (quote : ascii) (s : string) : string :=
  match s with
  | EmptyString => EmptyString
  | String c s' => escape_char quote c +:+ escape quote s'
  end.

Definition repr_str (s : string) : string :=
  let quote :=
    if has_char squote s && negb (has_char dquote s) then dquote else squote in
  String quote (escape quote s +:+ String quote EmptyString).

(** *** Integers *)

(** [str(n)], in decimal. CPython's configurable cap on the number of
    digits ([sys.set_int_max_str_digits]) is not modelled. *)
Definition str_int (z : Z) : string := pretty z.

(** *** Floats produced by true division *)

(** A finite binary64 value is [mant * 2^exp], negated when [neg]. *)
Record float := { neg : bool; mant : Z; exp : Z }.

(** [n / d] rounded to the nearest integer, ties to even ([0 < d]). *)
Definition round_half_even (n d : Z) : Z :=
  let q := n / d in
  let r := n mod d in
  if 2 * r <? d then q
  else if d <? 2 * r then q + 1
  else if Z.even q then q else q + 1.

(** The integer part of [log2 (n / d)] for positive [n] and [d]: the
    difference of the bit lengths, or one less. *)
Definition floor_log2_quot (n d : Z) : Z :=
  let k := Z.log2 n - Z.log2 d in
  if n * 2 ^ Z.max 0 (- k) <? d * 2 ^ Z.max 0 k then k - 1 else k.

(** [a / b] on ints: [ZeroDivisionError] for a zero divisor, otherwise the
    correctly rounded quotient (53 significant bits, exponent no smaller
    than -1074), or [OverflowError] when that is 2^1024 or more. *)
Definition true_divide (a b : Z) : result float :=
  if b =? 0 then Raise ZeroDivisionError
  else
    let sign := xorb (a <? 0) (b <? 0) in
    let n := Z.abs a in
    let d := Z.abs b in
    if n =? 0 then Ok {| neg := sign; mant := 0; exp := 0 |}
    else
      let e := Z.max (floor_log2_quot n d - 52) (-1074) in
      let m := round_half_even (n * 2 ^ Z.max 0 (- e)) (d * 2 ^ Z.max 0 e) in
      if 2 ^ 1024 <=? m * 2 ^ Z.max 0 e then Raise OverflowError
      else Ok {| neg := sign; mant := m; exp := e |}.

(** [x > k] for a float [x] and an int [k]; the comparison is exact. *)
Definition float_gt_int (x : float) (k : Z) : bool :=
  let v := if neg x then - mant x else mant x in
  k * 2 ^ Z.max 0 (- exp x) <? v * 2 ^ Z.max 0 (exp x).

(** [f'{x:.1f}']: one decimal, correctly rounded, ties to even. *)
Definition format_1f (x : float) : string :=
  let t := round_half_even (mant x * 10 * 2 ^ Z.max 0 (exp x)) (2 ^ Z.max 0 (- exp x)) in
  (if neg x then "-" else "") +:+ pretty (t / 10) +:+ "." +:+ pretty (t mod 10).

End Py.

(** ** Values held by a profile *)

Inductive value :=
  | VStr (s : string)
  | VInt (z : Z)
  | VBool (b : bool)
  | VList (l : list string)
  | VNone.

Global Instance value_eq_dec : EqDecision value.
Proof. solve_decision. Defined.

Abbreviation dict := (gmap string value).

(** [d.get(key, default)] *)
Definition dict_get (d : dict) (key : string) (dflt : value) : value :=
  default dflt (d !! key).

(** [key in d] *)
Definition dict_has (d : dict) (key : string) : bool :=
  bool_decide (is_Some (d !! key)).

(** Truth value of an object, as [if x:] and [not x] take it. *)
Definition py_truthy (v : value) : bool :=
  match v with
  | VStr s => negb (String.eqb s "")
  | VInt z => negb (z =? 0)
  | VBool b => b
  | VList l => negb (bool_decide (l = []))
  | VNone => false
  end.

(** [v.lower()]: only [str] has the method. *)
Definition py_lower (v : value) : result string :=
  match v with
  | VStr s => Ok (Py.lower s)
  | _ => Raise AttributeError
  end.

(** [sub in v] for a string [sub]: substring test on a [str], membership on
    a list, [TypeError] on a value that is not a container. *)
Definition py_in (sub : string) (v : value) : result bool :=
  match v with
  | VStr s => Ok (Py.contains sub s)
  | VList l => Ok (bool_decide (sub ∈ l))
  | _ => Raise TypeError
  end.

(** The number a value stands for in a comparison or a division with an
    int; [bool] is a subtype of [int]. *)
Definition py_number (v : value) : result Z :=
  match v with
  | VInt z => Ok z
  | VBool b => Ok (Z.b2z b)
  | _ => Raise TypeError
  end.

(** [v > k] and [v >= k] for an int literal [k]. *)
Definition py_gt (v : value) (k : Z) : result bool :=
  rbind (py_number v) (fun z => Ok (k <? z)).
Definition py_ge (v : value) (k : Z) : result bool :=
  rbind (py_number v) (fun z => Ok (k <=? z)).

(** [a / b] *)
Definition py_truediv (a b : value) : result Py.float :=
  rbind (py_number a) (fun x => rbind (py_number b) (fun y => Py.true_divide x y)).

(** [len(v)] *)
Definition py_len (v : value) : result nat :=
  match v with
  | VStr s => Ok (String.length s)
  | VList l => Ok (length l)
  | _ => Raise TypeError
  end.

(** [str(v)], which is what an f-string field [{v}] shows. *)
Definition py_str (v : value) : string :=
  match v with
  | VStr s => s
  | VInt z => Py.str_int z
  | VBool b => if b then "True" else "False"
  | VList l => "[" +:+ Py.join ", " (map Py.repr_str l) +:+ "]"
  | VNone => "None"
  end.

(** ** Regular-expression substitution

    Both patterns of the source have the shape [lit\w+] for a literal
    [lit]. [re.sub] scans from the left; where [lit] followed by a word
    character starts, the match runs to the end of the run of word
    characters and is replaced by [repl]; the scan goes on after it. *)

Definition starts_match (lit s : string) : bool :=
  String.prefix lit s
  && match Py.drop (String.length lit) s with
     | String w _ => Py.is_word w
     | EmptyString => false
     end.

(** [pending] counts the characters of the current match's literal still to
    be consumed; [in_word] holds inside the match's run of word characters. *)
Fixpoint sub_scan (lit repl : string) (pending : nat) (in_word : bool) (s : string) : string :=
  match s with
  | EmptyString => EmptyString
  | String c s' =>
      match pending with
      | S p => sub_scan lit repl p true s'
      | O =>
          if in_word && Py.is_word c then sub_scan lit repl 0 true s'
          else if starts_match lit s
               then repl +:+ sub_scan lit repl (String.length lit - 1) true s'
               else String c (sub_scan lit repl 0 false s')
      end
  end.

(** [re.sub(lit + r'\w+', repl, v)]; [TypeError] unless [v] is a [str]. *)
Definition re_sub (lit repl : string) (v : value) : result string :=
  match v with
  | VStr s => Ok (sub_scan lit repl 0 false s)
  | _ => Raise TypeError
  end.

(** ** Red flags, reports and the analyser instance *)

Record RedFlag := {
  type : string;
  severity : string;
  message : string;
  score_impact : Z
}.

Global Instance RedFlag_eq_dec : EqDecision RedFlag.
Proof. solve_decision. Defined.

Module Report.
Record Meta := {
  tool : string;
  version : string;
  mode : string;
  analysis_date : string;
  disclaimer : string
}.
Record RiskAssessment := {
  score : Z;
  level : string;
  red_flags_count : nat
}.
Record t := {
  meta : Meta;
  risk_assessment : RiskAssessment;
  profile : dict;
  red_flags : list RedFlag;
  recommendations : list string
}.

Global Instance Meta_eq_dec : EqDecision Meta.
Proof. solve_decision. Defined.
Global Instance RiskAssessment_eq_dec : EqDecision RiskAssessment.
Proof. solve_decision. Defined.
Global Instance t_eq_dec : EqDecision t.
Proof. solve_decision. Defined.
End Report.

(** The attributes of a [DeepXCheck] instance. [profile_data] and [mode]
    exist only once [analyze_profile] has set them. *)
Record DeepXCheck := {
  version : string;
  red_flags : list RedFlag;
  score : Z;
  max_score : Z;
  analysis_date : string;
  profile_data : option dict;
  mode : option string
}.

Global Instance DeepXCheck_eq_dec : EqDecision DeepXCheck.
Proof. solve_decision. Defined.

(** [__init__]; [now] is [datetime.now().strftime("%Y-%m-%d %H:%M UTC")]. *)
Definition __init__ (now : string) : DeepXCheck :=
  {| version := "1.0";
     red_flags := [];
     score := 0;
     max_score := 10;
     analysis_date := now;
     profile_data := None;
     mode := None |}.

(** ** The monad of methods: state with exceptions *)

Definition M (A : Type) : Type := DeepXCheck -> result A * DeepXCheck.

Definition ret {A} (a : A) : M A := fun self => (Ok a, self).

Definition bind {A B} (c : M A) (k : A -> M B) : M B :=
  fun self =>
    match c self with
    | (Ok a, self') => k a self'
    | (Raise e, self') => (Raise e, self')
    end.

Notation "'let*' x := c 'in' k" := (bind c (fun x => k))
  (at level 10, x name, c at level 100, k at level 200, only parsing).
Notation "c >> k" := (bind c (fun _ => k))
  (at level 100, k at level 200, right associativity, only parsing).

Definition lift {A} (r : result A) : M A := fun self => (r, self).

(** Reading [self.profile_data] and [self.mode]. *)
Definition self_profile_data : M dict :=
  fun self =>
    match profile_data self with
    | Some d => (Ok d, self)
    | None => (Raise AttributeError, self)
    end.
Definition self_mode : M string :=
  fun self =>
    match mode self with
    | Some m => (Ok m, self)
    | None => (Raise AttributeError, self)
    end.
Definition self_score : M Z := fun self => (Ok (score self), self).
Definition self_red_flags : M (list RedFlag) := fun self => (Ok (red_flags self), self).

(** Assignments to [self.red_flags] and [self.score]. *)
Definition set_red_flags (flags : list RedFlag) (self : DeepXCheck) : DeepXCheck :=
  {| version := version self;
     red_flags := flags;
     score := score self;
     max_score := max_score self;
     analysis_date := analysis_date self;
     profile_data := profile_data self;
     mode := mode self |}.

Definition set_score (z : Z) (self : DeepXCheck) : DeepXCheck :=
  {| version := version self;
     red_flags := red_flags self;
     score := z;
     max_score := max_score self;
     analysis_date := analysis_date self;
     profile_data := profile_data self;
     mode := mode self |}.

(** [self.red_flags.append(flag)] *)
Definition append_flag (flag : RedFlag) : M unit :=
  fun self => (Ok tt, set_red_flags (red_flags self ++ [flag]) self).

(** The four assignments that open [analyze_profile]. *)
Definition begin_analysis (profile : dict) (m : string) : M unit :=
  fun self =>
    (Ok tt,
     {| version := version self;
        red_flags := [];
        score := 0;
        max_score := max_score self;
        analysis_date := analysis_date self;
        profile_data := Some profile;
        mode := Some m |}).

(** ** The eight checks *)

Definition us_indicators : list string :=
  ["usa"; "united states"; "new york"; "california"; "texas";
   "pennsylvania"; "memphis"; "boston"; "ma"; "pa"; "tn"].
Definition nigeria_indicators : list string :=
  ["nigeria"; "ng"; "lagos"; "abuja"; "ikeja"].

(** [any(indicator in text for indicator in indicators)] *)
Definition any_in (indicators : list string) (text : string) : bool :=
  existsb (fun indicator => Py.contains indicator text) indicators.

Definition _check_geo_inconsistency : M unit :=
  let* pd := self_profile_data in
  let* declared := lift (py_lower (dict_get pd "declared_location" (VStr ""))) in
  let* tech_location := lift (py_lower (dict_get pd "technical_location" (VStr ""))) in
  let device := dict_get pd "device" (VStr "") in
  if String.eqb declared "" || String.eqb tech_location "" then ret tt
  else
    let is_declared_us := any_in us_indicators declared in
    let is_tech_nigeria := any_in nigeria_indicators tech_location in
    if is_declared_us && is_tech_nigeria
    then append_flag
           {| type := "geo_inconsistency";
              severity := "high";
              message := "Declared location: " +:+ Py.title declared
                         +:+ ", Technical location: " +:+ Py.title tech_location;
              score_impact := 3 |}
    else ret tt.

(** [current_year] is read from the clock in the source and never used. *)
Definition _check_account_age : M unit :=
  let* pd := self_profile_data in
  let join_date := dict_get pd "join_date" (VStr "") in
  let* in_2024 := lift (py_in "2024" join_date) in
  let* recent := (if in_2024 : bool then ret true else lift (py_in "2023" join_date)) in
  if recent : bool
  then
    let followers := dict_get pd "followers" (VInt 0) in
    let* many := lift (py_gt followers 1000) in
    if many : bool
    then
      let shown_date := py_str join_date in
      let shown_followers := py_str followers in
      append_flag
        {| type := "suspicious_growth";
           severity := "medium";
           message := "Recent account (" +:+ shown_date +:+ ") with "
                      +:+ shown_followers +:+ " followers";
           score_impact := 2 |}
    else ret tt
  else ret tt.

Definition _check_name_changes : M unit :=
  let* pd := self_profile_data in
  let name_changes := dict_get pd "name_changes" (VInt 0) in
  let last_change := dict_get pd "last_name_change" (VStr "") in
  let* frequent := lift (py_ge name_changes 3) in
  if frequent : bool
  then
    let shown_changes := py_str name_changes in
    let shown_last := py_str last_change in
    append_flag
      {| type := "identity_instability";
         severity := "medium";
         message := shown_changes +:+ " username changes, last: " +:+ shown_last;
         score_impact := 2 |}
  else ret tt.

Definition telegram_patterns : list string :=
  ["t.me/"; "telegram"; "tg://"; "joinchat/"].

(** The loop appends once, at the first pattern found, and breaks. *)
Definition _check_telegram_links : M unit :=
  let* pd := self_profile_data in
  let* bio := lift (py_lower (dict_get pd "bio" (VStr ""))) in
  if any_in telegram_patterns bio
  then append_flag
         {| type := "telegram_promotion";
            severity := "medium";
            message := "Telegram link found in bio (common for coordinated groups)";
            score_impact := 2 |}
  else ret tt.

Definition scam_keywords : list string :=
  ["blessed"; "blessing"; "cashapp"; "paypal"; "apple pay";
   "send me"; "dm me"; "instant money"; "get paid";
   "nfa"; "not financial advice"; "alpha"; "signal";
   "pump"; "moon"; "100x"; "financial freedom"].

Definition _check_suspicious_bio : M unit :=
  let* pd := self_profile_data in
  let* bio := lift (py_lower (dict_get pd "bio" (VStr ""))) in
  let found_keywords := List.filter (fun keyword => Py.contains keyword bio) scam_keywords in
  match found_keywords with
  | [] => ret tt
  | _ :: _ =>
      append_flag
        {| type := "suspicious_bio";
           severity := "medium";
           message := "Bio contains suspicious keywords: " +:+ Py.join ", " found_keywords;
           score_impact := if (length found_keywords <? 3)%nat then 1 else 2 |}
  end.

Definition _check_follow_ratio : M unit :=
  let* pd := self_profile_data in
  let following := dict_get pd "following" (VInt 0) in
  let followers := dict_get pd "followers" (VInt 0) in
  let* has_followers := lift (py_gt followers 0) in
  if has_followers : bool
  then
    let* ratio := lift (py_truediv following followers) in
    if Py.float_gt_int ratio 10
    then
      let shown_following := py_str following in
      let shown_followers := py_str followers in
      append_flag
        {| type := "unbalanced_ratio";
           severity := "low";
           message := "Following " +:+ shown_following +:+ " but only "
                      +:+ shown_followers +:+ " followers (ratio: "
                      +:+ Py.format_1f ratio +:+ ")";
           score_impact := 1 |}
    else ret tt
  else ret tt.

Definition _check_coordination_patterns : M unit :=
  let* pd := self_profile_data in
  let shared_channels := dict_get pd "shared_channels" (VList []) in
  let* n := lift (py_len shared_channels) in
  if (2 <=? n)%nat
  then append_flag
         {| type := "coordinated_network";
            severity := "high";
            message := "Shares " +:+ pretty n
                       +:+ " channels with other suspicious accounts";
            score_impact := 3 |}
  else ret tt.

Definition _check_like_behavior : M unit :=
  let* pd := self_profile_data in
  let like_fishing := dict_get pd "like_fishing" (VBool false) in
  if py_truthy like_fishing
  then append_flag
         {| type := "like_fishing";
            severity := "medium";
            message := "Uses likes to attract attention before DM scams";
            score_impact := 2 |}
  else ret tt.

(** ** Score, risk level and recommendations *)

Definition sum_impacts (flags : list RedFlag) : Z :=
  fold_left (fun base_score flag => base_score + score_impact flag) flags 0.

Definition _calculate_score : M unit :=
  fun self =>
    let base_score := sum_impacts (red_flags self) in
    (Ok tt, set_score (Z.min base_score (max_score self)) self).

Definition risk_level (s : Z) : string :=
  if 8 <=? s then "CRITICAL"
  else if 6 <=? s then "HIGH"
  else if 4 <=? s then "MEDIUM"
  else if 2 <=? s then "LOW"
  else "MINIMAL".

Definition _get_risk_level : M string :=
  let* s := self_score in ret (risk_level s).

Definition expert_disclaimer : string :=
  "
            ‚ö†Ô∏è EXPERT MODE - IDENTIFYING DATA VISIBLE
            This report contains identifying information.
            Public sharing may have legal and ethical consequences.
            Use responsibly for documentation purposes only.
            ".

Definition educational_disclaimer : string :=
  "Educational analysis - patterns anonymized".

Definition rec_avoid_financial : string :=
  "‚ö†Ô∏è Avoid any financial interaction with this account".

Definition rec_report_scams : string :=
  "üîç Report if promoting scams or manipulation".

Definition rec_verify_geo : string :=
  "üåç Verify geographical claims before trust".

Definition rec_telegram_caution : string :=
  "üì¢ Be cautious of Telegram groups promising quick gains".

Definition rec_likes_bait : string :=
  "üëç Likes can be bait - check profile before engaging".

Definition rec_appears_normal : string :=
  "‚úÖ Profile appears normal - maintain standard vigilance".

(** [any(f['type'] == ty for f in flags)] *)
Definition has_type (ty : string) (flags : list RedFlag) : bool :=
  existsb (fun f => String.eqb (type f) ty) flags.

Definition recommendations_for (s : Z) (flags : list RedFlag) : list string :=
  let recs := [] in
  let recs := if 6 <=? s then recs ++ [rec_avoid_financial] ++ [rec_report_scams] else recs in
  let recs := if has_type "geo_inconsistency" flags then recs ++ [rec_verify_geo] else recs in
  let recs := if has_type "telegram_promotion" flags then recs ++ [rec_telegram_caution] else recs in
  let recs := if has_type "like_fishing" flags then recs ++ [rec_likes_bait] else recs in
  if (length recs =? 0)%nat then recs ++ [rec_appears_normal] else recs.

Definition _generate_recommendations : M (list string) :=
  let* s := self_score in
  let* flags := self_red_flags in
  ret (recommendations_for s flags).

(** ** Profile views *)

Definition _anonymize_profile : M dict :=
  let* pd := self_profile_data in
  let anon := pd in
  let anon := if dict_has anon "username"
              then <["username" := VStr "@[REDACTED]"]> anon else anon in
  let anon := if dict_has anon "display_name"
              then <["display_name" := VStr "[ANONYMIZED]"]> anon else anon in
  match anon !! "bio" with
  | Some bio =>
      let* bio1 := lift (re_sub "@" "@[USER]" bio) in
      let anon := <["bio" := VStr bio1]> anon in
      let* bio2 := lift (re_sub "t.me/" "t.me/[CHANNEL]" (VStr bio1)) in
      ret (<["bio" := VStr bio2]> anon)
  | None => ret anon
  end.

(** [u[:2] + '***' + u[-2:]]; a list cannot be concatenated with a [str]. *)
Definition mask_username (u : value) : result value :=
  match u with
  | VStr s => Ok (VStr (Py.slice_to 2 s +:+ "***" +:+ Py.slice_last 2 s))
  | _ => Raise TypeError
  end.

Definition _partial_anonymize : M dict :=
  let* pd := self_profile_data in
  let partial := pd in
  match partial !! "username" with
  | Some username =>
      let* n := lift (py_len username) in
      if (4 <? n)%nat
      then let* masked := lift (mask_username username) in
           ret (<["username" := masked]> partial)
      else ret partial
  | None => ret partial
  end.

(** ** The report and the entry point *)

Definition _generate_report : M Report.t :=
  let* m := self_mode in
  let disclaimer :=
    if String.eqb m "expert" then expert_disclaimer else educational_disclaimer in
  let* profile_display :=
    (if String.eqb m "discovery" then _anonymize_profile
     else if String.eqb m "investigation" then _partial_anonymize
     else self_profile_data) in
  let* lvl := _get_risk_level in
  let* recs := _generate_recommendations in
  fun self =>
    (Ok {| Report.meta :=
             {| Report.tool := "DeepXCheck";
                Report.version := version self;
                Report.mode := m;
                Report.analysis_date := analysis_date self;
                Report.disclaimer := disclaimer |};
           Report.risk_assessment :=
             {| Report.score := score self;
                Report.level := lvl;
                Report.red_flags_count := length (red_flags self) |};
           Report.profile := profile_display;
           Report.red_flags := red_flags self;
           Report.recommendations := recs |},
     self).

Definition analyze_profile (profile : dict) (m : string) : M Report.t :=
  begin_analysis profile m >>
  _check_geo_inconsistency >>
  _check_account_age >>
  _check_name_changes >>
  _check_telegram_links >>
  _check_suspicious_bio >>
  _check_follow_ratio >>
  _check_coordination_patterns >>
  _check_like_behavior >>
  _calculate_score >>
  _generate_report.

(** ** Definitions used by the statements *)

(** An instance that holds the profile [pd] and nothing else. A check reads
    only [self.profile_data], so its flags on [blank pd] are its flags. *)
Definition blank (pd : dict) : DeepXCheck :=
  {| version := "";
     red_flags := [];
     score := 0;
     max_score := 0;
     analysis_date := "";
     profile_data := Some pd;
     mode := None |}.

Definition flags_of (c : M unit) (pd : dict) : result (list RedFlag) :=
  match c (blank pd) with
  | (Ok _, self) => Ok (red_flags self)
  | (Raise e, _) => Raise e
  end.

(** The checks in the order [analyze_profile] runs them, each with the type
    of the flag it can append. *)
Definition check_table : list (string * M unit) :=
  [("geo_inconsistency", _check_geo_inconsistency);
   ("suspicious_growth", _check_account_age);
   ("identity_instability", _check_name_changes);
   ("telegram_promotion", _check_telegram_links);
   ("suspicious_bio", _check_suspicious_bio);
   ("unbalanced_ratio", _check_follow_ratio);
   ("coordinated_network", _check_coordination_patterns);
   ("like_fishing", _check_like_behavior)].

Definition checks : list (M unit) := map snd check_table.

(** Running a list of methods one after the other, then [k]. *)
Definition seq {A} (cs : list (M unit)) (k : M A) : M A :=
  fold_right (fun c rest => c >> rest) k cs.

(** The flags a list of checks appends to [pd], up to the first exception. *)
Fixpoint collect (cs : list (M unit)) (pd : dict) : list RedFlag * option exn :=
  match cs with
  | [] => ([], None)
  | c :: cs' =>
      match flags_of c pd with
      | Raise e => ([], Some e)
      | Ok fs => let (fs', err) := collect cs' pd in (fs ++ fs', err)
      end
  end.

(** The profile view of a mode. *)
Definition view_method (m : string) : M dict :=
  if String.eqb m "discovery" then _anonymize_profile
  else if String.eqb m "investigation" then _partial_anonymize
  else self_profile_data.

Definition view_for (m : string) (pd : dict) : result dict :=
  fst (view_method m (blank pd)).

(** The instance once the checks and [_calculate_score] have run. *)
Definition scored (pd : dict) (m : string) (fs : list RedFlag) (self : DeepXCheck) : DeepXCheck :=
  {| version := version self;
     red_flags := fs;
     score := Z.min (sum_impacts fs) (max_score self);
     max_score := max_score self;
     analysis_date := analysis_date self;
     profile_data := Some pd;
     mode := Some m |}.

Definition report_of (m : string) (view : dict) (self : DeepXCheck) : Report.t :=
  {| Report.meta :=
       {| Report.tool := "DeepXCheck";
          Report.version := version self;
          Report.mode := m;
          Report.analysis_date := analysis_date self;
          Report.disclaimer :=
            if String.eqb m "expert" then expert_disclaimer else educational_disclaimer |};
     Report.risk_assessment :=
       {| Report.score := score self;
          Report.level := risk_level (score self);
          Report.red_flags_count := length (red_flags self) |};
     Report.profile := view;
     Report.red_flags := red_flags self;
     Report.recommendations := recommendations_for (score self) (red_flags self) |}.

(** The sum of the impacts of a list of flags. *)
Definition total_impact (flags : list RedFlag) : Z :=
  foldr (fun flag acc => score_impact flag + acc) 0 flags.

(** The state in which the checks start. *)
Definition started (pd : dict) (m : string) (self : DeepXCheck) : DeepXCheck :=
  snd (begin_analysis pd m self).

(** A check is local when it reads only the profile and appends its flags. *)
Definition local (c : M unit) : Prop :=
  forall self,
    match profile_data self with
    | None => c self = (Raise AttributeError, self)
    | Some pd =>
        c self = match flags_of c pd with
                 | Ok fs => (Ok tt, set_red_flags (red_flags self ++ fs) self)
                 | Raise e => (Raise e, self)
                 end
    end.

(** A check appends nothing or one flag of its type, of impact 1 to 3. *)
Definition emits (ty : string) (c : M unit) : Prop :=
  forall pd fs, flags_of c pd = Ok fs ->
    fs = [] \/ exists f, fs = [f] /\ type f = ty /\ 1 <= score_impact f <= 3.

(** The record of the scenario; it has no username and no display name. *)
Definition scenario : dict :=
  <["declared_location" := VStr "New York, USA"]>
  (<["technical_location" := VStr "Nigeria"]>
  (<["join_date" := VStr "November 2024"]>
  (<["followers" := VInt 100]>
  (<["following" := VInt 10]>
  (<["bio" := VStr "Follow me on t.me/test for signals!"]>
  (<["shared_channels" := VList ["t.me/test"]]>
  (<["like_fishing" := VBool true]> ∅))))))).

(** A clock reading for the concrete runs. *)
Definition sample_now : string := "2025-01-15 10:30 UTC".

(** The recommendation rules in the words of the specification: two
    warnings for a score of 6 or more, then one advice per flag type
    present, in the order geo, telegram, like-fishing; the "appears
    normal" line when that leaves nothing. *)
Definition spec_advice (s : Z) (types : list string) : list string :=
  (if bool_decide (6 <= s) then [rec_avoid_financial; rec_report_scams] else [])
  ++ (if bool_decide ("geo_inconsistency" ∈ types) then [rec_verify_geo] else [])
  ++ (if bool_decide ("telegram_promotion" ∈ types) then [rec_telegram_caution] else [])
  ++ (if bool_decide ("like_fishing" ∈ types) then [rec_likes_bait] else []).

Definition spec_recommendations (s : Z) (types : list string) : list string :=
  match spec_advice s types with
  | [] => [rec_appears_normal]
  | advice => advice
  end.

(** The scenario in discovery mode on a fresh instance: the view, the
    report and the instance afterwards. *)
Definition scenario_flags : list RedFlag :=
  [ {| type := "geo_inconsistency"; severity := "high";
       message := "Declared location: New York, Usa, Technical location: Nigeria";
       score_impact := 3 |};
    {| type := "telegram_promotion"; severity := "medium";
       message := "Telegram link found in bio (common for coordinated groups)";
       score_impact := 2 |};
    {| type := "suspicious_bio"; severity := "medium";
       message := "Bio contains suspicious keywords: signal";
       score_impact := 1 |};
    {| type := "like_fishing"; severity := "medium";
       message := "Uses likes to attract attention before DM scams";
       score_impact := 2 |} ].

Definition scenario_discovery_view : dict :=
  <["bio" := VStr "Follow me on t.me/[CHANNEL] for signals!"]> scenario.

Definition scenario_final : DeepXCheck :=
  {| version := "1.0";
     red_flags := scenario_flags;
     score := 8;
     max_score := 10;
     analysis_date := sample_now;
     profile_data := Some scenario;
     mode := Some "discovery" |}.

Definition scenario_report : Report.t :=
  {| Report.meta :=
       {| Report.tool := "DeepXCheck";
          Report.version := "1.0";
          Report.mode := "discovery";
          Report.analysis_date := sample_now;
          Report.disclaimer := educational_disclaimer |};
     Report.risk_assessment :=
       {| Report.score := 8; Report.level := "CRITICAL"; Report.red_flags_count := 4 |};
     Report.profile := scenario_discovery_view;
     Report.red_flags := scenario_flags;
     Report.recommendations :=
       [rec_avoid_financial; rec_report_scams; rec_verify_geo;
        rec_telegram_caution; rec_likes_bait] |}.

(** A sequence of earlier calls on one instance, whatever they return. *)
Definition run_calls (calls : list (dict * string)) (self : DeepXCheck) : DeepXCheck :=
  fold_left (fun s call => snd (analyze_profile (fst call) (snd call) s)) calls self.

(** A report with its timestamp blanked, and the same under [result]. *)
Definition erase_date (r : Report.t) : Report.t :=
  {| Report.meta :=
       {| Report.tool := Report.tool (Report.meta r);
          Report.version := Report.version (Report.meta r);
          Report.mode := Report.mode (Report.meta r);
          Report.analysis_date := "";
          Report.disclaimer := Report.disclaimer (Report.meta r) |};
     Report.risk_assessment := Report.risk_assessment r;
     Report.profile := Report.profile r;
     Report.red_flags := Report.red_flags r;
     Report.recommendations := Report.recommendations r |}.

Definition result_map {A B} (f : A -> B) (r : result A) : result B :=
  match r with Ok a => Ok (f a) | Raise e => Raise e end.

(** The scenario under a misspelled mode. *)
Definition misspelled_final : DeepXCheck :=
  {| version := "1.0";
     red_flags := scenario_flags;
     score := 8;
     max_score := 10;
     analysis_date := sample_now;
     profile_data := Some scenario;
     mode := Some "exprt" |}.

Definition misspelled_report : Report.t :=
  {| Report.meta :=
       {| Report.tool := "DeepXCheck";
          Report.version := "1.0";
          Report.mode := "exprt";
          Report.analysis_date := sample_now;
          Report.disclaimer := educational_disclaimer |};
     Report.risk_assessment :=
       {| Report.score := 8; Report.level := "CRITICAL"; Report.red_flags_count := 4 |};
     Report.profile := scenario;
     Report.red_flags := scenario_flags;
     Report.recommendations :=
       [rec_avoid_financial; rec_report_scams; rec_verify_geo;
        rec_telegram_caution; rec_likes_bait] |}.

(** Two instances with the same [version] and [max_score]. *)
Definition same_setup (s1 s2 : DeepXCheck) : Prop :=
  version s1 = version s2 /\ max_score s1 = max_score s2.

(** The profile of the source's own example run. *)
Definition test_profile : dict :=
  <["username" := VStr "@TestUser"]>
  (<["display_name" := VStr "Test"]>
  (<["bio" := VStr "Follow me on t.me/test for signals!"]>
  (<["declared_location" := VStr "New York, USA"]>
  (<["technical_location" := VStr "Nigeria"]>
  (<["join_date" := VStr "November 2024"]>
  (<["name_changes" := VInt 0]>
  (<["following" := VInt 10]>
  (<["followers" := VInt 100]>
  (<["shared_channels" := VList ["t.me/test"]]>
  (<["like_fishing" := VBool true]> ∅)))))))))).

(** The outcome of a successful call on a fresh instance, from its flags
    and its view. *)
Definition outcome (pd : dict) (m : string) (flags : list RedFlag) (view : dict)
  : result Report.t * DeepXCheck :=
  let self := scored pd m flags (__init__ sample_now) in
  (Ok (report_of m view self), self).

(** The flag of the ratio check for given counts and quotient. *)
Definition ratio_flag (following followers : value) (ratio : Py.float) : RedFlag :=
  {| type := "unbalanced_ratio";
     severity := "low";
     message := "Following " +:+ py_str following +:+ " but only "
                +:+ py_str followers +:+ " followers (ratio: "
                +:+ Py.format_1f ratio +:+ ")";
     score_impact := 1 |}.

(** The ratio check returns normally, having appended one flag, of its
    type. *)
Definition appends_ratio_flag (self : DeepXCheck) : Prop :=
  exists flag,
    _check_follow_ratio self = (Ok tt, set_red_flags (red_flags self ++ [flag]) self) /\
    type flag = "unbalanced_ratio".

(** [n / d < 2 ^ x], with each power on the side where it is an integer. *)
Definition below_pow2 (n d x : Z) : Prop :=
  n * 2 ^ Z.max 0 (- x) < d * 2 ^ Z.max 0 x.

(** ** Records with fields of the documented types *)

Inductive ty := TStr | TInt | TBool | TList.

Definition has_ty (t : ty) (v : value) : bool :=
  match t, v with
  | TStr, VStr _ | TInt, VInt _ | TBool, VBool _ | TList, VList _ => true
  | _, _ => false
  end.

(** The optional keys of a profile record and the type of each. *)
Definition schema : list (string * ty) :=
  [("username", TStr); ("display_name", TStr); ("bio", TStr);
   ("declared_location", TStr); ("technical_location", TStr); ("device", TStr);
   ("join_date", TStr); ("name_changes", TInt); ("last_name_change", TStr);
   ("following", TInt); ("followers", TInt); ("shared_channels", TList);
   ("like_fishing", TBool)].

(** A key is absent or holds a value of type [t]. *)
Definition field_ok (t : ty) (pd : dict) (key : string) : bool :=
  match pd !! key with
  | None => true
  | Some v => has_ty t v
  end.

Definition well_typed (pd : dict) : bool :=
  forallb (fun kt => field_ok (snd kt) pd (fst kt)) schema.

(** The following count, when present, is below 2^1023 in magnitude. *)
Definition moderate_following (pd : dict) : bool :=
  match pd !! "following" with
  | Some (VInt z) => Z.abs z <? 2 ^ 1023
  | _ => true
  end.

(** The keys a check's trigger reads, with the type of the check's flag. *)
Definition trigger_types : list (string * string) :=
  [("declared_location", "geo_inconsistency");
   ("technical_location", "geo_inconsistency");
   ("join_date", "suspicious_growth");
   ("followers", "suspicious_growth");
   ("name_changes", "identity_instability");
   ("bio", "telegram_promotion");
   ("bio", "suspicious_bio");
   ("followers", "unbalanced_ratio");
   ("following", "unbalanced_ratio");
   ("shared_channels", "coordinated_network");
   ("like_fishing", "like_fishing")].

(** The value each check substitutes for an absent key. *)
Definition field_defaults : list (string * value) :=
  [("declared_location", VStr ""); ("technical_location", VStr "");
   ("device", VStr ""); ("join_date", VStr ""); ("followers", VInt 0);
   ("name_changes", VInt 0); ("last_name_change", VStr ""); ("bio", VStr "");
   ("following", VInt 0); ("shared_channels", VList []);
   ("like_fishing", VBool false)].

(** A well-typed record on which the analysis raises. *)
Definition huge_following_profile : dict :=
  <["following" := VInt (10 ^ 400)]> (<["followers" := VInt 1]> ∅).

(** ** The discovery view, field by field *)

(** The bio after both substitutions of [_anonymize_profile]. *)
Definition scrub_bio (bio : string) : string :=
  sub_scan "t.me/" "t.me/[CHANNEL]" 0 false (sub_scan "@" "@[USER]" 0 false bio).

(** A key replaced by a placeholder when it is present. *)
Definition redact (key placeholder : string) (d : dict) : dict :=
  if dict_has d key then <[key := VStr placeholder]> d else d.

(** A string occurs in a value: in a [str], or in an element of a list. *)
Definition value_mentions (s : string) (v : value) : bool :=
  match v with
  | VStr t => Py.contains s t
  | VList l => existsb (Py.contains s) l
  | _ => false
  end.

(** No [@] followed by a word character occurs in [s]. *)
Fixpoint handle_free (s : string) : bool :=
  match s with
  | EmptyString => true
  | String c s' =>
      negb (Ascii.eqb c "@"
            && match s' with
               | String w _ => Py.is_word w
               | EmptyString => false
               end)
      && handle_free s'
  end.

(** A record whose display name occurs in its bio. *)
Definition named_profile : dict :=
  <["username" := VStr "@jsmith"]>
  (<["display_name" := VStr "John Smith"]>
  (<["bio" := VStr "John Smith | crypto signals"]> ∅)).

Definition named_flags : list RedFlag :=
  [ {| type := "suspicious_bio"; severity := "medium";
       message := "Bio contains suspicious keywords: signal";
       score_impact := 1 |} ].

Definition named_view : dict :=
  <["username" := VStr "@[REDACTED]"]>
  (<["display_name" := VStr "[ANONYMIZED]"]>
  (<["bio" := VStr "John Smith | crypto signals"]> ∅)).

(** The first character, if any, is not a word character. *)
Definition head_not_word (s : string) : bool :=
  match s with
  | EmptyString => true
  | String c _ => negb (Py.is_word c)
  end.

(** ** Further definitions for the statements *)

(** The kinds of flag the checks build: type, severity and impact. *)
Definition flag_kinds : list (string * string * Z) :=
  [("geo_inconsistency", "high", 3);
   ("suspicious_growth", "medium", 2);
   ("identity_instability", "medium", 2);
   ("telegram_promotion", "medium", 2);
   ("suspicious_bio", "medium", 1);
   ("suspicious_bio", "medium", 2);
   ("unbalanced_ratio", "low", 1);
   ("coordinated_network", "high", 3);
   ("like_fishing", "medium", 2)].

Definition kind_of (f : RedFlag) : string * string * Z :=
  (type f, severity f, score_impact f).

(** The five labels of [_get_risk_level], lowest first. *)
Definition risk_levels : list string :=
  ["MINIMAL"; "LOW"; "MEDIUM"; "HIGH"; "CRITICAL"].

(** A check builds flags of the listed kinds only. *)
Definition builds_kinds (c : M unit) : Prop :=
  forall pd fs, flags_of c pd = Ok fs ->
    Forall (fun f => kind_of f ∈ flag_kinds) fs.

(** The keys whose values the checks use. [device] is fetched by the geo
    check and never used. *)
Definition signal_keys : list string :=
  ["declared_location"; "technical_location"; "join_date"; "followers";
   "name_changes"; "last_name_change"; "bio"; "following";
   "shared_channels"; "like_fishing"].

(** What the checks take from a record: the two locations and the bio in
    lower case, the other fields as they are, each with the default of its
    [get]. *)
Definition readings (pd : dict) : list (result string) * list value :=
  ([py_lower (dict_get pd "declared_location" (VStr ""));
    py_lower (dict_get pd "technical_location" (VStr ""));
    py_lower (dict_get pd "bio" (VStr ""))],
   [dict_get pd "join_date" (VStr "");
    dict_get pd "followers" (VInt 0);
    dict_get pd "name_changes" (VInt 0);
    dict_get pd "last_name_change" (VStr "");
    dict_get pd "following" (VInt 0);
    dict_get pd "shared_channels" (VList []);
    dict_get pd "like_fishing" (VBool false)]).

(** The part of a report that assesses the account. *)
Definition assessment (r : Report.t) : Report.RiskAssessment * list RedFlag * list string :=
  (Report.risk_assessment r, Report.red_flags r, Report.recommendations r).

(** No [t.me/] followed by a word character occurs in [s]. *)
Fixpoint channel_free (s : string) : bool :=
  match s with
  | EmptyString => true
  | String _ s' => negb (starts_match "t.me/" s) && channel_free s'
  end.

(** Some key of [keys] holds a value that is not of the schema's type. *)
Definition wrong_type (pd : dict) (keys : list string) : Prop :=
  exists key t v,
    key ∈ keys /\ (key, t) ∈ schema /\ pd !! key = Some v /\ has_ty t v = false.

(** What an exception of the analysis points to. *)
Definition blames (pd : dict) (e : exn) : Prop :=
  match e with
  | AttributeError =>
      wrong_type pd ["declared_location"; "technical_location"; "bio"]
  | TypeError =>
      wrong_type pd ["join_date"; "followers"; "name_changes"; "following";
                     "shared_channels"; "username"]
  | OverflowError =>
      exists following followers,
        pd !! "following" = Some (VInt following) /\
        py_number (dict_get pd "followers" (VInt 0)) = Ok followers /\
        0 < followers /\ 2 ^ 1023 <= Z.abs following
  | ZeroDivisionError => False
  end.

(** The fields the checks read in lower case. *)
Definition text_keys : list string :=
  ["declared_location"; "technical_location"; "bio"].

(** Two fields hold the same text up to letter case, or are both absent. *)
Definition same_text (o1 o2 : option value) : Prop :=
  match o1, o2 with
  | Some (VStr a), Some (VStr b) => Py.lower a = Py.lower b
  | None, None => True
  | _, _ => False
  end.

(** The flags of a check on a padded record: the same, or one where there
    was none, or one of the same type and of no smaller impact. *)
Definition grows (fs fs' : list RedFlag) : Prop :=
  fs = fs' \/ fs = [] \/
  exists f f', fs = [f] /\ fs' = [f'] /\ type f = type f' /\
               score_impact f <= score_impact f'.

(** The fields of a record as the checks take them: a text, a count, the
    list of shared channels, each with the default of its [get]. *)
Definition text_of (pd : dict) (key : string) : string :=
  match pd !! key with Some (VStr s) => s | _ => "" end.

Definition count_of (pd : dict) (key : string) : Z :=
  match pd !! key with Some (VInt z) => z | _ => 0 end.

Definition channels_of (pd : dict) : list string :=
  match pd !! "shared_channels" with Some (VList l) => l | _ => [] end.

(** A report has a flag of type [ty]. *)
Definition flagged (r : Report.t) (ty : string) : Prop :=
  ty ∈ type <$> Report.red_flags r.

(** ** Printing a report *)

(** The newline character, [s * n] and [s.upper()]. *)
Definition nl : string := String (ascii_of_N 10) "".

Fixpoint str_repeat (s : string) (n : nat) : string :=
  match n with
  | O => ""
  | S n' => s +:+ str_repeat s n'
  end.

Fixpoint str_upper (s : string) : string :=
  match s with
  | EmptyString => EmptyString
  | String c s' => String (Py.to_upper c) (str_upper s')
  end.

(** [v[:n]]: a [str] and a list can be sliced, other values raise. *)
Definition py_slice_to (n : nat) (v : value) : result value :=
  match v with
  | VStr s => Ok (VStr (Py.slice_to n s))
  | VList l => Ok (VList (take n l))
  | _ => Raise TypeError
  end.

(** What a run of [print] calls leaves on the console: the lines printed,
    in order, and the exception that ended the run, if any. *)
Definition printed : Type := list string * option exn.

Definition prints (lines : list string) : printed := (lines, None).

(** One part of the output, then the next unless the first raised. *)
Definition and_then (first next : printed) : printed :=
  match first.2 with
  | Some e => first
  | None => (first.1 ++ next.1, next.2)
  end.

(** The profile section; the slice of the bio is taken before its line is
    printed. *)
Definition print_profile (profile : dict) : printed :=
  and_then
    (prints [nl +:+ "üë§ PROFILE:";
             "   Name: " +:+ py_str (dict_get profile "display_name" (VStr "N/A"));
             "   Handle: " +:+ py_str (dict_get profile "username" (VStr "N/A"))])
    match py_slice_to 100 (dict_get profile "bio" (VStr "N/A")) with
    | Raise e => ([], Some e)
    | Ok bio =>
        prints ["   Bio: " +:+ py_str bio +:+ "...";
                "   Location: "
                  +:+ py_str (dict_get profile "declared_location" (VStr "N/A"));
                "   Technical: "
                  +:+ py_str (dict_get profile "technical_location" (VStr "N/A"))]
    end.

(** The line of the [i]-th flag, counted from 1. *)
Definition flag_line (i : nat) (flag : RedFlag) : string :=
  "   " +:+ pretty (S i) +:+ ". [" +:+ str_upper (severity flag) +:+ "] "
  +:+ message flag.

Definition print_report (report : Report.t) : printed :=
  let meta := Report.meta report in
  let risk := Report.risk_assessment report in
  and_then
    (prints [nl +:+ str_repeat "=" 60;
             "DEEPXCHECK ANALYSIS REPORT";
             str_repeat "=" 60;
             nl +:+ "üìä MODE: " +:+ str_upper (Report.mode meta);
             "üìÖ Date: " +:+ Report.analysis_date meta;
             nl +:+ "‚ö†Ô∏è  RISK SCORE: " +:+ Py.str_int (Report.score risk)
               +:+ "/10 - " +:+ Report.level risk;
             "üî¥ Red flags detected: " +:+ pretty (Report.red_flags_count risk)])
  (and_then
    (if negb (String.eqb (Report.mode meta) "discovery")
     then print_profile (Report.profile report)
     else prints [])
  (and_then
    (match Report.red_flags report with
     | [] => prints []
     | flags => prints ((nl +:+ "üö® RED FLAGS:") :: imap flag_line flags)
     end)
  (and_then
    (prints ((nl +:+ "üí° RECOMMENDATIONS:")
             :: map (fun rec => "   ‚Ä¢ " +:+ rec) (Report.recommendations report)))
  (and_then
    (if String.eqb (Report.mode meta) "expert"
     then prints [nl +:+ str_repeat "-" 60;
                  "EXPERT MODE DISCLAIMER:";
                  Report.disclaimer meta;
                  str_repeat "-" 60]
     else prints [])
    (prints [nl +:+ str_repeat "=" 60;
             "End of report - Use responsibly";
             str_repeat "=" 60 +:+ nl]))))).

(** What the message of a flag says, by the type of the flag. *)
Definition says (pd : dict) (f : RedFlag) : Prop :=
  (type f = "geo_inconsistency" ->
   message f = "Declared location: "
               +:+ Py.title (Py.lower (text_of pd "declared_location"))
               +:+ ", Technical location: "
               +:+ Py.title (Py.lower (text_of pd "technical_location"))) /\
  (type f = "suspicious_growth" ->
   message f = "Recent account (" +:+ text_of pd "join_date" +:+ ") with "
               +:+ Py.str_int (count_of pd "followers") +:+ " followers") /\
  (type f = "identity_instability" ->
   message f = Py.str_int (count_of pd "name_changes")
               +:+ " username changes, last: " +:+ text_of pd "last_name_change") /\
  (type f = "telegram_promotion" ->
   message f = "Telegram link found in bio (common for coordinated groups)") /\
  (type f = "suspicious_bio" ->
   message f = "Bio contains suspicious keywords: "
               +:+ Py.join ", "
                     (List.filter
                        (fun keyword => Py.contains keyword (Py.lower (text_of pd "bio")))
                        scam_keywords)) /\
  (type f = "unbalanced_ratio" ->
   exists ratio,
     Py.true_divide (count_of pd "following") (count_of pd "followers") = Ok ratio /\
     message f = "Following " +:+ Py.str_int (count_of pd "following")
                 +:+ " but only " +:+ Py.str_int (count_of pd "followers")
                 +:+ " followers (ratio: " +:+ Py.format_1f ratio +:+ ")") /\
  (type f = "coordinated_network" ->
   message f = "Shares " +:+ pretty (length (channels_of pd))
               +:+ " channels with other suspicious accounts") /\
  (type f = "like_fishing" ->
   message f = "Uses likes to attract attention before DM scams").

(** The largest impact of a flag of each check, in the order of the
    checks. *)
Definition impact_caps : list Z := [3; 2; 2; 2; 2; 1; 3; 2].

(** * Proofs *)

(** The proofs case on the outcome of the Python operations without looking
    inside them. *)

#[local] Arguments Py.true_divide : simpl never.
#[local] Arguments Py.float_gt_int : simpl never.
#[local] Arguments Py.floor_log2_quot : simpl never.
#[local] Arguments Py.format_1f : simpl never.
#[local] Arguments Py.contains : simpl never.
#[local] Arguments Py.lower : simpl never.
#[local] Arguments Py.title : simpl never.
#[local] Arguments any_in : simpl never.
#[local] Arguments py_str : simpl never.
#[local] Arguments py_lower : simpl never.
#[local] Arguments py_in : simpl never.
#[local] Arguments py_gt : simpl never.
#[local] Arguments py_ge : simpl never.
#[local] Arguments py_len : simpl never.
#[local] Arguments py_truediv : simpl never.
#[local] Arguments py_truthy : simpl never.
#[local] Arguments dict_get : simpl never.
#[local] Arguments set_red_flags : simpl never.

(** ** The checks are local: they read the profile and append flags *)

Lemma set_red_flags_same self : set_red_flags (red_flags self ++ []) self = self.
Proof. destruct self; unfold set_red_flags; simpl. by rewrite app_nil_r. Qed.

(** Case on the innermost scrutinee of a [match] in the goal. *)
Ltac step_match :=
  match goal with
  | |- context [match ?x with _ => _ end] =>
      lazymatch x with
      | context [match _ with _ => _ end] => fail
      | _ => destruct x eqn:?
      end
  end.

(** Unfold a check run on [blank pd] down to the Python operations. *)
Ltac unfold_check c :=
  unfold flags_of, c, bind, lift, ret, self_profile_data, append_flag;
  cbn [profile_data blank red_flags app].

(** A check is [local]: every path through it leaves the instance alone or
    appends to [red_flags]. *)
Ltac local_tac c :=
  intros self; destruct (profile_data self) as [pd|] eqn:Hpd;
  unfold_check c; rewrite Hpd; [|reflexivity];
  repeat (step_match; cbn [profile_data blank red_flags app fst snd]);
  rewrite ?set_red_flags_same; reflexivity.

(** A check [emits] its type: every path appends nothing or one flag. *)
Ltac emits_tac c :=
  intros pd fs; unfold_check c;
  repeat (step_match; cbn [profile_data blank red_flags app fst snd set_red_flags]);
  intros [= <-]; try discriminate;
  first [ by left
        | right; eexists; split; [reflexivity|]; cbn; split; [reflexivity|];
          repeat step_match; lia ].

Lemma check_table_local : Forall (fun tc => local tc.2) check_table.
Proof.
  unfold check_table; repeat (apply Forall_cons_2; [cbn [snd]|]); [..|apply Forall_nil_2].
  - local_tac _check_geo_inconsistency.
  - local_tac _check_account_age.
  - local_tac _check_name_changes.
  - local_tac _check_telegram_links.
  - local_tac _check_suspicious_bio.
  - local_tac _check_follow_ratio.
  - local_tac _check_coordination_patterns.
  - local_tac _check_like_behavior.
Qed.

Lemma check_table_emits : Forall (fun tc => emits tc.1 tc.2) check_table.
Proof.
  unfold check_table; repeat (apply Forall_cons_2; [cbn [fst snd]|]); [..|apply Forall_nil_2].
  - emits_tac _check_geo_inconsistency.
  - emits_tac _check_account_age.
  - emits_tac _check_name_changes.
  - emits_tac _check_telegram_links.
  - emits_tac _check_suspicious_bio.
  - emits_tac _check_follow_ratio.
  - emits_tac _check_coordination_patterns.
  - emits_tac _check_like_behavior.
Qed.

Lemma checks_local : Forall local checks.
Proof. unfold checks. rewrite Forall_fmap. exact check_table_local. Qed.

(** ** Running the whole analysis *)

Lemma red_flags_set_red_flags fs self : red_flags (set_red_flags fs self) = fs.
Proof. reflexivity. Qed.

Lemma set_red_flags_twice fs fs' self :
  set_red_flags fs' (set_red_flags fs self) = set_red_flags fs' self.
Proof. reflexivity. Qed.

Lemma profile_data_set_red_flags fs self :
  profile_data (set_red_flags fs self) = profile_data self.
Proof. reflexivity. Qed.

Lemma seq_run {A} (cs : list (M unit)) (k : M A) pd :
  Forall local cs ->
  forall self, profile_data self = Some pd ->
    seq cs k self =
      let (fs, err) := collect cs pd in
      let self' := set_red_flags (red_flags self ++ fs) self in
      match err with
      | None => k self'
      | Some e => (Raise e, self')
      end.
Proof.
  induction 1 as [|c cs Hc _ IH]; intros self Hpd; cbn [seq fold_right collect].
  - by rewrite set_red_flags_same.
  - fold (seq cs k). unfold bind at 1.
    specialize (Hc self). rewrite Hpd in Hc. rewrite Hc.
    destruct (flags_of c pd) as [fs|e].
    + rewrite IH by done. destruct (collect cs pd) as [fs' err].
      cbn zeta. by rewrite red_flags_set_red_flags, set_red_flags_twice, app_assoc.
    + by rewrite set_red_flags_same.
Qed.

Lemma view_method_run m self pd :
  profile_data self = Some pd ->
  view_method m self = (view_for m pd, self).
Proof.
  intros Hpd. unfold view_for, view_method.
  destruct (String.eqb m "discovery"); [|destruct (String.eqb m "investigation")].
  - unfold _anonymize_profile, bind, self_profile_data, lift, ret.
    cbn [profile_data blank]. rewrite Hpd.
    repeat (step_match; cbn [fst snd]); reflexivity.
  - unfold _partial_anonymize, bind, self_profile_data, lift, ret.
    cbn [profile_data blank]. rewrite Hpd.
    repeat (step_match; cbn [fst snd]); reflexivity.
  - unfold self_profile_data. cbn [profile_data blank]. by rewrite Hpd.
Qed.

Lemma generate_report_run self m pd :
  mode self = Some m ->
  profile_data self = Some pd ->
  _generate_report self =
    match view_for m pd with
    | Ok view => (Ok (report_of m view self), self)
    | Raise e => (Raise e, self)
    end.
Proof.
  intros Hm Hpd. unfold _generate_report, self_mode, bind at 1. rewrite Hm.
  unfold bind at 1. fold (view_method m). rewrite (view_method_run m self pd Hpd).
  destruct (view_for m pd) as [view|e]; reflexivity.
Qed.

Theorem analyze_profile_run pd m self :
  analyze_profile pd m self =
    let (fs, err) := collect checks pd in
    match err with
    | Some e => (Raise e, set_red_flags fs (started pd m self))
    | None =>
        let self' := scored pd m fs self in
        match view_for m pd with
        | Ok view => (Ok (report_of m view self'), self')
        | Raise e => (Raise e, self')
        end
    end.
Proof.
  change (analyze_profile pd m)
    with (begin_analysis pd m >> seq checks (_calculate_score >> _generate_report)).
  unfold bind at 1. cbn [begin_analysis].
  rewrite (seq_run _ _ pd checks_local) by reflexivity.
  destruct (collect checks pd) as [fs [e|]]; cbn [red_flags app]; [reflexivity|].
  unfold bind, _calculate_score.
  apply (generate_report_run (scored pd m fs self) m pd); reflexivity.
Qed.

Lemma analyze_profile_ok pd m self r self' :
  analyze_profile pd m self = (Ok r, self') ->
  exists fs view,
    collect checks pd = (fs, None) /\
    view_for m pd = Ok view /\
    self' = scored pd m fs self /\
    r = report_of m view self'.
Proof.
  rewrite analyze_profile_run.
  destruct (collect checks pd) as [fs [e|]]; [discriminate|].
  cbn zeta. destruct (view_for m pd) as [view|e]; [|discriminate].
  intros [= <- <-]. by exists fs, view.
Qed.

Lemma analyze_profile_frame pd m self :
  same_setup (analyze_profile pd m self).2 self /\
  analysis_date (analyze_profile pd m self).2 = analysis_date self.
Proof.
  rewrite analyze_profile_run. unfold same_setup.
  destruct (collect checks pd) as [fs [e|]]; [done|].
  cbn zeta. destruct (view_for m pd); done.
Qed.

Lemma run_calls_frame calls self :
  same_setup (run_calls calls self) self /\
  analysis_date (run_calls calls self) = analysis_date self.
Proof.
  revert self. induction calls as [|[pd m] calls IH]; intros self; [done|].
  change (run_calls ((pd, m) :: calls) self)
    with (run_calls calls (analyze_profile pd m self).2).
  destruct (IH (analyze_profile pd m self).2) as [[H1 H2] H3].
  destruct (analyze_profile_frame pd m self) as [[H4 H5] H6].
  unfold same_setup. rewrite H1, H2, H3. done.
Qed.

(** An instance keeps the [max_score] that [__init__] gave it. *)
Lemma max_score_after_calls now calls :
  max_score (run_calls calls (__init__ now)) = 10.
Proof. by destruct (run_calls_frame calls (__init__ now)) as [[_ ->] _]. Qed.

(** ** What the checks can append *)

Lemma collect_per_check cs pd fs :
  collect cs pd = (fs, None) ->
  exists per_check,
    Forall2 (fun c fs_c => flags_of c pd = Ok fs_c) cs per_check /\
    fs = concat per_check.
Proof.
  revert fs. induction cs as [|c cs IH]; intros fs; cbn [collect].
  - intros [= <-]. exists []. split; [constructor|reflexivity].
  - destruct (flags_of c pd) as [fs_c|e] eqn:Hc; [|discriminate].
    destruct (collect cs pd) as [fs' err]. intros [= <- ->].
    destruct (IH fs' eq_refl) as (per & Hper & ->).
    exists (fs_c :: per). split; [by constructor|reflexivity].
Qed.

Lemma collect_shape tbl pd fs :
  Forall (fun tc => emits tc.1 tc.2) tbl ->
  collect (map snd tbl) pd = (fs, None) ->
  sublist (type <$> fs) (fst <$> tbl) /\
  Forall (fun f => 1 <= score_impact f <= 3) fs.
Proof.
  intros Htbl. revert fs.
  induction Htbl as [|[ty c] tbl Hc _ IH]; intros fs; cbn [map collect snd].
  - intros [= <-]. split; constructor.
  - destruct (flags_of c pd) as [fs_c|e] eqn:Hfs; [|discriminate].
    destruct (collect (map snd tbl) pd) as [fs' err] eqn:Hrest. intros [= <- ->].
    destruct (IH fs' eq_refl) as [Hsub Himp].
    destruct (Hc pd fs_c Hfs) as [->|(f & -> & Hty & Hf)]; cbn in *.
    + split; [by apply sublist_cons|done].
    + subst ty. split; [by apply sublist_skip|by constructor].
Qed.

Lemma sum_impacts_from flags base :
  fold_left (fun base_score flag => base_score + score_impact flag) flags base
  = base + total_impact flags.
Proof.
  revert base. induction flags as [|f flags IH]; intros base.
  - cbn. lia.
  - change (total_impact (f :: flags)) with (score_impact f + total_impact flags).
    cbn [fold_left]. rewrite IH. lia.
Qed.

Lemma sum_impacts_total flags : sum_impacts flags = total_impact flags.
Proof. unfold sum_impacts. rewrite sum_impacts_from. lia. Qed.

Lemma total_impact_nonneg flags :
  Forall (fun f => 1 <= score_impact f <= 3) flags -> 0 <= total_impact flags.
Proof.
  induction 1 as [|f flags Hf _ IH]; [done|].
  change (total_impact (f :: flags)) with (score_impact f + total_impact flags). lia.
Qed.

(** ** Concrete runs *)

(** Closed equations between results are decided by evaluation. *)
Ltac by_evaluation :=
  match goal with
  | |- ?P => refine (@bool_decide_eq_true_1 P _ _); vm_compute; exact eq_refl
  end.

Lemma misspelled_run :
  analyze_profile scenario "exprt" (__init__ sample_now)
  = (Ok misspelled_report, misspelled_final).
Proof. by_evaluation. Qed.

Lemma scenario_run :
  analyze_profile scenario "discovery" (__init__ sample_now)
  = (Ok scenario_report, scenario_final).
Proof. by_evaluation. Qed.

(** C1. For every record and mode, on an instance made by [__init__] and
    used for any sequence of calls, the score of the report is the sum of
    the impacts of the report's red flags clamped to 10, and lies between
    0 and 10. *)
Theorem risk_score_is_clamped_sum now calls pd m r self' :
  analyze_profile pd m (run_calls calls (__init__ now)) = (Ok r, self') ->
  Report.score (Report.risk_assessment r)
    = Z.min (total_impact (Report.red_flags r)) 10 /\
  0 <= Report.score (Report.risk_assessment r) <= 10.
Proof.
  intros (fs & view & Hfs & _ & -> & ->)%analyze_profile_ok.
  cbn [report_of scored Report.score Report.risk_assessment Report.red_flags
       score red_flags max_score].
  rewrite max_score_after_calls, sum_impacts_total.
  apply (collect_shape check_table) in Hfs as [_ Himp]; [|exact check_table_emits].
  apply total_impact_nonneg in Himp. lia.
Qed.

Lemma risk_score_is_clamped_sum_witness :
  analyze_profile scenario "discovery" (run_calls [] (__init__ sample_now))
    = (Ok scenario_report, scenario_final) /\
  Report.score (Report.risk_assessment scenario_report)
    = Z.min (total_impact (Report.red_flags scenario_report)) 10 /\
  0 <= Report.score (Report.risk_assessment scenario_report) <= 10.
Proof.
  split; [exact scenario_run|].
  exact (risk_score_is_clamped_sum sample_now [] scenario "discovery"
           scenario_report scenario_final scenario_run).
Defined.

(** ** The scenario *)

Lemma view_for_scenario m : exists view, view_for m scenario = Ok view.
Proof.
  unfold view_for, view_method.
  destruct (String.eqb m "discovery"); [|destruct (String.eqb m "investigation")].
  - exists scenario_discovery_view. by_evaluation.
  - exists scenario. by_evaluation.
  - exists scenario. by_evaluation.
Qed.

Lemma collect_scenario : collect checks scenario = (scenario_flags, None).
Proof. by_evaluation. Qed.

(** C2. On the scenario record, in every mode and on every instance made
    by [__init__], fresh or used, the analysis returns a report with
    exactly the four flags geo_inconsistency (3), telegram_promotion (2),
    suspicious_bio (1, keyword "signal") and like_fishing (2), in this
    order, with score 8 and level CRITICAL. *)
Theorem scenario_flags_score_level m now calls :
  exists r self',
    analyze_profile scenario m (run_calls calls (__init__ now)) = (Ok r, self') /\
    Report.red_flags r =
      [ {| type := "geo_inconsistency"; severity := "high";
           message := "Declared location: New York, Usa, Technical location: Nigeria";
           score_impact := 3 |};
        {| type := "telegram_promotion"; severity := "medium";
           message := "Telegram link found in bio (common for coordinated groups)";
           score_impact := 2 |};
        {| type := "suspicious_bio"; severity := "medium";
           message := "Bio contains suspicious keywords: signal";
           score_impact := 1 |};
        {| type := "like_fishing"; severity := "medium";
           message := "Uses likes to attract attention before DM scams";
           score_impact := 2 |} ] /\
    Report.risk_assessment r =
      {| Report.score := 8; Report.level := "CRITICAL"; Report.red_flags_count := 4 |}.
Proof.
  rewrite analyze_profile_run, collect_scenario.
  destruct (view_for_scenario m) as [view ->].
  cbn zeta. eexists _, _. split; [reflexivity|]. split; [reflexivity|].
  cbn [report_of scored Report.risk_assessment score red_flags max_score].
  rewrite max_score_after_calls. reflexivity.
Qed.

(** ** At most one flag per check *)

Lemma checks_append_at_most_one :
  Forall (fun c => forall self, exists fs,
            (length fs <= 1)%nat /\ red_flags (c self).2 = red_flags self ++ fs)
         checks.
Proof.
  unfold checks. rewrite Forall_fmap.
  assert (Forall (fun tc => local tc.2 /\ emits tc.1 tc.2) check_table) as H
    by (apply Forall_and; split; [exact check_table_local|exact check_table_emits]).
  eapply Forall_impl; [exact H|]. intros [ty c] [Hloc Hem] self; cbn in *.
  specialize (Hloc self). destruct (profile_data self) as [pd|].
  - rewrite Hloc. destruct (flags_of c pd) as [fs|e] eqn:Hfs.
    + exists fs. split; [|reflexivity].
      destruct (Hem pd fs Hfs) as [->|(f & -> & _)]; cbn; lia.
    + exists []. split; [cbn; lia|]. by rewrite app_nil_r.
  - rewrite Hloc. exists []. split; [cbn; lia|]. by rewrite app_nil_r.
Qed.

Lemma collect_checks_length pd fs :
  collect checks pd = (fs, None) -> (length fs <= 8)%nat.
Proof.
  intros [Hsub _]%(collect_shape check_table); [|exact check_table_emits].
  apply sublist_length in Hsub. by rewrite !length_fmap in Hsub.
Qed.

(** C5. A run that returns a report has between 0 and 8 red flags: the
    flags are those of the eight checks put end to end, each check giving
    none or one; on any instance a check appends at most one flag, the
    bio-keyword check included. *)
Theorem red_flags_at_most_one_per_check pd m self r self' :
  analyze_profile pd m self = (Ok r, self') ->
  (0 <= length (Report.red_flags r) <= 8)%nat /\
  Report.red_flags_count (Report.risk_assessment r) = length (Report.red_flags r) /\
  length checks = 8%nat /\
  (exists per_check,
      Forall2 (fun c fs_c => flags_of c pd = Ok fs_c /\ (length fs_c <= 1)%nat)
              checks per_check /\
      Report.red_flags r = concat per_check) /\
  Forall (fun c => forall s, exists fs,
            (length fs <= 1)%nat /\ red_flags (c s).2 = red_flags s ++ fs)
         checks /\
  (forall s, exists fs,
      (length fs <= 1)%nat /\
      red_flags (_check_suspicious_bio s).2 = red_flags s ++ fs).
Proof.
  intros (fs & view & Hfs & _ & -> & ->)%analyze_profile_ok.
  cbn [report_of scored Report.red_flags Report.risk_assessment
       Report.red_flags_count red_flags].
  split; [split; [lia|by eapply collect_checks_length]|].
  split; [reflexivity|]. split; [reflexivity|].
  split; [|split; [exact checks_append_at_most_one|]].
  - destruct (collect_per_check _ _ _ Hfs) as (per & Hper & ->).
    exists per. split; [|reflexivity].
    assert (Forall (fun c => forall fs_c, flags_of c pd = Ok fs_c -> (length fs_c <= 1)%nat)
                   checks) as Hone.
    { unfold checks. rewrite Forall_fmap.
      eapply Forall_impl; [exact check_table_emits|].
      intros [ty c] Hc fs_c Hfs_c; cbn in *.
      destruct (Hc pd fs_c Hfs_c) as [->|(f & -> & _)]; cbn; lia. }
    clear Hfs. induction Hper as [|c fs_c cs per Hc _ IH]; [constructor|].
    apply Forall_cons in Hone as [H1 Hone].
    constructor; [split; [done|by apply H1]|by apply IH].
  - pose proof checks_append_at_most_one as H.
    rewrite Forall_forall in H. apply H.
    apply list_elem_of_lookup. by exists 4%nat.
Qed.

Lemma red_flags_at_most_one_per_check_witness :
  analyze_profile scenario "discovery" (__init__ sample_now)
    = (Ok scenario_report, scenario_final) /\
  (0 <= length (Report.red_flags scenario_report) <= 8)%nat.
Proof.
  split; [exact scenario_run|].
  exact (proj1 (red_flags_at_most_one_per_check scenario "discovery"
                  (__init__ sample_now) scenario_report scenario_final scenario_run)).
Defined.

(** ** Recommendations *)

Lemma has_type_elem ty flags :
  has_type ty flags = bool_decide (ty ∈ type <$> flags).
Proof.
  induction flags as [|f flags IH]; cbn [has_type existsb fmap list_fmap].
  - symmetry. apply bool_decide_eq_false. by intros ?%elem_of_nil.
  - fold (has_type ty flags). rewrite IH.
    destruct (String.eqb_spec (type f) ty) as [->|Hne]; cbn [orb].
    + symmetry. apply bool_decide_eq_true. by left.
    + apply bool_decide_ext. rewrite elem_of_cons.
      split; [by right|]. intros [->|?]; done.
Qed.

Lemma recommendations_for_spec s flags :
  recommendations_for s flags = spec_recommendations s (type <$> flags).
Proof.
  unfold recommendations_for, spec_recommendations, spec_advice.
  rewrite !has_type_elem.
  replace (6 <=? s) with (bool_decide (6 <= s))
    by (destruct (Z.leb_spec 6 s); [by apply bool_decide_eq_true|
                                    apply bool_decide_eq_false; lia]).
  destruct (bool_decide (6 <= s)),
    (bool_decide ("geo_inconsistency" ∈ type <$> flags)),
    (bool_decide ("telegram_promotion" ∈ type <$> flags)),
    (bool_decide ("like_fishing" ∈ type <$> flags)); reflexivity.
Qed.

Lemma spec_recommendations_perm s types types' :
  types ≡ₚ types' -> spec_recommendations s types = spec_recommendations s types'.
Proof.
  intros Hp. unfold spec_recommendations, spec_advice.
  assert (forall ty, bool_decide (ty ∈ types) = bool_decide (ty ∈ types')) as Hin
    by (intros ty; apply bool_decide_ext; by rewrite Hp).
  by rewrite !Hin.
Qed.

(** C7. The recommendations of a report are the specification's list: for
    a clamped score of 6 or more the two warnings first, then the advice for
    geo_inconsistency, telegram_promotion and like_fishing for each type
    present, in that order, and the single "appears normal" line when
    that is empty. The list is the same for any reordering of the flags. *)
Theorem recommendations_fixed_priority pd m self r self' :
  analyze_profile pd m self = (Ok r, self') ->
  Report.recommendations r
    = spec_recommendations (Report.score (Report.risk_assessment r))
                           (type <$> Report.red_flags r) /\
  (forall flags', flags' ≡ₚ Report.red_flags r ->
     recommendations_for (Report.score (Report.risk_assessment r)) flags'
     = Report.recommendations r).
Proof.
  intros (fs & view & _ & _ & -> & ->)%analyze_profile_ok.
  cbn [report_of scored Report.recommendations Report.red_flags Report.score
       Report.risk_assessment red_flags score].
  split; [apply recommendations_for_spec|].
  intros flags' Hp. rewrite !recommendations_for_spec.
  apply spec_recommendations_perm. by rewrite Hp.
Qed.

Lemma recommendations_fixed_priority_witness :
  analyze_profile scenario "discovery" (__init__ sample_now)
    = (Ok scenario_report, scenario_final) /\
  Report.recommendations scenario_report
    = spec_recommendations (Report.score (Report.risk_assessment scenario_report))
                           (type <$> Report.red_flags scenario_report).
Proof.
  split; [exact scenario_run|].
  exact (proj1 (recommendations_fixed_priority scenario "discovery"
                  (__init__ sample_now) scenario_report scenario_final scenario_run)).
Defined.

(** ** Modes *)

Lemma view_for_other m pd :
  m <> "discovery" -> m <> "investigation" -> view_for m pd = Ok pd.
Proof.
  intros H1 H2. unfold view_for, view_method.
  apply String.eqb_neq in H1, H2. by rewrite H1, H2.
Qed.

Lemma disclaimers_differ : expert_disclaimer <> educational_disclaimer.
Proof. discriminate. Qed.

(** C10. In every mode other than "discovery" and "investigation" the
    profile view of the report is the input record itself, as in expert
    mode; the disclaimer is the expert one exactly when the mode is
    "expert" and the educational one in every other mode. *)
Theorem unknown_mode_shows_full_record pd m self r self' :
  analyze_profile pd m self = (Ok r, self') ->
  (m <> "discovery" -> m <> "investigation" ->
     Report.profile r = pd /\
     exists r_expert self_expert,
       analyze_profile pd "expert" self = (Ok r_expert, self_expert) /\
       Report.profile r_expert = Report.profile r) /\
  (m = "expert" -> Report.disclaimer (Report.meta r) = expert_disclaimer) /\
  (m <> "expert" -> Report.disclaimer (Report.meta r) = educational_disclaimer) /\
  expert_disclaimer <> educational_disclaimer.
Proof.
  intros Hrun.
  pose proof Hrun as (fs & view & Hfs & Hview & -> & ->)%analyze_profile_ok.
  cbn [report_of Report.profile Report.meta Report.disclaimer].
  split; [|split; [|split]].
  - intros H1 H2. rewrite view_for_other in Hview by done. injection Hview as <-.
    split; [reflexivity|].
    rewrite analyze_profile_run, Hfs. cbn zeta.
    rewrite view_for_other by discriminate.
    eexists _, _. split; reflexivity.
  - intros ->. reflexivity.
  - intros Hne. apply String.eqb_neq in Hne. by rewrite Hne.
  - exact disclaimers_differ.
Qed.

Lemma unknown_mode_shows_full_record_witness :
  analyze_profile scenario "exprt" (__init__ sample_now)
    = (Ok misspelled_report, misspelled_final) /\
  Report.profile misspelled_report = scenario /\
  Report.disclaimer (Report.meta misspelled_report) = educational_disclaimer.
Proof.
  split; [exact misspelled_run|].
  destruct (unknown_mode_shows_full_record scenario "exprt" (__init__ sample_now)
              misspelled_report misspelled_final misspelled_run)
    as (Hview & _ & Hdis & _).
  split.
  - apply Hview; discriminate.
  - apply Hdis; discriminate.
Defined.

(** ** Reusing an instance *)

Lemma analyze_profile_modulo_date pd m s1 s2 :
  same_setup s1 s2 ->
  result_map erase_date (analyze_profile pd m s1).1
  = result_map erase_date (analyze_profile pd m s2).1.
Proof.
  intros [Hv Hm]. rewrite !analyze_profile_run.
  destruct (collect checks pd) as [fs [e|]]; [done|].
  cbn zeta. destruct (view_for m pd); [|done].
  cbn. unfold erase_date, report_of, scored; cbn. by rewrite Hv, Hm.
Qed.

Lemma analyze_profile_same_instance pd m s1 s2 :
  same_setup s1 s2 ->
  analysis_date s1 = analysis_date s2 ->
  (analyze_profile pd m s1).1 = (analyze_profile pd m s2).1.
Proof.
  intros [Hv Hm] Hd. rewrite !analyze_profile_run.
  destruct (collect checks pd) as [fs [e|]]; [done|].
  cbn zeta. destruct (view_for m pd); [|done].
  cbn. unfold report_of, scored; cbn. by rewrite Hv, Hm, Hd.
Qed.

(** C8. A call starts from an empty flag list and a zero score. On one
    instance the outcome of analysing a record in a mode is the same
    after any sequence of other calls, timestamp included; on two
    instances, whatever calls each has served, the outcomes agree once
    the timestamp is blanked. *)
Theorem analysis_is_repeatable pd m :
  (forall self,
     red_flags (started pd m self) = [] /\ score (started pd m self) = 0) /\
  (forall self calls,
     (analyze_profile pd m (run_calls calls self)).1
     = (analyze_profile pd m self).1) /\
  (forall now1 now2 calls1 calls2,
     result_map erase_date
       (analyze_profile pd m (run_calls calls1 (__init__ now1))).1
     = result_map erase_date
         (analyze_profile pd m (run_calls calls2 (__init__ now2))).1).
Proof.
  split; [done|]. split.
  - intros self calls. destruct (run_calls_frame calls self) as [Hs Hd].
    by apply analyze_profile_same_instance.
  - intros now1 now2 calls1 calls2.
    apply analyze_profile_modulo_date.
    destruct (run_calls_frame calls1 (__init__ now1)) as [[H1 H2] _].
    destruct (run_calls_frame calls2 (__init__ now2)) as [[H3 H4] _].
    unfold same_setup. by rewrite H1, H2, H3, H4.
Qed.

(** ** Investigation mode *)

Lemma view_for_investigation pd :
  view_for "investigation" pd =
    match pd !! "username" with
    | None => Ok pd
    | Some username =>
        rbind (py_len username) (fun n =>
          if (4 <? n)%nat
          then rbind (mask_username username)
                     (fun masked => Ok (<["username" := masked]> pd))
          else Ok pd)
    end.
Proof.
  unfold view_for, view_method. cbn [String.eqb Ascii.eqb Bool.eqb].
  unfold _partial_anonymize, bind, self_profile_data, lift, ret.
  cbn [profile_data blank].
  destruct (pd !! "username") as [u|]; [|reflexivity].
  destruct (py_len u) as [n|e]; cbn [rbind fst]; [|reflexivity].
  destruct (4 <? n)%nat; [|reflexivity].
  destruct (mask_username u); reflexivity.
Qed.

Lemma append_cons c s1 s2 : String c s1 +:+ s2 = String c (s1 +:+ s2).
Proof. reflexivity. Qed.

Lemma last_two s :
  (2 <= String.length s)%nat ->
  exists front y z,
    s = front +:+ String y (String z "") /\
    Py.drop (String.length s - 2) s = String y (String z "") /\
    String.length front = (String.length s - 2)%nat.
Proof.
  induction s as [|c s IH]; cbn [String.length]; [lia|]. intros Hlen.
  destruct (decide (String.length s = 1%nat)) as [H1|H1].
  - destruct s as [|d [|? ?]]; cbn in H1; try lia.
    exists "", c, d. done.
  - destruct IH as (front & y & z & Hs & Hdrop & Hfront); [lia|].
    exists (String c front), y, z. rewrite append_cons, <- Hs.
    split; [reflexivity|]. split; [|cbn [String.length]; lia].
    replace (S (String.length s) - 2)%nat with (S (String.length s - 2)) by lia.
    exact Hdrop.
Qed.

Lemma mask_long u :
  (5 <= String.length u)%nat ->
  exists a b middle y z,
    u = String a (String b (middle +:+ String y (String z ""))) /\
    middle <> "" /\
    Py.slice_to 2 u +:+ "***" +:+ Py.slice_last 2 u
    = String a (String b ("***" +:+ String y (String z ""))).
Proof.
  destruct u as [|a [|b rest]]; cbn [String.length]; try lia. intros Hlen.
  destruct (last_two rest) as (middle & y & z & Hrest & Hdrop & Hmid); [lia|].
  exists a, b, middle, y, z. split; [by rewrite <- Hrest|]. split.
  - intros ->. cbn in Hmid. lia.
  - unfold Py.slice_last. cbn [String.length Py.slice_to].
    replace (S (S (String.length rest)) - 2)%nat
      with (S (S (String.length rest - 2))) by lia.
    cbn [Py.drop]. rewrite Hdrop. reflexivity.
Qed.


Lemma test_profile_investigation :
  analyze_profile test_profile "investigation" (__init__ sample_now)
  = outcome test_profile "investigation" scenario_flags
            (<["username" := VStr "@T***er"]> test_profile).
Proof. by_evaluation. Qed.


(** ** True division stays in range *)

Lemma round_half_even_bounds n d c :
  0 < d -> 0 <= n -> n < c * d -> 0 <= Py.round_half_even n d <= c.
Proof.
  intros Hd Hn Hlt. unfold Py.round_half_even.
  assert (0 <= n / d) by (apply Z.div_pos; lia).
  assert (n / d < c) by (apply Z.div_lt_upper_bound; lia).
  destruct (2 * (n mod d) <? d); [lia|].
  destruct (d <? 2 * (n mod d)); [lia|].
  destruct (Z.even (n / d)); lia.
Qed.

Lemma pow2_pos x : 0 < 2 ^ Z.max 0 x.
Proof. apply Z.pow_pos_nonneg; lia. Qed.

Lemma below_pow2_mono n d x y :
  0 < n -> 0 < d -> x <= y -> below_pow2 n d x -> below_pow2 n d y.
Proof.
  unfold below_pow2. intros Hn Hd Hxy H.
  destruct (Z.le_gt_cases 0 x) as [Hx|Hx].
  - rewrite Z.max_l in * by lia. rewrite (Z.max_r 0 x) in H by lia.
    rewrite (Z.max_r 0 y) by lia.
    assert (2 ^ x <= 2 ^ y) by (apply Z.pow_le_mono_r; lia). nia.
  - rewrite (Z.max_r 0 (- x)) in H by lia. rewrite (Z.max_l 0 x) in H by lia.
    destruct (Z.le_gt_cases 0 y) as [Hy|Hy].
    + rewrite (Z.max_l 0 (- y)), (Z.max_r 0 y) by lia.
      assert (1 <= 2 ^ (- x)) by (apply (Z.pow_le_mono_r 2 0); lia).
      assert (1 <= 2 ^ y) by (apply (Z.pow_le_mono_r 2 0); lia). nia.
    + rewrite (Z.max_r 0 (- y)), (Z.max_l 0 y) by lia.
      assert (2 ^ (- y) <= 2 ^ (- x)) by (apply Z.pow_le_mono_r; lia). nia.
Qed.

Lemma below_pow2_log2 n d :
  0 < n -> 0 < d -> below_pow2 n d (Z.log2 n - Z.log2 d + 1).
Proof.
  intros Hn Hd. unfold below_pow2.
  destruct (Z.log2_spec n Hn) as [_ Hn2]. destruct (Z.log2_spec d Hd) as [Hd1 _].
  pose proof (Z.log2_nonneg n). pose proof (Z.log2_nonneg d).
  set (L := Z.log2 n) in *. set (K := Z.log2 d) in *.
  destruct (Z.le_gt_cases 0 (L - K + 1)) as [Hx|Hx].
  - rewrite Z.max_l, Z.max_r by lia. rewrite Z.pow_0_r, Z.mul_1_r.
    assert (2 ^ Z.succ L = 2 ^ K * 2 ^ (L - K + 1)) as Hs
      by (rewrite <- Z.pow_add_r by lia; f_equal; lia).
    assert (0 < 2 ^ (L - K + 1)) by (apply Z.pow_pos_nonneg; lia). nia.
  - rewrite Z.max_r, Z.max_l by lia. rewrite Z.pow_0_r, Z.mul_1_r.
    assert (2 ^ K = 2 ^ Z.succ L * 2 ^ (- (L - K + 1))) as Hs
      by (rewrite <- Z.pow_add_r by lia; f_equal; lia).
    assert (0 < 2 ^ (- (L - K + 1))) by (apply Z.pow_pos_nonneg; lia). nia.
Qed.

Lemma below_pow2_scaled n d e :
  0 < n -> 0 < d -> below_pow2 n d (e + 53) ->
  n * 2 ^ Z.max 0 (- e) < 2 ^ 53 * (d * 2 ^ Z.max 0 e).
Proof.
  unfold below_pow2. intros Hn Hd H.
  destruct (Z.le_gt_cases 0 e) as [He|He].
  - rewrite (Z.max_l 0 (- e)), (Z.max_r 0 e) by lia.
    rewrite (Z.max_l 0 (- (e + 53))), (Z.max_r 0 (e + 53)) in H by lia.
    rewrite Z.pow_add_r in H by lia. lia.
  - rewrite (Z.max_r 0 (- e)), (Z.max_l 0 e) by lia.
    destruct (Z.le_gt_cases 0 (e + 53)) as [Hx|Hx].
    + rewrite (Z.max_l 0 (- (e + 53))), (Z.max_r 0 (e + 53)) in H by lia.
      assert (2 ^ 53 = 2 ^ (e + 53) * 2 ^ (- e)) as Hs
        by (rewrite <- Z.pow_add_r by lia; f_equal; lia).
      assert (0 < 2 ^ (- e)) by (apply Z.pow_pos_nonneg; lia).
      rewrite Z.pow_0_r in *. rewrite Hs. nia.
    + rewrite (Z.max_r 0 (- (e + 53))), (Z.max_l 0 (e + 53)) in H by lia.
      assert (2 ^ (- e) = 2 ^ (- (e + 53)) * 2 ^ 53) as Hs
        by (rewrite <- Z.pow_add_r by lia; f_equal; lia).
      rewrite Z.pow_0_r in *. rewrite Hs. nia.
Qed.

Lemma floor_log2_quot_spec n d :
  0 < n -> 0 < d ->
  ~ below_pow2 n d (Py.floor_log2_quot n d) /\
  below_pow2 n d (Py.floor_log2_quot n d + 1).
Proof.
  intros Hn Hd. unfold Py.floor_log2_quot.
  set (k := Z.log2 n - Z.log2 d).
  destruct (Z.ltb_spec (n * 2 ^ Z.max 0 (- k)) (d * 2 ^ Z.max 0 k)) as [Hlt|Hge].
  - split; [|by replace (k - 1 + 1) with k by lia].
    unfold below_pow2, k. clear Hlt k.
    destruct (Z.log2_spec n Hn) as [Hn1 _]. destruct (Z.log2_spec d Hd) as [_ Hd2].
    pose proof (Z.log2_nonneg n). pose proof (Z.log2_nonneg d).
    set (L := Z.log2 n) in *. set (K := Z.log2 d) in *.
    destruct (Z.le_gt_cases 0 (L - K - 1)) as [Hx|Hx].
    + rewrite Z.max_l, Z.max_r by lia. rewrite Z.pow_0_r, Z.mul_1_r.
      assert (2 ^ L = 2 ^ Z.succ K * 2 ^ (L - K - 1)) as Hs
        by (rewrite <- Z.pow_add_r by lia; f_equal; lia).
      assert (0 < 2 ^ (L - K - 1)) by (apply Z.pow_pos_nonneg; lia). nia.
    + rewrite Z.max_r, Z.max_l by lia. rewrite Z.pow_0_r, Z.mul_1_r.
      assert (2 ^ Z.succ K = 2 ^ L * 2 ^ (- (L - K - 1))) as Hs
        by (rewrite <- Z.pow_add_r by lia; f_equal; lia).
      assert (0 < 2 ^ (- (L - K - 1))) by (apply Z.pow_pos_nonneg; lia). nia.
  - split; [unfold below_pow2; lia|by apply below_pow2_log2].
Qed.

Lemma true_divide_in_range a b :
  b <> 0 -> Z.abs a < 2 ^ 1023 -> exists x, Py.true_divide a b = Ok x.
Proof.
  intros Hb Ha. unfold Py.true_divide.
  destruct (Z.eqb_spec b 0) as [|_]; [done|].
  destruct (Z.eqb_spec (Z.abs a) 0) as [|Hn0]; [by eexists|].
  set (n := Z.abs a) in *. set (d := Z.abs b).
  assert (0 < n) as Hn by lia. assert (0 < d) as Hd by lia.
  destruct (floor_log2_quot_spec n d Hn Hd) as [_ Hfl].
  assert (Py.floor_log2_quot n d <= 1022) as Hfl_le.
  { assert (Z.log2 n < 1023) by (apply Z.log2_lt_pow2; lia).
    pose proof (Z.log2_nonneg d). unfold Py.floor_log2_quot. destruct (_ <? _); lia. }
  set (fl := Py.floor_log2_quot n d) in *.
  set (e := Z.max (fl - 52) (-1074)).
  assert (below_pow2 n d (e + 53)) as He
    by (apply (below_pow2_mono n d (fl + 1)); [done|done|lia|done]).
  apply below_pow2_scaled in He; [|done|done].
  pose proof (pow2_pos e) as Hpe. pose proof (pow2_pos (- e)) as Hpne.
  apply round_half_even_bounds in He; [|nia|nia].
  set (m := Py.round_half_even _ _) in *.
  destruct (Z.leb_spec (2 ^ 1024) (m * 2 ^ Z.max 0 e)) as [Hov|_]; [|by eexists].
  exfalso.
  assert (2 ^ Z.max 0 e <= 2 ^ 970) by (apply Z.pow_le_mono_r; lia).
  assert (2 ^ 53 * 2 ^ 970 < 2 ^ 1024)
    by (rewrite <- Z.pow_add_r by lia; apply Z.pow_lt_mono_r; lia).
  nia.
Qed.

Lemma true_divide_zero b :
  b <> 0 ->
  exists x, Py.true_divide 0 b = Ok x /\ Py.float_gt_int x 10 = false.
Proof.
  intros Hb. unfold Py.true_divide. destruct (Z.eqb_spec b 0); [done|].
  change (Z.abs 0 =? 0) with true. cbv iota.
  eexists. split; [reflexivity|]. by destruct (b <? 0).
Qed.

(** ** The quotient against 10, in exact arithmetic *)

Lemma round_half_even_le n d t :
  0 < d -> n <= t * d -> Py.round_half_even n d <= t.
Proof.
  intros Hd Hle. unfold Py.round_half_even.
  pose proof (Z.div_mod n d ltac:(lia)) as Hdm.
  pose proof (Z.mod_pos_bound n d Hd) as Hr.
  assert (n / d <= t) by (apply Z.div_le_upper_bound; lia).
  destruct (Z.ltb_spec (2 * (n mod d)) d); [lia|].
  assert (n / d < t) by nia.
  destruct (d <? 2 * (n mod d)); [lia|]. destruct (Z.even (n / d)); lia.
Qed.

Lemma round_half_even_ge n d t :
  0 < d -> t * d <= n -> t <= Py.round_half_even n d.
Proof.
  intros Hd Hle. unfold Py.round_half_even.
  assert (t <= n / d) by (apply Z.div_le_lower_bound; lia).
  destruct (2 * (n mod d) <? d); [lia|].
  destruct (d <? 2 * (n mod d)); [lia|]. destruct (Z.even (n / d)); lia.
Qed.

Lemma round_half_even_up n d t :
  0 < d -> t * d <= n -> d < 2 * (n - t * d) -> t + 1 <= Py.round_half_even n d.
Proof.
  intros Hd Hle Hhalf. unfold Py.round_half_even.
  pose proof (Z.div_mod n d ltac:(lia)) as Hdm.
  pose proof (Z.mod_pos_bound n d Hd) as Hr.
  assert (t <= n / d) by (apply Z.div_le_lower_bound; lia).
  destruct (Z.ltb_spec (2 * (n mod d)) d); [nia|].
  destruct (Z.ltb_spec d (2 * (n mod d))); [lia|].
  assert (t < n / d) by nia. destruct (Z.even (n / d)); lia.
Qed.

(** The quotient of two positive ints, before the overflow test. *)
Lemma true_divide_positive n d :
  0 < n -> 0 < d ->
  Py.true_divide n d =
    let e := Z.max (Py.floor_log2_quot n d - 52) (-1074) in
    let m := Py.round_half_even (n * 2 ^ Z.max 0 (- e)) (d * 2 ^ Z.max 0 e) in
    if 2 ^ 1024 <=? m * 2 ^ Z.max 0 e then Raise OverflowError
    else Ok {| Py.neg := false; Py.mant := m; Py.exp := e |}.
Proof.
  intros Hn Hd. unfold Py.true_divide.
  destruct (Z.eqb_spec d 0); [lia|].
  rewrite (Z.abs_eq n), (Z.abs_eq d) by lia.
  destruct (Z.eqb_spec n 0); [lia|].
  destruct (Z.ltb_spec n 0); [lia|]. destruct (Z.ltb_spec d 0); [lia|]. reflexivity.
Qed.

Lemma quotient_gt_10_sound n d ratio :
  0 < d -> Py.true_divide n d = Ok ratio ->
  Py.float_gt_int ratio 10 = true -> 10 * d < n.
Proof.
  intros Hd Hdiv Hgt.
  destruct (Z.lt_trichotomy n 0) as [Hn|[->|Hn]].
  - exfalso. unfold Py.true_divide in Hdiv.
    destruct (Z.eqb_spec d 0); [lia|]. destruct (Z.eqb_spec (Z.abs n) 0); [lia|].
    destruct (Z.ltb_spec n 0); [|lia]. destruct (Z.ltb_spec d 0); [lia|].
    cbn [xorb] in Hdiv.
    set (e := Z.max _ _) in Hdiv. set (m := Py.round_half_even _ _) in Hdiv.
    pose proof (pow2_pos e). pose proof (pow2_pos (- e)).
    assert (0 <= m) by (apply round_half_even_ge; nia).
    destruct (_ <=? _); [discriminate|]. injection Hdiv as <-.
    unfold Py.float_gt_int in Hgt. cbn [Py.neg Py.mant Py.exp] in Hgt.
    apply Z.ltb_lt in Hgt. nia.
  - exfalso. destruct (true_divide_zero d ltac:(lia)) as (x & Hx & Hx10). congruence.
  - rewrite true_divide_positive in Hdiv by done. cbn zeta in Hdiv.
    destruct (floor_log2_quot_spec n d Hn Hd) as [Hlow _].
    set (fl := Py.floor_log2_quot n d) in *.
    set (e := Z.max (fl - 52) (-1074)) in *.
    set (m := Py.round_half_even _ _) in Hdiv.
    destruct (_ <=? _); [discriminate|]. injection Hdiv as <-.
    unfold Py.float_gt_int in Hgt. cbn [Py.neg Py.mant Py.exp] in Hgt.
    apply Z.ltb_lt in Hgt.
    destruct (Z.lt_ge_cases (10 * d) n) as [|Hle]; [done|exfalso].
    assert (fl <= 3) as Hfl.
    { destruct (Z.le_gt_cases fl 3) as [|Hbig]; [done|exfalso].
      apply Hlow. unfold below_pow2. rewrite Z.max_l, Z.max_r by lia.
      assert (2 ^ 4 <= 2 ^ fl) by (apply Z.pow_le_mono_r; lia).
      change (2 ^ 4) with 16 in *. rewrite Z.pow_0_r. nia. }
    assert (e < 0) by lia. subst m.
    rewrite (Z.max_r 0 (- e)), (Z.max_l 0 e) in * by lia.
    rewrite Z.pow_0_r, !Z.mul_1_r in *.
    assert (Py.round_half_even (n * 2 ^ (- e)) d <= 10 * 2 ^ (- e)); [|lia].
    apply round_half_even_le; [done|].
    assert (0 < 2 ^ (- e)) by (apply Z.pow_pos_nonneg; lia). nia.
Qed.

Lemma quotient_gt_10_complete n d ratio :
  0 < d -> d < 2 ^ 50 -> Py.true_divide n d = Ok ratio ->
  10 * d < n -> Py.float_gt_int ratio 10 = true.
Proof.
  intros Hd Hd50 Hdiv Hlt. assert (0 < n) as Hn by lia.
  rewrite true_divide_positive in Hdiv by done. cbn zeta in Hdiv.
  destruct (floor_log2_quot_spec n d Hn Hd) as [Hlow Hup].
  set (fl := Py.floor_log2_quot n d) in *.
  set (e := Z.max (fl - 52) (-1074)) in *.
  destruct (_ <=? _); [discriminate|]. injection Hdiv as <-.
  unfold Py.float_gt_int. cbn [Py.neg Py.mant Py.exp]. apply Z.ltb_lt.
  assert (3 <= fl) as Hfl.
  { destruct (Z.le_gt_cases 3 fl) as [|Hsmall]; [done|exfalso].
    unfold below_pow2 in Hup.
    destruct (Z.le_gt_cases 0 (fl + 1)).
    - rewrite Z.max_l, Z.max_r in Hup by lia. rewrite Z.pow_0_r in Hup.
      assert (2 ^ (fl + 1) <= 2 ^ 3) by (apply Z.pow_le_mono_r; lia).
      change (2 ^ 3) with 8 in *. nia.
    - rewrite Z.max_r, Z.max_l in Hup by lia. rewrite Z.pow_0_r in Hup.
      assert (0 < 2 ^ (- (fl + 1))) by (apply Z.pow_pos_nonneg; lia). nia. }
  assert (e = fl - 52) as He by lia.
  unfold below_pow2 in Hlow. rewrite Z.max_l, Z.max_r in Hlow by lia.
  rewrite Z.pow_0_r, Z.mul_1_r in Hlow. apply Z.nlt_ge in Hlow.
  destruct (Z.le_gt_cases e 0) as [Hneg|Hpos].
  - rewrite (Z.max_r 0 (- e)), (Z.max_l 0 e) by lia.
    rewrite Z.pow_0_r, !Z.mul_1_r.
    assert (0 < 2 ^ (- e)) by (apply Z.pow_pos_nonneg; lia).
    destruct (Z.eq_dec fl 3) as [H3|H3].
    + replace (- e) with 49 in * by lia.
      change (2 ^ 50) with (2 * 2 ^ 49) in Hd50.
      set (P := 2 ^ 49) in *.
      assert (10 * P + 1 <= Py.round_half_even (n * P) d); [|lia].
      assert (P <= (n - 10 * d) * P) by nia.
      apply round_half_even_up; [done|nia|nia].
    + assert (2 ^ fl * 2 ^ (- e) = 2 ^ 52) as Hs
        by (rewrite <- Z.pow_add_r by lia; f_equal; lia).
      assert (2 ^ 52 <= Py.round_half_even (n * 2 ^ (- e)) d)
        by (apply round_half_even_ge; [done|nia]).
      assert (2 ^ (- e) <= 2 ^ 48) by (apply Z.pow_le_mono_r; lia).
      assert (10 * 2 ^ 48 < 2 ^ 52) by done. lia.
  - rewrite (Z.max_l 0 (- e)), (Z.max_r 0 e) by lia.
    rewrite Z.pow_0_r, !Z.mul_1_r.
    assert (0 < 2 ^ e) by (apply Z.pow_pos_nonneg; lia).
    assert (2 ^ fl = 2 ^ 52 * 2 ^ e) as Hs
      by (rewrite <- Z.pow_add_r by lia; f_equal; lia).
    assert (2 ^ 52 <= Py.round_half_even n (d * 2 ^ e))
      by (apply round_half_even_ge; [nia|nia]).
    assert (10 < 2 ^ 52) by done. nia.
Qed.

(** ** The ratio check *)

Lemma true_divide_by_zero a : Py.true_divide a 0 = Raise ZeroDivisionError.
Proof. reflexivity. Qed.

Lemma true_divide_nonzero a b :
  b <> 0 -> Py.true_divide a b <> Raise ZeroDivisionError.
Proof.
  intros Hb. unfold Py.true_divide.
  destruct (Z.eqb_spec b 0) as [|_]; [done|].
  repeat (step_match; try discriminate).
Qed.

Lemma py_number_raises v e : py_number v = Raise e -> e = TypeError.
Proof. destruct v; cbn; congruence. Qed.

Lemma check_follow_ratio_run self pd following followers :
  profile_data self = Some pd ->
  py_number (dict_get pd "following" (VInt 0)) = Ok following ->
  py_number (dict_get pd "followers" (VInt 0)) = Ok followers ->
  _check_follow_ratio self =
    if 0 <? followers
    then match Py.true_divide following followers with
         | Ok ratio =>
             if Py.float_gt_int ratio 10
             then (Ok tt,
                   set_red_flags
                     (red_flags self
                      ++ [ratio_flag (dict_get pd "following" (VInt 0))
                                     (dict_get pd "followers" (VInt 0)) ratio])
                     self)
             else (Ok tt, self)
         | Raise e => (Raise e, self)
         end
    else (Ok tt, self).
Proof.
  intros Hpd Hfollowing Hfollowers.
  unfold _check_follow_ratio, bind, lift, ret, self_profile_data, append_flag.
  rewrite Hpd. unfold py_gt, py_truediv. rewrite Hfollowers, Hfollowing.
  cbn [rbind]. destruct (0 <? followers); [|reflexivity].
  destruct (Py.true_divide following followers) as [ratio|e]; [|reflexivity].
  destruct (Py.float_gt_int ratio 10); reflexivity.
Qed.

Lemma set_red_flags_grows fs self : fs <> [] -> set_red_flags (red_flags self ++ fs) self <> self.
Proof.
  intros Hfs Heq. apply (f_equal red_flags) in Heq.
  rewrite red_flags_set_red_flags in Heq.
  apply (f_equal length) in Heq. rewrite length_app in Heq.
  destruct fs; [done|]. cbn in Heq. lia.
Qed.



(** ** Well-typed records *)

(** Membership of a concrete pair in [schema]. *)
Ltac in_schema := apply list_elem_of_In; cbn; tauto.

Section WellTyped.
Context (pd : dict) (Hwt : well_typed pd = true).

Lemma well_typed_field key t : (key, t) ∈ schema -> field_ok t pd key = true.
Proof.
  revert Hwt. unfold well_typed. rewrite forallb_forall. intros H Hin.
  apply (H (key, t)). by apply list_elem_of_In.
Qed.

Lemma get_str key :
  (key, TStr) ∈ schema ->
  exists s, dict_get pd key (VStr "") = VStr s /\ (pd !! key = None -> s = "").
Proof.
  intros Hin. pose proof (well_typed_field key TStr Hin) as Hf.
  unfold field_ok, dict_get in *.
  destruct (pd !! key) as [[]|]; try discriminate; cbn; eauto.
  eexists. split; [reflexivity|]. discriminate.
Qed.

Lemma get_int key :
  (key, TInt) ∈ schema ->
  exists z, dict_get pd key (VInt 0) = VInt z /\ (pd !! key = None -> z = 0).
Proof.
  intros Hin. pose proof (well_typed_field key TInt Hin) as Hf.
  unfold field_ok, dict_get in *.
  destruct (pd !! key) as [[]|]; try discriminate; cbn; eauto.
  eexists. split; [reflexivity|]. discriminate.
Qed.

Lemma get_list :
  exists l, dict_get pd "shared_channels" (VList []) = VList l /\
            (pd !! "shared_channels" = None -> l = []).
Proof.
  pose proof (well_typed_field "shared_channels" TList ltac:(in_schema)) as Hf.
  unfold field_ok, dict_get in *.
  destruct (pd !! "shared_channels") as [[]|]; try discriminate; cbn; eauto.
  eexists. split; [reflexivity|]. discriminate.
Qed.

(** What each check appends to a well-typed record. *)

Lemma geo_flags :
  exists fs, flags_of _check_geo_inconsistency pd = Ok fs /\
    (dict_get pd "declared_location" (VStr "") = VStr ""
     \/ dict_get pd "technical_location" (VStr "") = VStr "" -> fs = []).
Proof.
  destruct (get_str "declared_location" ltac:(in_schema)) as (d & Hd & _).
  destruct (get_str "technical_location" ltac:(in_schema)) as (t & Ht & _).
  unfold_check _check_geo_inconsistency. rewrite Hd, Ht. unfold py_lower.
  cbn [fst snd]. destruct d as [|c d]; [cbn; eauto|].
  destruct t as [|c' t]; [cbn; eauto|].
  change (Py.lower (String c d)) with (String (Py.to_lower c) (Py.lower d)).
  change (Py.lower (String c' t)) with (String (Py.to_lower c') (Py.lower t)).
  cbn [String.eqb orb].
  destruct (any_in us_indicators _ && any_in nigeria_indicators _); cbn;
    eexists; (split; [reflexivity|]); intros [|]; discriminate.
Qed.

Lemma age_flags :
  exists fs, flags_of _check_account_age pd = Ok fs /\
    (pd !! "join_date" = None \/ pd !! "followers" = None -> fs = []).
Proof.
  destruct (get_str "join_date" ltac:(in_schema)) as (j & Hj & Hj0).
  destruct (get_int "followers" ltac:(in_schema)) as (f & Hf & Hf0).
  unfold_check _check_account_age. rewrite Hj, Hf. unfold py_in, py_gt, py_number.
  cbn [fst snd rbind].
  destruct (Py.contains "2024" j) eqn:H24; [|destruct (Py.contains "2023" j) eqn:H23];
    cbn [fst snd].
  - destruct (Z.ltb_spec 1000 f); cbn; eexists; (split; [reflexivity|]); [|done].
    intros [Hn|Hn]; [rewrite (Hj0 Hn) in H24; discriminate|specialize (Hf0 Hn); lia].
  - destruct (Z.ltb_spec 1000 f); cbn; eexists; (split; [reflexivity|]); [|done].
    intros [Hn|Hn]; [rewrite (Hj0 Hn) in H23; discriminate|specialize (Hf0 Hn); lia].
  - cbn. eauto.
Qed.

Lemma names_flags :
  exists fs, flags_of _check_name_changes pd = Ok fs /\
    (pd !! "name_changes" = None -> fs = []).
Proof.
  destruct (get_int "name_changes" ltac:(in_schema)) as (n & Hn & Hn0).
  unfold_check _check_name_changes. rewrite Hn. unfold py_ge, py_number.
  cbn [fst snd rbind].
  destruct (Z.leb_spec 3 n); cbn; eexists; (split; [reflexivity|]); [|done].
  intros Hnone. specialize (Hn0 Hnone). lia.
Qed.

Lemma telegram_flags :
  exists fs, flags_of _check_telegram_links pd = Ok fs /\
    (pd !! "bio" = None -> fs = []).
Proof.
  destruct (get_str "bio" ltac:(in_schema)) as (b & Hb & Hb0).
  unfold_check _check_telegram_links. rewrite Hb. unfold py_lower. cbn [fst snd].
  destruct (any_in telegram_patterns (Py.lower b)) eqn:Hany; cbn;
    eexists; (split; [reflexivity|]); [|done].
  intros Hnone. rewrite (Hb0 Hnone) in Hany. discriminate.
Qed.

Lemma bio_flags :
  exists fs, flags_of _check_suspicious_bio pd = Ok fs /\
    (pd !! "bio" = None -> fs = []).
Proof.
  destruct (get_str "bio" ltac:(in_schema)) as (b & Hb & Hb0).
  unfold_check _check_suspicious_bio. rewrite Hb. unfold py_lower. cbn [fst snd].
  destruct (List.filter _ scam_keywords) eqn:Hfound; cbn;
    eexists; (split; [reflexivity|]); [done|].
  intros Hnone. rewrite (Hb0 Hnone) in Hfound. discriminate.
Qed.

Lemma ratio_flags :
  moderate_following pd = true ->
  exists fs, flags_of _check_follow_ratio pd = Ok fs /\
    (pd !! "followers" = None \/ pd !! "following" = None -> fs = []).
Proof.
  intros Hmod.
  destruct (get_int "following" ltac:(in_schema)) as (g & Hg & Hg0).
  destruct (get_int "followers" ltac:(in_schema)) as (f & Hf & Hf0).
  unfold flags_of.
  rewrite (check_follow_ratio_run (blank pd) pd g f); [|done|by rewrite Hg|by rewrite Hf].
  destruct (Z.ltb_spec 0 f) as [Hpos|Hnpos]; [|cbn; eauto].
  assert (Z.abs g < 2 ^ 1023) as Hbound.
  { unfold moderate_following, dict_get in *.
    destruct (pd !! "following") as [v|]; cbn in Hg; [|injection Hg as <-; done].
    subst v. by apply Z.ltb_lt. }
  destruct (true_divide_in_range g f ltac:(lia) Hbound) as [ratio Hratio].
  rewrite Hratio.
  destruct (Py.float_gt_int ratio 10) eqn:Hgt; cbn;
    eexists; (split; [reflexivity|]); [|done].
  intros [Hn|Hn]; [specialize (Hf0 Hn); lia|].
  specialize (Hg0 Hn). subst g.
  destruct (true_divide_zero f ltac:(lia)) as (x & Hx & Hx10). congruence.
Qed.

Lemma coordination_flags :
  exists fs, flags_of _check_coordination_patterns pd = Ok fs /\
    (pd !! "shared_channels" = None -> fs = []).
Proof.
  destruct get_list as (l & Hl & Hl0).
  unfold_check _check_coordination_patterns. rewrite Hl. unfold py_len.
  cbn [fst snd].
  destruct (Nat.leb_spec 2 (length l)); cbn; eexists; (split; [reflexivity|]); [|done].
  intros Hnone. rewrite (Hl0 Hnone) in *. cbn in *. lia.
Qed.

(** The like-fishing check takes the truth value of any value. *)
Lemma like_flags :
  exists fs, flags_of _check_like_behavior pd = Ok fs /\
    (pd !! "like_fishing" = None -> fs = []).
Proof.
  unfold_check _check_like_behavior. unfold dict_get.
  destruct (pd !! "like_fishing") as [v|]; cbn [default from_option id];
    [|cbn; eauto].
  destruct (py_truthy v); cbn; eexists; (split; [reflexivity|]); discriminate.
Qed.

End WellTyped.

(** ** The discovery view *)

Lemma redact_lookup key placeholder d k :
  redact key placeholder d !! k =
    if decide (key = k)
    then (fun _ => VStr placeholder) <$> d !! k
    else d !! k.
Proof.
  unfold redact, dict_has. destruct (decide (key = k)) as [->|Hne].
  - destruct (d !! k) as [v|] eqn:Hk.
    + rewrite bool_decide_eq_true_2 by eauto. by rewrite lookup_insert_eq.
    + rewrite bool_decide_eq_false_2 by (intros [? ?]; congruence). by rewrite Hk.
  - destruct (bool_decide _); [by rewrite lookup_insert_ne|done].
Qed.

Lemma view_for_discovery pd :
  view_for "discovery" pd =
    let anon := redact "display_name" "[ANONYMIZED]" (redact "username" "@[REDACTED]" pd) in
    match pd !! "bio" with
    | None => Ok anon
    | Some (VStr bio) => Ok (<["bio" := VStr (scrub_bio bio)]> anon)
    | Some _ => Raise TypeError
    end.
Proof.
  unfold view_for, view_method. cbn [String.eqb Ascii.eqb Bool.eqb].
  unfold _anonymize_profile, bind, self_profile_data, lift, ret.
  cbn [profile_data blank].
  fold (redact "username" "@[REDACTED]" pd).
  fold (redact "display_name" "[ANONYMIZED]" (redact "username" "@[REDACTED]" pd)).
  rewrite !redact_lookup.
  repeat (destruct (decide _) as [|_]; [discriminate|]).
  destruct (pd !! "bio") as [[bio| | | |]|]; cbn [re_sub fst]; try reflexivity.
  by rewrite insert_insert_eq.
Qed.

Lemma view_well_typed pd m :
  well_typed pd = true -> exists view, view_for m pd = Ok view.
Proof.
  intros H.
  destruct (String.eqb_spec m "discovery") as [->|Hd];
    [|destruct (String.eqb_spec m "investigation") as [->|Hi]].
  - rewrite view_for_discovery. cbn zeta.
    pose proof (well_typed_field pd H "bio" TStr ltac:(in_schema)) as Hf.
    unfold field_ok in Hf.
    destruct (pd !! "bio") as [[]|]; try discriminate; eauto.
  - rewrite view_for_investigation.
    pose proof (well_typed_field pd H "username" TStr ltac:(in_schema)) as Hf.
    unfold field_ok in Hf.
    destruct (pd !! "username") as [[u| | | |]|]; try discriminate; [|eauto].
    unfold py_len, mask_username. cbn [rbind].
    destruct (4 <? String.length u)%nat; cbn [rbind]; eauto.
  - rewrite view_for_other by done. eauto.
Qed.

(** ** Absent fields *)

Lemma collect_omits tbl pd fs ty c :
  NoDup (fst <$> tbl) ->
  Forall (fun tc => emits tc.1 tc.2) tbl ->
  (ty, c) ∈ tbl ->
  collect (map snd tbl) pd = (fs, None) ->
  flags_of c pd = Ok [] ->
  ty ∉ type <$> fs.
Proof.
  intros Hnd Hem. revert fs.
  induction Hem as [|[ty0 c0] tbl Hc0 Hem IH]; intros fs Hin Hfs Hnone;
    [by apply elem_of_nil in Hin|].
  cbn [map collect snd] in Hfs. cbn [fmap list_fmap fst] in Hnd.
  apply NoDup_cons in Hnd as [Hty0 Hnd].
  destruct (flags_of c0 pd) as [fs0|] eqn:Hfs0; [|discriminate].
  destruct (collect (map snd tbl) pd) as [fs' err] eqn:Hrest.
  injection Hfs as <- ->.
  pose proof (collect_shape tbl pd fs' Hem Hrest) as [Hsub _].
  rewrite fmap_app, elem_of_app. intros [Hin0|Hin'].
  - apply elem_of_cons in Hin as [[= -> ->]|Hin].
    + rewrite Hnone in Hfs0. injection Hfs0 as <-. by apply elem_of_nil in Hin0.
    + destruct (Hc0 pd fs0 Hfs0) as [->|(f & -> & Hf & _)]; cbn in *;
        [by apply elem_of_nil in Hin0|].
      apply list_elem_of_singleton in Hin0. subst ty0 ty. apply Hty0.
      apply list_elem_of_fmap. by exists (type f, c).
  - apply elem_of_cons in Hin as [[= -> ->]|Hin].
    + apply Hty0. by apply (sublist_subseteq _ _ Hsub).
    + by apply (IH Hnd fs').
Qed.

Lemma check_table_types_distinct : NoDup (fst <$> check_table).
Proof. by_evaluation. Qed.

(** Membership of a concrete pair in a table, leftmost match first. *)
Ltac in_table := apply list_elem_of_In; cbn; repeat (first [left; reflexivity | right]).

(** From a check's lemma and an absent key: the check appends nothing. *)
Ltac no_flag lemma Hkey :=
  destruct lemma as (fs & Hfs & Hnone); rewrite Hfs; f_equal; apply Hnone;
  unfold dict_get; rewrite ?Hkey; auto.

Lemma absent_trigger pd key ty :
  well_typed pd = true -> moderate_following pd = true ->
  (key, ty) ∈ trigger_types -> pd !! key = None ->
  exists c, (ty, c) ∈ check_table /\ flags_of c pd = Ok [].
Proof.
  intros Hwt Hmod Hin Hkey. apply list_elem_of_In in Hin. cbn in Hin.
  repeat (destruct Hin as [[= <- <-]|Hin]); [..|done];
    eexists; (split; [in_table|]).
  - no_flag (geo_flags pd Hwt) Hkey.
  - no_flag (geo_flags pd Hwt) Hkey.
  - no_flag (age_flags pd Hwt) Hkey.
  - no_flag (age_flags pd Hwt) Hkey.
  - no_flag (names_flags pd Hwt) Hkey.
  - no_flag (telegram_flags pd Hwt) Hkey.
  - no_flag (bio_flags pd Hwt) Hkey.
  - no_flag (ratio_flags pd Hwt Hmod) Hkey.
  - no_flag (ratio_flags pd Hwt Hmod) Hkey.
  - no_flag (coordination_flags pd Hwt) Hkey.
  - no_flag (like_flags pd) Hkey.
Qed.

Lemma empty_location pd key :
  well_typed pd = true ->
  key = "declared_location" \/ key = "technical_location" ->
  pd !! key = Some (VStr "") ->
  flags_of _check_geo_inconsistency pd = Ok [].
Proof.
  intros Hwt Hk Hkey. destruct Hk as [-> | ->]; no_flag (geo_flags pd Hwt) Hkey.
Qed.

Lemma collect_well_typed pd :
  well_typed pd = true -> moderate_following pd = true ->
  exists fs, collect checks pd = (fs, None).
Proof.
  intros Hwt Hmod. unfold checks, check_table. cbn [map snd collect].
  destruct (geo_flags pd Hwt) as (f1 & -> & _).
  destruct (age_flags pd Hwt) as (f2 & -> & _).
  destruct (names_flags pd Hwt) as (f3 & -> & _).
  destruct (telegram_flags pd Hwt) as (f4 & -> & _).
  destruct (bio_flags pd Hwt) as (f5 & -> & _).
  destruct (ratio_flags pd Hwt Hmod) as (f6 & -> & _).
  destruct (coordination_flags pd Hwt) as (f7 & -> & _).
  destruct (like_flags pd) as (f8 & -> & _).
  eauto.
Qed.

Lemma dict_get_insert_default pd key dflt k d :
  pd !! key = None -> (key = k -> dflt = d) ->
  dict_get (<[key := dflt]> pd) k d = dict_get pd k d.
Proof.
  intros Hkey Hsame. unfold dict_get. destruct (decide (key = k)) as [<-|Hne].
  - rewrite lookup_insert_eq, Hkey. cbn. by apply Hsame.
  - by rewrite lookup_insert_ne.
Qed.

(** Every read of the check sees the same value with the default inserted. *)
Ltac same_reads c :=
  match goal with
  | Hkey : ?pd !! ?key = None |- flags_of c (<[?key := ?dflt]> ?pd) = _ =>
      unfold flags_of, c, bind, lift, ret, self_profile_data, append_flag;
      cbn [profile_data blank];
      rewrite !(dict_get_insert_default pd key dflt)
        by first [exact Hkey | intros ?; first [reflexivity | discriminate]];
      repeat step_match; reflexivity
  end.

Lemma absent_is_default pd key dflt c :
  (key, dflt) ∈ field_defaults -> pd !! key = None -> c ∈ checks ->
  flags_of c (<[key := dflt]> pd) = flags_of c pd.
Proof.
  intros Hin Hkey Hc.
  apply list_elem_of_In in Hin. cbn in Hin.
  apply list_elem_of_In in Hc. cbn in Hc.
  repeat (destruct Hc as [<-|Hc]); [..|done].
  - repeat (destruct Hin as [[= <- <-]|Hin]); [..|done];
      same_reads _check_geo_inconsistency.
  - repeat (destruct Hin as [[= <- <-]|Hin]); [..|done];
      same_reads _check_account_age.
  - repeat (destruct Hin as [[= <- <-]|Hin]); [..|done];
      same_reads _check_name_changes.
  - repeat (destruct Hin as [[= <- <-]|Hin]); [..|done];
      same_reads _check_telegram_links.
  - repeat (destruct Hin as [[= <- <-]|Hin]); [..|done];
      same_reads _check_suspicious_bio.
  - repeat (destruct Hin as [[= <- <-]|Hin]); [..|done];
      same_reads _check_follow_ratio.
  - repeat (destruct Hin as [[= <- <-]|Hin]); [..|done];
      same_reads _check_coordination_patterns.
  - repeat (destruct Hin as [[= <- <-]|Hin]); [..|done];
      same_reads _check_like_behavior.
Qed.




(** ** Scrubbing the bio *)

Lemma handle_free_user s : handle_free ("@[USER]" +:+ s) = handle_free s.
Proof. reflexivity. Qed.

Lemma handle_free_channel s : handle_free ("t.me/[CHANNEL]" +:+ s) = handle_free s.
Proof. reflexivity. Qed.

Lemma handle_free_cons c s :
  handle_free (String c s) = true <->
  (c = "@"%char -> head_not_word s = true) /\ handle_free s = true.
Proof.
  cbn [handle_free]. rewrite andb_true_iff, negb_true_iff.
  destruct (Ascii.eqb_spec c "@") as [->|Hne]; cbn [andb].
  - destruct s as [|w s]; cbn [head_not_word]; [intuition auto|].
    rewrite negb_true_iff. intuition auto.
  - intuition congruence.
Qed.

Lemma starts_match_at c s :
  starts_match "@" (String c s) = true ->
  c = "@"%char /\ head_not_word s = false.
Proof.
  unfold starts_match. cbn [String.prefix String.length Py.drop].
  destruct (ascii_dec "@" c) as [<-|]; [|discriminate].
  destruct s as [|w s]; cbn; [discriminate|]. intros ->. done.
Qed.

Lemma not_starts_match_at s :
  starts_match "@" (String "@" s) = false -> head_not_word s = true.
Proof.
  unfold starts_match. cbn [String.prefix String.length Py.drop].
  destruct (ascii_dec "@" "@") as [_|]; [|done].
  destruct s as [|w s]; cbn; [done|]. by intros ->.
Qed.

Lemma sub_handles_free s in_word :
  handle_free (sub_scan "@" "@[USER]" 0 in_word s) = true /\
  (in_word = true \/ head_not_word s = true ->
   head_not_word (sub_scan "@" "@[USER]" 0 in_word s) = true).
Proof.
  revert in_word. induction s as [|c s IH]; intros in_word; [done|].
  cbn [sub_scan].
  destruct (in_word && Py.is_word c) eqn:Hskip; [destruct (IH true); auto|].
  destruct (starts_match "@" (String c s)) eqn:Hstart.
  - change (String.length "@" - 1)%nat with 0%nat.
    rewrite handle_free_user. destruct (IH true). done.
  - destruct (IH false) as [Hfree Hhead]. split.
    + apply handle_free_cons. split; [|done].
      intros ->. apply Hhead. right. by apply not_starts_match_at.
    + cbn [head_not_word]. intros [->|Hc]; [|done].
      cbn [andb] in Hskip. by rewrite Hskip.
Qed.

Lemma starts_match_tme c s :
  starts_match "t.me/" (String c s) = true -> c = "t"%char.
Proof.
  unfold starts_match. cbn [String.prefix].
  destruct (ascii_dec "t" c) as [<-|]; [done|discriminate].
Qed.

Lemma sub_channels_free s pending in_word :
  handle_free s = true ->
  handle_free (sub_scan "t.me/" "t.me/[CHANNEL]" pending in_word s) = true /\
  ((0 < pending)%nat \/ in_word = true \/ head_not_word s = true ->
   head_not_word (sub_scan "t.me/" "t.me/[CHANNEL]" pending in_word s) = true).
Proof.
  revert pending in_word. induction s as [|c s IH]; intros pending in_word Hs; [done|].
  apply handle_free_cons in Hs as [Hat Hs].
  cbn [sub_scan]. destruct pending as [|p]; [|destruct (IH p true Hs); auto].
  destruct (in_word && Py.is_word c) eqn:Hskip; [destruct (IH 0%nat true Hs); auto|].
  destruct (starts_match "t.me/" (String c s)) eqn:Hstart.
  - apply starts_match_tme in Hstart as ->.
    rewrite handle_free_channel. destruct (IH (String.length "t.me/" - 1)%nat true Hs).
    split; [done|]. intros [?|[->|Hc]]; [lia|discriminate|discriminate].
  - destruct (IH 0%nat false Hs) as [Hfree Hhead]. split.
    + apply handle_free_cons. split; [|done]. intros Hc. apply Hhead. auto.
    + cbn [head_not_word]. intros [?|[->|Hc]]; [lia| |done].
      cbn [andb] in Hskip. by rewrite Hskip.
Qed.

Lemma scrub_bio_handle_free bio : handle_free (scrub_bio bio) = true.
Proof.
  unfold scrub_bio. apply sub_channels_free. apply sub_handles_free.
Qed.

Lemma contains_cons sub c s :
  Py.contains sub (String c s) = String.prefix sub (String c s) || Py.contains sub s.
Proof. reflexivity. Qed.

Lemma handle_free_no_handle w rest s :
  Py.is_word w = true -> handle_free s = true ->
  Py.contains (String "@" (String w rest)) s = false.
Proof.
  intros Hw. induction s as [|c s IH]; intros Hs; [done|].
  apply handle_free_cons in Hs as [Hat Hs].
  rewrite contains_cons, (IH Hs), orb_false_r.
  cbn [String.prefix]. destruct (ascii_dec "@" c) as [<-|]; [|done].
  specialize (Hat eq_refl). destruct s as [|d s]; [done|].
  cbn [String.prefix]. destruct (ascii_dec w d) as [<-|]; [|done].
  cbn in Hat. by rewrite Hw in Hat.
Qed.

(** ** Discovery and expert views *)

Lemma named_discovery_run :
  analyze_profile named_profile "discovery" (__init__ sample_now)
  = outcome named_profile "discovery" named_flags named_view.
Proof. by_evaluation. Qed.

Lemma named_expert_run :
  analyze_profile named_profile "expert" (__init__ sample_now)
  = outcome named_profile "expert" named_flags named_profile.
Proof. by_evaluation. Qed.




(** * Further properties of the analyser *)

(** ** The report as a whole *)

Lemma setup_after_calls now calls :
  version (run_calls calls (__init__ now)) = "1.0" /\
  analysis_date (run_calls calls (__init__ now)) = now.
Proof. by destruct (run_calls_frame calls (__init__ now)) as [[-> _] ->]. Qed.

(** X1. The report's meta block names the tool and version "1.0", echoes
    the mode, and carries as its date the time at which the instance was
    made, not the time of the call; the flag count is the length of the
    flag list and the level is the level of the score. *)
Theorem report_meta_from_instance now calls pd m r self' :
  analyze_profile pd m (run_calls calls (__init__ now)) = (Ok r, self') ->
  Report.meta r =
    {| Report.tool := "DeepXCheck";
       Report.version := "1.0";
       Report.mode := m;
       Report.analysis_date := now;
       Report.disclaimer :=
         if String.eqb m "expert" then expert_disclaimer else educational_disclaimer |} /\
  Report.red_flags_count (Report.risk_assessment r) = length (Report.red_flags r) /\
  Report.level (Report.risk_assessment r)
    = risk_level (Report.score (Report.risk_assessment r)) /\
  red_flags self' = Report.red_flags r /\
  score self' = Report.score (Report.risk_assessment r).
Proof.
  intros (fs & view & _ & _ & -> & ->)%analyze_profile_ok.
  destruct (setup_after_calls now calls) as [Hv Hd].
  unfold report_of, scored; cbn. by rewrite Hv, Hd.
Qed.

Lemma report_meta_from_instance_witness :
  analyze_profile scenario "discovery" (run_calls [] (__init__ sample_now))
    = (Ok scenario_report, scenario_final) /\
  Report.analysis_date (Report.meta scenario_report) = sample_now.
Proof.
  split; [exact scenario_run|].
  exact (f_equal Report.analysis_date
           (proj1 (report_meta_from_instance sample_now [] scenario "discovery"
                     scenario_report scenario_final scenario_run))).
Defined.

(** ** The flags of a report *)

Ltac kinds_tac c :=
  intros pd fs; unfold_check c;
  repeat (step_match; cbn [profile_data blank red_flags app fst snd set_red_flags]);
  intros [= <-]; try discriminate;
  first [ apply Forall_nil_2
        | apply Forall_cons_2; [|apply Forall_nil_2];
          unfold kind_of; cbn [type severity score_impact];
          repeat step_match;
          apply list_elem_of_In; cbn; tauto ].

Lemma checks_build_kinds : Forall builds_kinds checks.
Proof.
  unfold checks, check_table; cbn [map snd].
  repeat (apply Forall_cons_2; [|]); [..|apply Forall_nil_2].
  - kinds_tac _check_geo_inconsistency.
  - kinds_tac _check_account_age.
  - kinds_tac _check_name_changes.
  - kinds_tac _check_telegram_links.
  - kinds_tac _check_suspicious_bio.
  - kinds_tac _check_follow_ratio.
  - kinds_tac _check_coordination_patterns.
  - kinds_tac _check_like_behavior.
Qed.

Lemma collect_kinds cs pd fs :
  Forall builds_kinds cs -> collect cs pd = (fs, None) ->
  Forall (fun f => kind_of f ∈ flag_kinds) fs.
Proof.
  intros Hcs. revert fs. induction Hcs as [|c cs Hc _ IH]; intros fs; cbn [collect].
  - intros [= <-]. constructor.
  - destruct (flags_of c pd) as [fs_c|] eqn:Hfs; [|discriminate].
    destruct (collect cs pd) as [fs' err]. intros [= <- ->].
    apply Forall_app. split; [by apply (Hc pd)|by apply IH].
Qed.

(** X2. The flags of a report have pairwise distinct types, stand in the
    order in which the checks run, and each has the severity and the impact
    that the source fixes for its type (1 or 2 for suspicious_bio). *)
Theorem report_flags_distinct_ordered_of_fixed_kinds pd m self r self' :
  analyze_profile pd m self = (Ok r, self') ->
  NoDup (type <$> Report.red_flags r) /\
  sublist (type <$> Report.red_flags r)
    ["geo_inconsistency"; "suspicious_growth"; "identity_instability";
     "telegram_promotion"; "suspicious_bio"; "unbalanced_ratio";
     "coordinated_network"; "like_fishing"] /\
  Forall (fun f => kind_of f ∈ flag_kinds) (Report.red_flags r).
Proof.
  intros (fs & view & Hfs & _ & -> & ->)%analyze_profile_ok.
  cbn [report_of scored Report.red_flags red_flags].
  pose proof (collect_shape check_table pd fs check_table_emits Hfs) as [Hsub _].
  split; [|split].
  - eapply sublist_NoDup; [exact check_table_types_distinct|exact Hsub].
  - exact Hsub.
  - exact (collect_kinds checks pd fs checks_build_kinds Hfs).
Qed.

Lemma report_flags_distinct_ordered_of_fixed_kinds_witness :
  analyze_profile scenario "discovery" (__init__ sample_now)
    = (Ok scenario_report, scenario_final) /\
  NoDup (type <$> Report.red_flags scenario_report).
Proof.
  split; [exact scenario_run|].
  exact (proj1 (report_flags_distinct_ordered_of_fixed_kinds scenario "discovery"
                  (__init__ sample_now) scenario_report scenario_final scenario_run)).
Defined.

(** ** Score and level *)

Lemma risk_level_min_10 s : risk_level (Z.min s 10) = risk_level s.
Proof.
  unfold risk_level.
  destruct (Z.leb_spec 8 s), (Z.leb_spec 6 s), (Z.leb_spec 4 s), (Z.leb_spec 2 s),
    (Z.leb_spec 8 (Z.min s 10)), (Z.leb_spec 6 (Z.min s 10)),
    (Z.leb_spec 4 (Z.min s 10)), (Z.leb_spec 2 (Z.min s 10)); try lia; reflexivity.
Qed.

Lemma risk_level_index s :
  exists i, risk_levels !! i = Some (risk_level s) /\
            (i = 0%nat /\ s < 2 \/ i = 1%nat /\ 2 <= s < 4 \/ i = 2%nat /\ 4 <= s < 6 \/
             i = 3%nat /\ 6 <= s < 8 \/ i = 4%nat /\ 8 <= s).
Proof.
  unfold risk_level.
  destruct (Z.leb_spec 8 s); [exists 4%nat; split; [done|lia]|].
  destruct (Z.leb_spec 6 s); [exists 3%nat; split; [done|lia]|].
  destruct (Z.leb_spec 4 s); [exists 2%nat; split; [done|lia]|].
  destruct (Z.leb_spec 2 s); [exists 1%nat; split; [done|lia]|].
  exists 0%nat; split; [done|lia].
Qed.

(** X3. The risk level never goes down when the score goes up, it is one
    of the five labels, and clamping a score to 10 does not change it. *)
Theorem risk_level_monotone s1 s2 :
  s1 <= s2 ->
  (exists i j,
     risk_levels !! i = Some (risk_level s1) /\
     risk_levels !! j = Some (risk_level s2) /\
     (i <= j)%nat) /\
  risk_level (Z.min s2 10) = risk_level s2.
Proof.
  intros Hle. split; [|apply risk_level_min_10].
  destruct (risk_level_index s1) as (i & Hi & Hi').
  destruct (risk_level_index s2) as (j & Hj & Hj').
  exists i, j. split; [done|split; [done|lia]].
Qed.

Lemma risk_level_monotone_witness :
  3 <= 7 /\
  exists i j,
    risk_levels !! i = Some (risk_level 3) /\
    risk_levels !! j = Some (risk_level 7) /\
    (i <= j)%nat.
Proof.
  split; [lia|]. exact (proj1 (risk_level_monotone 3 7 ltac:(lia))).
Defined.

Lemma total_impact_positive flags :
  Forall (fun f => 1 <= score_impact f <= 3) flags ->
  flags <> [] -> 1 <= total_impact flags.
Proof.
  intros Hall Hne. destruct Hall as [|f flags Hf Hrest]; [done|].
  change (total_impact (f :: flags)) with (score_impact f + total_impact flags).
  apply total_impact_nonneg in Hrest. lia.
Qed.

(** X4. On an instance made by [__init__], the score of a report is 0
    exactly when it has no flags and 10 exactly when the impacts sum to
    10 or more; the level is the level of the unclamped sum, so it is
    MINIMAL exactly when the impacts sum to at most 1. *)
Theorem score_zero_iff_no_flags now calls pd m r self' :
  analyze_profile pd m (run_calls calls (__init__ now)) = (Ok r, self') ->
  (Report.score (Report.risk_assessment r) = 0 <-> Report.red_flags r = []) /\
  (Report.score (Report.risk_assessment r) = 10
   <-> 10 <= total_impact (Report.red_flags r)) /\
  Report.level (Report.risk_assessment r)
    = risk_level (total_impact (Report.red_flags r)) /\
  (Report.level (Report.risk_assessment r) = "MINIMAL"
   <-> total_impact (Report.red_flags r) <= 1).
Proof.
  intros (fs & view & Hfs & _ & -> & ->)%analyze_profile_ok.
  cbn [report_of scored Report.score Report.level Report.risk_assessment
       Report.red_flags score red_flags max_score].
  rewrite max_score_after_calls, sum_impacts_total.
  apply (collect_shape check_table) in Hfs as [_ Himp]; [|exact check_table_emits].
  pose proof (total_impact_nonneg fs Himp) as Hnn.
  assert (risk_level (Z.min (total_impact fs) 10) = risk_level (total_impact fs)) as Hlvl
    by apply risk_level_min_10.
  split; [|split; [lia|split; [exact Hlvl|]]].
  - split.
    + intros H0. destruct fs as [|f fs]; [done|].
      pose proof (total_impact_positive (f :: fs) Himp ltac:(done)). lia.
    + intros ->. reflexivity.
  - rewrite Hlvl. unfold risk_level.
    destruct (Z.leb_spec 8 (total_impact fs)), (Z.leb_spec 6 (total_impact fs)),
      (Z.leb_spec 4 (total_impact fs)), (Z.leb_spec 2 (total_impact fs));
      split; intros; try discriminate; try lia; reflexivity.
Qed.

Lemma score_zero_iff_no_flags_witness :
  analyze_profile scenario "discovery" (run_calls [] (__init__ sample_now))
    = (Ok scenario_report, scenario_final) /\
  Report.level (Report.risk_assessment scenario_report)
    = risk_level (total_impact (Report.red_flags scenario_report)).
Proof.
  split; [exact scenario_run|].
  exact (proj1 (proj2 (proj2 (score_zero_iff_no_flags sample_now [] scenario "discovery"
                                scenario_report scenario_final scenario_run)))).
Defined.

(** ** Recommendations *)

Lemma spec_advice_sublist s types :
  sublist (spec_advice s types)
    [rec_avoid_financial; rec_report_scams; rec_verify_geo;
     rec_telegram_caution; rec_likes_bait].
Proof.
  unfold spec_advice.
  repeat case_bool_decide; cbn [app];
    repeat first [ apply sublist_nil_l | apply sublist_skip | apply sublist_cons ].
Qed.

(** X5. [_generate_recommendations] always returns between one and five
    lines, without repetition; the "appears normal" line is returned
    exactly when the score is below 6 and no flag has the geo, telegram or
    like-fishing type, and then it is the only line. *)
Theorem recommendations_never_empty s flags :
  (1 <= length (recommendations_for s flags) <= 5)%nat /\
  NoDup (recommendations_for s flags) /\
  (rec_appears_normal ∈ recommendations_for s flags
   <-> s < 6 /\ Forall (fun f => type f <> "geo_inconsistency" /\
                                 type f <> "telegram_promotion" /\
                                 type f <> "like_fishing") flags) /\
  (rec_appears_normal ∈ recommendations_for s flags
   <-> recommendations_for s flags = [rec_appears_normal]).
Proof.
  rewrite recommendations_for_spec.
  set (types := type <$> flags).
  assert (Forall (fun f => type f <> "geo_inconsistency" /\
                           type f <> "telegram_promotion" /\
                           type f <> "like_fishing") flags
          <-> ("geo_inconsistency" ∉ types) /\ ("telegram_promotion" ∉ types) /\
              ("like_fishing" ∉ types)) as ->.
  { unfold types. rewrite Forall_forall. setoid_rewrite list_elem_of_fmap. split.
    - intros H. repeat split; intros (f & Hty & Hf); destruct (H f Hf) as (?&?&?); congruence.
    - intros (H1 & H2 & H3) f Hf. repeat split; intros Hty; [apply H1|apply H2|apply H3];
        by exists f. }
  pose proof (spec_advice_sublist s types) as Hsub.
  assert (rec_appears_normal ∉ spec_advice s types) as Hnot.
  { intros Hin. apply (sublist_subseteq _ _ Hsub) in Hin.
    revert Hin. by_evaluation. }
  unfold spec_recommendations.
  destruct (spec_advice s types) as [|a advice] eqn:Hadv.
  - split; [cbn; lia|]. split; [apply NoDup_singleton|].
    assert (s < 6 /\ ("geo_inconsistency" ∉ types) /\ ("telegram_promotion" ∉ types) /\
            ("like_fishing" ∉ types)) as Hquiet.
    { revert Hadv. unfold spec_advice. repeat case_bool_decide; try discriminate.
      intros _. repeat split; [lia|done..]. }
    split; split; intros _; try done; apply list_elem_of_singleton; reflexivity.
  - split; [|split; [|split]].
    + apply sublist_length in Hsub. cbn in *. lia.
    + eapply sublist_NoDup; [|exact Hsub]. by_evaluation.
    + split; [intros Hin; by destruct Hnot|].
      intros (Hs & Hg & Ht & Hl). exfalso. revert Hadv. unfold spec_advice.
      repeat case_bool_decide; try discriminate; try lia; done.
    + split; [intros Hin; by destruct Hnot|].
      intros Heq. destruct Hnot. rewrite Heq. apply list_elem_of_singleton; reflexivity.
Qed.

(** ** What the assessment depends on *)

(** A check's flags are a function of the readings. *)
Ltac reads_tac c :=
  unfold_check c;
  repeat match goal with H : _ = _ |- _ => rewrite H; clear H end;
  repeat (step_match; cbn [profile_data blank red_flags app fst snd set_red_flags]);
  reflexivity.

Lemma readings_flags pd1 pd2 :
  readings pd1 = readings pd2 ->
  Forall (fun c => flags_of c pd1 = flags_of c pd2) checks.
Proof.
  unfold readings. intros [= H1 H2 H3 H4 H5 H6 H7 H8 H9 H10].
  unfold checks, check_table; cbn [map snd].
  repeat (apply Forall_cons_2; [|]); [..|apply Forall_nil_2].
  - reads_tac _check_geo_inconsistency.
  - reads_tac _check_account_age.
  - reads_tac _check_name_changes.
  - reads_tac _check_telegram_links.
  - reads_tac _check_suspicious_bio.
  - reads_tac _check_follow_ratio.
  - reads_tac _check_coordination_patterns.
  - reads_tac _check_like_behavior.
Qed.

Lemma collect_same cs pd1 pd2 :
  Forall (fun c => flags_of c pd1 = flags_of c pd2) cs ->
  collect cs pd1 = collect cs pd2.
Proof.
  induction 1 as [|c cs Hc _ IH]; [done|]. cbn [collect]. by rewrite Hc, IH.
Qed.

Lemma readings_collect pd1 pd2 :
  readings pd1 = readings pd2 -> collect checks pd1 = collect checks pd2.
Proof. intros H. by apply collect_same, readings_flags. Qed.

Lemma signal_keys_readings pd1 pd2 :
  Forall (fun k => pd1 !! k = pd2 !! k) signal_keys -> readings pd1 = readings pd2.
Proof.
  unfold signal_keys. rewrite !Forall_cons.
  intros (H1 & H2 & H3 & H4 & H5 & H6 & H7 & H8 & H9 & H10 & _).
  unfold readings, dict_get. by rewrite H1, H2, H3, H4, H5, H6, H7, H8, H9, H10.
Qed.

(** A record on which the checks run through has a string as bio, or
    none. *)
Lemma collect_ok_bio pd fs :
  collect checks pd = (fs, None) ->
  pd !! "bio" = None \/ exists bio, pd !! "bio" = Some (VStr bio).
Proof.
  intros (per & Hper & _)%collect_per_check.
  destruct (Forall2_lookup_l _ _ _ 3%nat _check_telegram_links Hper eq_refl)
    as (fs_c & _ & Hc).
  revert Hc. unfold_check _check_telegram_links. unfold dict_get, py_lower.
  destruct (pd !! "bio") as [[bio| | | |]|]; cbn; try discriminate; eauto.
Qed.

(** Once the checks have run through, only the investigation view can
    raise, and only on a username that is not a string. *)
Lemma view_raises pd fs m e :
  collect checks pd = (fs, None) ->
  view_for m pd = Raise e ->
  m = "investigation" /\ e = TypeError /\
  exists v, pd !! "username" = Some v /\ has_ty TStr v = false.
Proof.
  intros Hfs Hview.
  destruct (String.eqb_spec m "discovery") as [->|Hd];
    [|destruct (String.eqb_spec m "investigation") as [->|Hi]].
  - exfalso. rewrite view_for_discovery in Hview. cbn zeta in Hview.
    destruct (collect_ok_bio pd fs Hfs) as [Hbio|[bio Hbio]];
      rewrite Hbio in Hview; discriminate.
  - split; [done|]. rewrite view_for_investigation in Hview.
    destruct (pd !! "username") as [[u|z|b|l|]|]; unfold py_len, mask_username in Hview;
      cbn [rbind] in Hview.
    + destruct (4 <? String.length u)%nat; cbn [rbind] in Hview; discriminate.
    + split; [congruence|by eexists].
    + split; [congruence|by eexists].
    + split; [|by eexists].
      destruct (4 <? length l)%nat; cbn [rbind] in Hview; congruence.
    + split; [congruence|by eexists].
    + discriminate.
  - rewrite view_for_other in Hview by done. discriminate.
Qed.

(** X6. The mode changes the view and the disclaimer only. When a call
    succeeds in some mode, the call in expert mode succeeds too, shows the
    record itself and gives the same risk assessment, flags and
    recommendations. When a call raises, the expert call raises the same
    exception, or else the mode is investigation, the username is not a
    string, the exception is a TypeError and the expert call succeeds; the
    discovery view never raises once the checks have run through. *)
Theorem mode_changes_only_the_view pd m self :
  (forall r self', analyze_profile pd m self = (Ok r, self') ->
     exists r_e self_e,
       analyze_profile pd "expert" self = (Ok r_e, self_e) /\
       assessment r_e = assessment r /\
       Report.profile r_e = pd) /\
  (forall e self', analyze_profile pd m self = (Raise e, self') ->
     (analyze_profile pd "expert" self).1 = Raise e \/
     (m = "investigation" /\ e = TypeError /\
      (exists v, pd !! "username" = Some v /\ has_ty TStr v = false) /\
      exists r_e, (analyze_profile pd "expert" self).1 = Ok r_e)).
Proof.
  rewrite !analyze_profile_run.
  destruct (collect checks pd) as [fs [e0|]] eqn:Hfs.
  - split; [intros r self' [=]|]. intros e self' [= <- _]. by left.
  - cbn zeta. rewrite (view_for_other "expert") by discriminate. split.
    + destruct (view_for m pd) as [view|e0]; intros r self' [= <- _].
      eexists _, _. split; [reflexivity|]. split; reflexivity.
    + intros e self' Hrun. right.
      destruct (view_for m pd) as [view|e0] eqn:Hview; [discriminate|].
      injection Hrun as -> _.
      destruct (view_raises pd fs m e Hfs Hview) as (-> & -> & Hu).
      split; [done|]. split; [done|]. split; [done|by eexists].
Qed.

(** X7. The risk assessment, the flags and the recommendations of a report
    depend only on the ten fields the checks use: two records that agree on
    these give the same, whatever their other fields (username, display
    name and device among them) and whatever the modes. *)
Theorem assessment_reads_ten_fields pd1 pd2 m1 m2 self r1 r2 self1 self2 :
  Forall (fun k => pd1 !! k = pd2 !! k) signal_keys ->
  analyze_profile pd1 m1 self = (Ok r1, self1) ->
  analyze_profile pd2 m2 self = (Ok r2, self2) ->
  Report.risk_assessment r1 = Report.risk_assessment r2 /\
  Report.red_flags r1 = Report.red_flags r2 /\
  Report.recommendations r1 = Report.recommendations r2.
Proof.
  intros Hkeys%signal_keys_readings%readings_collect.
  intros (fs1 & v1 & Hfs1 & _ & -> & ->)%analyze_profile_ok.
  intros (fs2 & v2 & Hfs2 & _ & -> & ->)%analyze_profile_ok.
  rewrite Hkeys in Hfs1. rewrite Hfs1 in Hfs2. injection Hfs2 as <-.
  done.
Qed.

Lemma assessment_reads_ten_fields_witness :
  Forall (fun k => scenario !! k = scenario !! k) signal_keys /\
  Report.red_flags scenario_report = Report.red_flags misspelled_report.
Proof.
  assert (Forall (fun k => scenario !! k = scenario !! k) signal_keys) as Hkeys
    by (apply Forall_forall; reflexivity).
  split; [exact Hkeys|].
  exact (proj1 (proj2 (assessment_reads_ten_fields scenario scenario "discovery" "exprt"
                         (__init__ sample_now) scenario_report misspelled_report
                         scenario_final misspelled_final Hkeys scenario_run misspelled_run))).
Defined.

(** ** What the views hide *)

Lemma other_keys_readings pd1 pd2 :
  (forall k, k <> "username" -> k <> "display_name" -> pd1 !! k = pd2 !! k) ->
  readings pd1 = readings pd2.
Proof.
  intros H. apply signal_keys_readings. unfold signal_keys.
  repeat (apply Forall_cons_2; [apply H; discriminate|]). apply Forall_nil_2.
Qed.

Lemma redact_names_same pd1 pd2 :
  (forall k, k <> "username" -> k <> "display_name" -> pd1 !! k = pd2 !! k) ->
  (is_Some (pd1 !! "username") <-> is_Some (pd2 !! "username")) ->
  (is_Some (pd1 !! "display_name") <-> is_Some (pd2 !! "display_name")) ->
  redact "display_name" "[ANONYMIZED]" (redact "username" "@[REDACTED]" pd1)
  = redact "display_name" "[ANONYMIZED]" (redact "username" "@[REDACTED]" pd2).
Proof.
  intros Hother Hu Hn. apply map_eq. intros k. rewrite !redact_lookup.
  destruct (decide ("display_name" = k)) as [<-|Hk1].
  - destruct (decide ("username" = "display_name")) as [|_]; [discriminate|].
    destruct (pd1 !! "display_name") as [v1|] eqn:H1,
             (pd2 !! "display_name") as [v2|] eqn:H2; try done.
    + destruct Hn as [Hn _]. destruct Hn as [? ?]; [by eexists|done].
    + destruct Hn as [_ Hn]. destruct Hn as [? ?]; [by eexists|done].
  - destruct (decide ("username" = k)) as [<-|Hk2]; [|by apply Hother].
    destruct (pd1 !! "username") as [v1|] eqn:H1,
             (pd2 !! "username") as [v2|] eqn:H2; try done.
    + destruct Hu as [Hu _]. destruct Hu as [? ?]; [by eexists|done].
    + destruct Hu as [_ Hu]. destruct Hu as [? ?]; [by eexists|done].
Qed.

(** The outcome of a call is fixed by the flags, the view and the setup. *)
Lemma analyze_profile_same pd1 pd2 m self :
  collect checks pd1 = collect checks pd2 ->
  view_for m pd1 = view_for m pd2 ->
  (analyze_profile pd1 m self).1 = (analyze_profile pd2 m self).1.
Proof.
  intros Hc Hv. rewrite !analyze_profile_run, Hc, Hv.
  destruct (collect checks pd2) as [fs [e|]]; [done|].
  cbn zeta. by destruct (view_for m pd2).
Qed.

(** X8. A discovery-mode call does not depend on what the username and the
    display name are: two records that differ only in the values of these
    two fields give the same report, or raise the same exception. *)
Theorem discovery_report_ignores_names pd1 pd2 self :
  (forall k, k <> "username" -> k <> "display_name" -> pd1 !! k = pd2 !! k) ->
  (is_Some (pd1 !! "username") <-> is_Some (pd2 !! "username")) ->
  (is_Some (pd1 !! "display_name") <-> is_Some (pd2 !! "display_name")) ->
  (analyze_profile pd1 "discovery" self).1 = (analyze_profile pd2 "discovery" self).1.
Proof.
  intros Hother Hu Hn. apply analyze_profile_same.
  - by apply readings_collect, other_keys_readings.
  - rewrite !view_for_discovery. cbn zeta.
    rewrite (redact_names_same pd1 pd2) by done.
    by rewrite (Hother "bio") by discriminate.
Qed.

Lemma discovery_report_ignores_names_witness :
  (analyze_profile named_profile "discovery" (__init__ sample_now)).1
  = (analyze_profile
       (<["username" := VStr "@mallory"]>
          (<["display_name" := VStr "Mallory"]> named_profile))
       "discovery" (__init__ sample_now)).1.
Proof.
  apply (discovery_report_ignores_names named_profile
           (<["username" := VStr "@mallory"]>
              (<["display_name" := VStr "Mallory"]> named_profile))
           (__init__ sample_now)).
  - intros k H1 H2. by rewrite !lookup_insert_ne.
  - split; intros _; [by rewrite lookup_insert_eq|by_evaluation].
  - split; intros _; [|by_evaluation].
    rewrite lookup_insert_ne by discriminate. by rewrite lookup_insert_eq.
Defined.

Lemma mask_length u :
  (4 < String.length u)%nat ->
  String.length (Py.slice_to 2 u +:+ "***" +:+ Py.slice_last 2 u) = 7%nat.
Proof.
  intros Hlen. destruct (mask_long u ltac:(lia)) as (a & b & middle & y & z & _ & _ & ->).
  reflexivity.
Qed.



(** ** The scrubbed bio has nothing left to scrub *)

Lemma starts_match_tme_inv s :
  starts_match "t.me/" s = true ->
  exists w rest, s = "t.me/" +:+ String w rest /\ Py.is_word w = true.
Proof.
  unfold starts_match. rewrite andb_true_iff. intros [Hpre Hword].
  destruct s as [|c0 [|c1 [|c2 [|c3 [|c4 s]]]]]; try discriminate;
    cbn [String.prefix] in Hpre;
    repeat match type of Hpre with
           | (if ascii_dec ?a ?b then _ else _) = true =>
               destruct (ascii_dec a b) as [<-|]; [|discriminate]
           end; try discriminate.
  cbn [String.length Py.drop] in Hword.
  destruct s as [|w rest]; [discriminate|]. by exists w, rest.
Qed.

Lemma starts_match_tme_intro w rest :
  Py.is_word w = true -> starts_match "t.me/" ("t.me/" +:+ String w rest) = true.
Proof. intros Hw. unfold starts_match. cbn. exact Hw. Qed.

(** In the copying state a character other than [t] comes from the input. *)
Lemma scan_step_copy d out s :
  sub_scan "t.me/" "t.me/[CHANNEL]" 0 false s = String d out ->
  d <> "t"%char ->
  exists s', s = String d s' /\ out = sub_scan "t.me/" "t.me/[CHANNEL]" 0 false s'.
Proof.
  destruct s as [|c s]; [discriminate|]. cbn [sub_scan andb].
  destruct (starts_match "t.me/" (String c s)).
  - intros [= <- _] Hd. done.
  - intros [= <- <-] _. by eexists.
Qed.

(** In the copying state the output starts with the character the input
    starts with. *)
Lemma scan_head d out s :
  sub_scan "t.me/" "t.me/[CHANNEL]" 0 false s = String d out ->
  exists s', s = String d s'.
Proof.
  destruct s as [|c s]; [discriminate|]. cbn [sub_scan andb].
  destruct (starts_match "t.me/" (String c s)) eqn:Hstart.
  - apply starts_match_tme in Hstart as ->. intros [= <- _]. by eexists.
  - intros [= <- _]. by eexists.
Qed.

(** A match in the output after a copied character is a match in the input. *)
Lemma scan_match_transfer c s :
  starts_match "t.me/" (String c (sub_scan "t.me/" "t.me/[CHANNEL]" 0 false s)) = true ->
  starts_match "t.me/" (String c s) = true.
Proof.
  intros (w & rest & Heq & Hw)%starts_match_tme_inv.
  injection Heq as -> Heq.
  apply scan_step_copy in Heq as (s1 & -> & Heq); [|discriminate].
  symmetry in Heq. apply scan_step_copy in Heq as (s2 & -> & Heq); [|discriminate].
  symmetry in Heq. apply scan_step_copy in Heq as (s3 & -> & Heq); [|discriminate].
  symmetry in Heq. apply scan_step_copy in Heq as (s4 & -> & Heq); [|discriminate].
  symmetry in Heq. apply scan_head in Heq as (s5 & ->).
  by apply starts_match_tme_intro.
Qed.

Lemma channel_free_channel s :
  channel_free ("t.me/[CHANNEL]" +:+ s) = channel_free s.
Proof. reflexivity. Qed.

Lemma sub_channels_channel_free s pending in_word :
  channel_free (sub_scan "t.me/" "t.me/[CHANNEL]" pending in_word s) = true.
Proof.
  revert pending in_word. induction s as [|c s IH]; intros pending in_word; [done|].
  cbn [sub_scan]. destruct pending as [|p]; [|apply IH].
  destruct (in_word && Py.is_word c); [apply IH|].
  destruct (starts_match "t.me/" (String c s)) eqn:Hstart.
  - rewrite channel_free_channel. apply IH.
  - cbn [channel_free]. rewrite IH, andb_true_r. apply negb_true_iff.
    apply not_true_iff_false. intros Hout.
    apply scan_match_transfer in Hout. congruence.
Qed.

Lemma scrub_bio_channel_free bio : channel_free (scrub_bio bio) = true.
Proof. apply sub_channels_channel_free. Qed.

Lemma channel_free_no_channel w rest s :
  Py.is_word w = true -> channel_free s = true ->
  Py.contains ("t.me/" +:+ String w rest) s = false.
Proof.
  intros Hw.
  change ("t.me/" +:+ String w rest)
    with (String "t" (String "." (String "m" (String "e" (String "/" (String w rest)))))).
  induction s as [|c s IH]; intros Hs; [reflexivity|].
  cbn [channel_free] in Hs. apply andb_true_iff in Hs as [Hc Hs].
  apply negb_true_iff in Hc.
  rewrite contains_cons, (IH Hs), orb_false_r.
  destruct (String.prefix _ (String c s)) eqn:Hpre; [|done].
  rewrite <- Hc. symmetry. unfold starts_match. rewrite andb_true_iff.
  assert (exists tail,
            String c s
            = String "t" (String "." (String "m" (String "e" (String "/" (String w tail))))))
    as [tail ->].
  { clear -Hpre.
    destruct s as [|c1 [|c2 [|c3 [|c4 [|c5 s]]]]]; cbn [String.prefix] in Hpre;
      repeat match type of Hpre with
             | (if ascii_dec ?a ?b then _ else _) = true =>
                 destruct (ascii_dec a b) as [<-|]; [|discriminate]
             end; try discriminate.
    eexists. reflexivity. }
  split; [reflexivity|exact Hw].
Qed.



(** ** A view is a fixed point of its mode *)

Lemma sub_handles_id s :
  handle_free s = true -> sub_scan "@" "@[USER]" 0 false s = s.
Proof.
  induction s as [|c s IH]; [done|]. intros [Hat Hs]%handle_free_cons.
  cbn [sub_scan andb].
  destruct (starts_match "@" (String c s)) eqn:Hstart.
  - apply starts_match_at in Hstart as [-> Hhead].
    rewrite Hat in Hhead by done. discriminate.
  - by rewrite IH.
Qed.

Lemma sub_channels_id s :
  channel_free s = true -> sub_scan "t.me/" "t.me/[CHANNEL]" 0 false s = s.
Proof.
  induction s as [|c s IH]; [done|]. cbn [channel_free].
  intros [Hc Hs]%andb_true_iff. apply negb_true_iff in Hc.
  cbn [sub_scan andb]. rewrite Hc. by rewrite IH.
Qed.

Lemma scrub_bio_idempotent bio : scrub_bio (scrub_bio bio) = scrub_bio bio.
Proof.
  unfold scrub_bio at 1.
  rewrite (sub_handles_id (scrub_bio bio)) by apply scrub_bio_handle_free.
  apply sub_channels_id, scrub_bio_channel_free.
Qed.

Lemma redact_redact key placeholder d :
  redact key placeholder (redact key placeholder d) = redact key placeholder d.
Proof.
  apply map_eq. intros k. rewrite !redact_lookup.
  destruct (decide (key = k)); [|done]. by destruct (d !! k).
Qed.

Lemma view_for_discovery_fixed pd view :
  view_for "discovery" pd = Ok view -> view_for "discovery" view = Ok view.
Proof.
  rewrite !view_for_discovery. cbn zeta.
  set (anon := redact "display_name" "[ANONYMIZED]" (redact "username" "@[REDACTED]" pd)).
  assert (forall d, redact "display_name" "[ANONYMIZED]" (redact "username" "@[REDACTED]" d)
                    !! "bio" = d !! "bio") as Hbio.
  { intros d. rewrite !redact_lookup.
    by repeat (destruct (decide _) as [|_]; [discriminate|]). }
  assert (forall bio d,
            redact "display_name" "[ANONYMIZED]"
              (redact "username" "@[REDACTED]" (<["bio" := bio]> d))
            = <["bio" := bio]>
                (redact "display_name" "[ANONYMIZED]" (redact "username" "@[REDACTED]" d)))
    as Hcomm.
  { intros bio d. apply map_eq. intros k.
    destruct (decide ("bio" = k)) as [<-|Hk].
    - by rewrite Hbio, !lookup_insert_eq.
    - rewrite lookup_insert_ne by done. rewrite !redact_lookup.
      rewrite !lookup_insert_ne by done. done. }
  assert (redact "display_name" "[ANONYMIZED]" (redact "username" "@[REDACTED]" anon) = anon)
    as Hanon.
  { unfold anon. apply map_eq. intros k. rewrite !redact_lookup.
    destruct (decide ("display_name" = k)) as [<-|H1].
    - destruct (decide ("username" = "display_name")) as [|_]; [discriminate|].
      by destruct (pd !! "display_name").
    - destruct (decide ("username" = k)) as [<-|H2]; [|done].
      by destruct (pd !! "username"). }
  destruct (pd !! "bio") as [[bio| | | |]|] eqn:Hpd; try discriminate; intros [= <-].
  - rewrite lookup_insert_eq, Hcomm, Hanon, scrub_bio_idempotent.
    by rewrite insert_insert_eq.
  - unfold anon at 1. rewrite Hbio, Hpd. by rewrite Hanon.
Qed.

Lemma mask_mask u :
  (4 < String.length u)%nat ->
  Py.slice_to 2 (Py.slice_to 2 u +:+ "***" +:+ Py.slice_last 2 u) +:+ "***"
    +:+ Py.slice_last 2 (Py.slice_to 2 u +:+ "***" +:+ Py.slice_last 2 u)
  = Py.slice_to 2 u +:+ "***" +:+ Py.slice_last 2 u.
Proof.
  intros Hlen. destruct (mask_long u ltac:(lia)) as (a & b & middle & y & z & _ & _ & ->).
  reflexivity.
Qed.

Lemma view_for_investigation_fixed pd view :
  view_for "investigation" pd = Ok view -> view_for "investigation" view = Ok view.
Proof.
  rewrite !view_for_investigation.
  destruct (pd !! "username") as [u|] eqn:Hu; [|intros [= <-]; by rewrite Hu].
  destruct (py_len u) as [n|] eqn:Hn; [|discriminate]. cbn [rbind].
  destruct (Nat.ltb_spec 4 n) as [Hlong|Hshort].
  - destruct u as [s| | |l|]; try discriminate. injection Hn as <-.
    unfold mask_username. cbn [rbind]. intros Heq.
    assert (view = <["username" := VStr (Py.slice_to 2 s +:+ "***" +:+ Py.slice_last 2 s)]> pd)
      as -> by congruence.
    clear Heq. rewrite lookup_insert_eq.
    unfold py_len. cbn [rbind]. rewrite mask_length by done.
    destruct (Nat.ltb_spec 4 7); [|lia]. rewrite mask_mask by done. cbn [rbind].
    by rewrite insert_insert_eq.
  - intros [= <-]. rewrite Hu, Hn. cbn [rbind].
    by destruct (Nat.ltb_spec 4 n); [lia|].
Qed.

(** X11. The profile view of a report is a fixed point of its mode: the
    view that the mode builds from it is the view itself. Masking a masked
    username, and redacting and scrubbing a discovery view, change
    nothing. *)
Theorem report_view_is_fixed_point pd m self r self' :
  analyze_profile pd m self = (Ok r, self') ->
  view_for m (Report.profile r) = Ok (Report.profile r).
Proof.
  intros (fs & view & _ & Hview & -> & ->)%analyze_profile_ok.
  cbn [report_of Report.profile].
  destruct (String.eqb_spec m "discovery") as [->|Hd];
    [|destruct (String.eqb_spec m "investigation") as [->|Hi]].
  - by apply (view_for_discovery_fixed pd).
  - by apply (view_for_investigation_fixed pd).
  - by apply view_for_other.
Qed.

Lemma report_view_is_fixed_point_witness :
  analyze_profile scenario "discovery" (__init__ sample_now)
    = (Ok scenario_report, scenario_final) /\
  view_for "discovery" (Report.profile scenario_report)
  = Ok (Report.profile scenario_report).
Proof.
  split; [exact scenario_run|].
  exact (report_view_is_fixed_point scenario "discovery" (__init__ sample_now)
           scenario_report scenario_final scenario_run).
Defined.

(** ** What an exception points to *)

(** The operations raise on values that are not of the schema's type. *)
Lemma py_lower_raises v e :
  py_lower v = Raise e -> e = AttributeError /\ has_ty TStr v = false.
Proof. unfold py_lower. destruct v; intros [=]; done. Qed.

Lemma py_in_raises sub v e :
  py_in sub v = Raise e -> e = TypeError /\ has_ty TStr v = false.
Proof. unfold py_in. destruct v; intros [=]; done. Qed.

Lemma py_number_wrong v e :
  py_number v = Raise e -> e = TypeError /\ has_ty TInt v = false.
Proof. destruct v; intros [=]; done. Qed.

Lemma py_gt_raises v k e :
  py_gt v k = Raise e -> e = TypeError /\ has_ty TInt v = false.
Proof.
  unfold py_gt. destruct (py_number v) eqn:Hv; [discriminate|].
  intros [= <-]. by apply py_number_wrong.
Qed.

Lemma py_ge_raises v k e :
  py_ge v k = Raise e -> e = TypeError /\ has_ty TInt v = false.
Proof.
  unfold py_ge. destruct (py_number v) eqn:Hv; [discriminate|].
  intros [= <-]. by apply py_number_wrong.
Qed.

Lemma py_len_raises v e :
  py_len v = Raise e -> e = TypeError /\ has_ty TList v = false.
Proof. unfold py_len. destruct v; intros [=]; done. Qed.

(** A value of the wrong type that [get] returned was in the record. *)
Lemma dict_get_wrong pd key dflt t :
  has_ty t dflt = true ->
  has_ty t (dict_get pd key dflt) = false ->
  pd !! key = Some (dict_get pd key dflt).
Proof.
  unfold dict_get. destruct (pd !! key); cbn; [done|congruence].
Qed.

Lemma wrong_type_get pd keys key dflt t :
  key ∈ keys -> (key, t) ∈ schema -> has_ty t dflt = true ->
  has_ty t (dict_get pd key dflt) = false ->
  wrong_type pd keys.
Proof.
  intros Hkey Hschema Hdflt Hwrong.
  exists key, t, (dict_get pd key dflt).
  split; [done|]. split; [done|]. split; [|done]. by apply (dict_get_wrong pd key dflt t).
Qed.

(** Membership of a concrete key in a list of keys. *)
Ltac in_keys := apply list_elem_of_In; cbn; tauto.

(** From the operation that raised to the field it read. *)
Ltac blame_tac :=
  match goal with
  | H : py_lower (dict_get ?pd ?key ?dflt) = Raise ?e |- _ =>
      apply py_lower_raises in H as [-> H];
      apply (wrong_type_get pd _ key dflt TStr); [in_keys|in_schema|reflexivity|exact H]
  | H : py_in _ (dict_get ?pd ?key ?dflt) = Raise ?e |- _ =>
      apply py_in_raises in H as [-> H];
      apply (wrong_type_get pd _ key dflt TStr); [in_keys|in_schema|reflexivity|exact H]
  | H : py_gt (dict_get ?pd ?key ?dflt) _ = Raise ?e |- _ =>
      apply py_gt_raises in H as [-> H];
      apply (wrong_type_get pd _ key dflt TInt); [in_keys|in_schema|reflexivity|exact H]
  | H : py_ge (dict_get ?pd ?key ?dflt) _ = Raise ?e |- _ =>
      apply py_ge_raises in H as [-> H];
      apply (wrong_type_get pd _ key dflt TInt); [in_keys|in_schema|reflexivity|exact H]
  | H : py_len (dict_get ?pd ?key ?dflt) = Raise ?e |- _ =>
      apply py_len_raises in H as [-> H];
      apply (wrong_type_get pd _ key dflt TList); [in_keys|in_schema|reflexivity|exact H]
  end.

Ltac blames_tac c :=
  intros pd e; unfold_check c;
  repeat (step_match; cbn [profile_data blank red_flags app fst snd set_red_flags]);
  intros [= <-]; try discriminate; blame_tac.

Lemma true_divide_raises a b e :
  Py.true_divide a b = Raise e ->
  (b = 0 /\ e = ZeroDivisionError) \/
  (b <> 0 /\ e = OverflowError /\ 2 ^ 1023 <= Z.abs a).
Proof.
  intros Hdiv. destruct (decide (b = 0)) as [->|Hb].
  - left. rewrite true_divide_by_zero in Hdiv. split; congruence.
  - right. split; [done|]. split.
    + revert Hdiv. unfold Py.true_divide.
      destruct (Z.eqb_spec b 0) as [|_]; [done|].
      repeat (step_match; try discriminate). congruence.
    + destruct (Z.lt_ge_cases (Z.abs a) (2 ^ 1023)) as [Hlt|Hge]; [|done].
      destruct (true_divide_in_range a b Hb Hlt) as [x Hx]. congruence.
Qed.

Lemma ratio_blames pd e :
  flags_of _check_follow_ratio pd = Raise e -> blames pd e.
Proof.
  unfold_check _check_follow_ratio.
  destruct (py_gt (dict_get pd "followers" (VInt 0)) 0) as [[|]|e0] eqn:Hgt;
    cbn [fst snd]; try discriminate.
  - destruct (py_truediv _ _) as [ratio|e0] eqn:Hdiv.
    + destruct (Py.float_gt_int ratio 10); discriminate.
    + intros [= <-]. unfold py_truediv in Hdiv. unfold py_gt in Hgt.
      destruct (py_number (dict_get pd "followers" (VInt 0))) as [followers|] eqn:Hf;
        [|discriminate].
      cbn [rbind] in Hgt. injection Hgt as Hpos. apply Z.ltb_lt in Hpos.
      destruct (py_number (dict_get pd "following" (VInt 0))) as [following|e1] eqn:Hg;
        cbn [rbind] in Hdiv.
      * apply true_divide_raises in Hdiv as [[-> _]|(_ & -> & Hbig)]; [lia|].
        exists following, followers. split; [|done].
        assert (2 ^ 1023 > 1) as Hpow by (apply Z.lt_gt, Z.pow_gt_1; lia).
        revert Hg. unfold dict_get.
        destruct (pd !! "following") as [[| |[]| |]|]; cbn; intros [= <-];
          try done; cbn in Hbig; lia.
      * injection Hdiv as ->. apply py_number_wrong in Hg as [-> Hg].
        apply (wrong_type_get pd _ "following" (VInt 0) TInt);
          [in_keys|in_schema|reflexivity|exact Hg].
  - intros [= <-]. blame_tac.
Qed.

Lemma checks_blame :
  Forall (fun c => forall pd e, flags_of c pd = Raise e -> blames pd e) checks.
Proof.
  unfold checks, check_table; cbn [map snd].
  repeat (apply Forall_cons_2; [|]); [..|apply Forall_nil_2].
  - blames_tac _check_geo_inconsistency.
  - blames_tac _check_account_age.
  - blames_tac _check_name_changes.
  - blames_tac _check_telegram_links.
  - blames_tac _check_suspicious_bio.
  - exact ratio_blames.
  - blames_tac _check_coordination_patterns.
  - blames_tac _check_like_behavior.
Qed.

Lemma collect_raises cs pd fs e :
  collect cs pd = (fs, Some e) -> exists c, c ∈ cs /\ flags_of c pd = Raise e.
Proof.
  revert fs. induction cs as [|c cs IH]; intros fs; cbn [collect]; [discriminate|].
  destruct (flags_of c pd) as [fs_c|e0] eqn:Hc.
  - destruct (collect cs pd) as [fs' err]. intros [= <- ->].
    destruct (IH fs' eq_refl) as (c' & Hin & Hc'). exists c'. split; [by right|done].
  - intros [= <- <-]. exists c. split; [by left|done].
Qed.



(** ** Letter case *)

(** A view exists for a record when it exists for another with the same
    username and a bio that is a string or absent. *)
Lemma view_ok_transfer m pd1 pd2 view :
  view_for m pd1 = Ok view ->
  pd1 !! "username" = pd2 !! "username" ->
  (pd2 !! "bio" = None \/ exists bio, pd2 !! "bio" = Some (VStr bio)) ->
  exists view2, view_for m pd2 = Ok view2.
Proof.
  intros Hview Hu Hbio.
  destruct (String.eqb_spec m "discovery") as [->|Hd];
    [|destruct (String.eqb_spec m "investigation") as [->|Hi]].
  - rewrite view_for_discovery. cbn zeta.
    destruct Hbio as [->|[bio ->]]; eauto.
  - rewrite view_for_investigation in *. rewrite <- Hu.
    destruct (pd1 !! "username") as [u|]; [|eauto].
    destruct (py_len u) as [n|]; [|discriminate]. cbn [rbind] in *.
    destruct (4 <? n)%nat; [|eauto].
    destruct (mask_username u); [|discriminate]. cbn [rbind]. eauto.
  - rewrite view_for_other by done. eauto.
Qed.

Lemma same_text_lower pd1 pd2 key :
  same_text (pd1 !! key) (pd2 !! key) ->
  py_lower (dict_get pd1 key (VStr "")) = py_lower (dict_get pd2 key (VStr "")).
Proof.
  unfold same_text, dict_get, py_lower.
  destruct (pd1 !! key) as [[a|?|?|?|]|], (pd2 !! key) as [[a2|?|?|?|]|]; cbn; try done.
  by intros ->.
Qed.

Lemma same_text_readings pd1 pd2 :
  (forall k, k ∉ text_keys -> pd1 !! k = pd2 !! k) ->
  Forall (fun k => same_text (pd1 !! k) (pd2 !! k)) text_keys ->
  readings pd1 = readings pd2.
Proof.
  intros Hother. unfold text_keys. rewrite !Forall_cons.
  intros (Hd & Ht & Hb & _). unfold readings.
  rewrite (same_text_lower pd1 pd2 "declared_location" Hd),
          (same_text_lower pd1 pd2 "technical_location" Ht),
          (same_text_lower pd1 pd2 "bio" Hb).
  unfold dict_get.
  repeat (rewrite (Hother _) by (intros Hin; apply list_elem_of_In in Hin; cbn in Hin;
                                  intuition discriminate)).
  reflexivity.
Qed.



(** ** Padding the bio *)

Lemma lower_cons c s : Py.lower (String c s) = String (Py.to_lower c) (Py.lower s).
Proof. reflexivity. Qed.

Lemma lower_app a b : Py.lower (a +:+ b) = Py.lower a +:+ Py.lower b.
Proof.
  induction a as [|c a IH]; [reflexivity|].
  by rewrite append_cons, !lower_cons, IH, append_cons.
Qed.

Lemma prefix_app k s t :
  String.prefix k s = true -> String.prefix k (s +:+ t) = true.
Proof.
  revert s. induction k as [|a k IH]; intros s; [intros _; by destruct (s +:+ t)|].
  destruct s as [|b s]; [discriminate|]. rewrite append_cons. cbn [String.prefix].
  destruct (ascii_dec a b); [apply IH|done].
Qed.

Lemma contains_app_r k s t :
  Py.contains k s = true -> Py.contains k (s +:+ t) = true.
Proof.
  induction s as [|c s IH].
  - unfold Py.contains at 1. rewrite orb_false_r. intros Hpre.
    apply (prefix_app k "" t) in Hpre. change ("" +:+ t) with t in *.
    destruct t; unfold Py.contains; fold Py.contains; by rewrite Hpre.
  - rewrite append_cons, !contains_cons. intros [Hpre|Hin]%orb_true_iff.
    + apply (prefix_app k (String c s) t) in Hpre. rewrite append_cons in Hpre.
      by rewrite Hpre.
    + rewrite (IH Hin). apply orb_true_r.
Qed.

Lemma contains_app_l k p s :
  Py.contains k s = true -> Py.contains k (p +:+ s) = true.
Proof.
  intros Hin. induction p as [|c p IH]; [done|].
  rewrite append_cons, contains_cons, IH. apply orb_true_r.
Qed.

Lemma contains_padded k before s after :
  Py.contains k (Py.lower s) = true ->
  Py.contains k (Py.lower (before +:+ s +:+ after)) = true.
Proof.
  intros Hin. rewrite !lower_app. by apply contains_app_l, contains_app_r.
Qed.

Lemma any_in_padded pats before s after :
  any_in pats (Py.lower s) = true ->
  any_in pats (Py.lower (before +:+ s +:+ after)) = true.
Proof.
  unfold any_in. rewrite !existsb_exists. intros (k & Hk & Hin).
  exists k. split; [done|]. by apply contains_padded.
Qed.

Lemma filter_sublist {A} (P Q : A -> bool) l :
  (forall x, P x = true -> Q x = true) ->
  sublist (List.filter P l) (List.filter Q l).
Proof.
  intros HPQ. induction l as [|x l IH]; cbn [List.filter]; [constructor|].
  destruct (P x) eqn:HP.
  - rewrite (HPQ x HP). by apply sublist_skip.
  - destruct (Q x); [by apply sublist_cons|done].
Qed.

(** A check that does not read the bio gives the same flags. *)
Lemma dict_get_insert_other pd key v k d :
  key <> k -> dict_get (<[key := v]> pd) k d = dict_get pd k d.
Proof. intros Hne. unfold dict_get. by rewrite lookup_insert_ne. Qed.

Ltac ignores_bio c :=
  let pd0 := fresh "pd" in let v0 := fresh "v" in
  intros pd0 v0; unfold_check c;
  rewrite !(dict_get_insert_other pd0 "bio") by discriminate;
  repeat (step_match; cbn [profile_data blank red_flags app fst snd set_red_flags]);
  reflexivity.

Lemma total_impact_app fs fs' :
  total_impact (fs ++ fs') = total_impact fs + total_impact fs'.
Proof.
  induction fs as [|f fs IH]; [done|].
  change (total_impact ((f :: fs) ++ fs')) with (score_impact f + total_impact (fs ++ fs')).
  change (total_impact (f :: fs)) with (score_impact f + total_impact fs).
  lia.
Qed.

Lemma grows_refl fs : grows fs fs.
Proof. by left. Qed.

(** Each check on the record with the padded bio. *)
Lemma checks_grow pd bio before after :
  pd !! "bio" = Some (VStr bio) ->
  Forall (fun c => forall fs, flags_of c pd = Ok fs ->
            exists fs',
              flags_of c (<["bio" := VStr (before +:+ bio +:+ after)]> pd) = Ok fs' /\
              grows fs fs')
         checks.
Proof.
  intros Hbio. set (padded := before +:+ bio +:+ after).
  assert (forall c,
            (forall pd v, flags_of c (<["bio" := v]> pd) = flags_of c pd) ->
            forall fs, flags_of c pd = Ok fs ->
              exists fs', flags_of c (<["bio" := VStr padded]> pd) = Ok fs' /\ grows fs fs')
    as Hsame.
  { intros c Hc fs Hfs. exists fs. rewrite Hc. split; [done|apply grows_refl]. }
  assert (dict_get pd "bio" (VStr "") = VStr bio) as Hget
    by (unfold dict_get; by rewrite Hbio).
  assert (dict_get (<["bio" := VStr padded]> pd) "bio" (VStr "") = VStr padded) as Hget'
    by (unfold dict_get; by rewrite lookup_insert_eq).
  unfold checks, check_table; cbn [map snd].
  repeat (apply Forall_cons_2; [|]); [..|apply Forall_nil_2].
  - apply Hsame. ignores_bio _check_geo_inconsistency.
  - apply Hsame. ignores_bio _check_account_age.
  - apply Hsame. ignores_bio _check_name_changes.
  - intros fs. unfold_check _check_telegram_links. rewrite Hget, Hget'.
    unfold py_lower. cbn [fst snd].
    destruct (any_in telegram_patterns (Py.lower bio)) eqn:Hany.
    + pose proof (any_in_padded _ before bio after Hany) as Hany'.
      fold padded in Hany'. rewrite Hany'.
      cbn. intros [= <-]. eexists. split; [reflexivity|apply grows_refl].
    + cbn. intros [= <-].
      destruct (any_in telegram_patterns (Py.lower padded)); cbn;
        eexists; (split; [reflexivity|]); right; by left.
  - intros fs. unfold_check _check_suspicious_bio. rewrite Hget, Hget'.
    unfold py_lower. cbn [fst snd].
    pose proof (filter_sublist
                  (fun keyword => Py.contains keyword (Py.lower bio))
                  (fun keyword => Py.contains keyword (Py.lower padded))
                  scam_keywords
                  (fun k Hk => contains_padded k before bio after Hk)) as Hsub.
    revert Hsub.
    destruct (List.filter (fun keyword => Py.contains keyword (Py.lower bio))
                scam_keywords) as [|k found] eqn:Hfound;
      destruct (List.filter (fun keyword => Py.contains keyword (Py.lower padded))
                  scam_keywords) as [|k' found'] eqn:Hfound';
      cbn [fst snd red_flags set_red_flags blank app]; intros Hsub [= <-].
    + eexists. split; [reflexivity|]. right; by left.
    + eexists. split; [reflexivity|]. right; by left.
    + apply sublist_length in Hsub. cbn in Hsub. lia.
    + eexists. split; [reflexivity|].
      right. right. eexists _, _. split; [reflexivity|]. split; [reflexivity|].
      split; [reflexivity|]. cbn [score_impact].
      apply sublist_length in Hsub.
      repeat match goal with
             | |- context [(?a <? ?b)%nat] => destruct (Nat.ltb_spec a b)
             end; cbn [length] in *; lia.
  - apply Hsame. ignores_bio _check_follow_ratio.
  - apply Hsame. ignores_bio _check_coordination_patterns.
  - apply Hsame. ignores_bio _check_like_behavior.
Qed.

Lemma collect_grows tbl pd pd' fs :
  Forall (fun tc => emits tc.1 tc.2) tbl ->
  Forall (fun c => forall fs, flags_of c pd = Ok fs ->
            exists fs', flags_of c pd' = Ok fs' /\ grows fs fs')
         (map snd tbl) ->
  collect (map snd tbl) pd = (fs, None) ->
  exists fs',
    collect (map snd tbl) pd' = (fs', None) /\
    sublist (type <$> fs) (type <$> fs') /\
    total_impact fs <= total_impact fs'.
Proof.
  intros Hem. revert fs.
  induction Hem as [|[ty c] tbl Hc _ IH]; intros fs Hall; cbn [map collect snd] in *.
  - intros [= <-]. exists []. done.
  - apply Forall_cons in Hall as [Hgrow Hall].
    destruct (flags_of c pd) as [fs_c|] eqn:Hfs_c; [|discriminate].
    destruct (collect (map snd tbl) pd) as [fs_rest err] eqn:Hrest.
    intros [= <- ->].
    destruct (Hgrow fs_c eq_refl) as (fs_c' & Hfs_c' & Hg).
    destruct (IH fs_rest Hall eq_refl) as (fs_rest' & -> & Hsub & Hle).
    rewrite Hfs_c'. exists (fs_c' ++ fs_rest'). split; [done|].
    rewrite !fmap_app, !total_impact_app.
    destruct Hg as [->|[->|(f & f' & -> & -> & Hty & Himp)]].
    + split; [by apply sublist_app|lia].
    + split; [by apply sublist_inserts_l|].
      destruct (Hc pd' fs_c' Hfs_c') as [->|(f & -> & _ & Hf)]; cbn in *; lia.
    + cbn [fmap list_fmap app]. rewrite Hty.
      split; [by apply sublist_skip|]. cbn. lia.
Qed.

(** X14. Text added around a bio hides nothing: when the call on a record
    returns a report, the call on the record with any text put before and
    after its bio returns a report too, with a flag of every type the
    first report has, in the same order, and a score that is no lower. *)
Theorem padding_the_bio_keeps_flags pd bio before after m self r self' :
  pd !! "bio" = Some (VStr bio) ->
  analyze_profile pd m self = (Ok r, self') ->
  exists r2 self2,
    analyze_profile (<["bio" := VStr (before +:+ bio +:+ after)]> pd) m self
      = (Ok r2, self2) /\
    sublist (type <$> Report.red_flags r) (type <$> Report.red_flags r2) /\
    Report.score (Report.risk_assessment r)
      <= Report.score (Report.risk_assessment r2).
Proof.
  intros Hbio (fs & view & Hfs & Hview & -> & ->)%analyze_profile_ok.
  destruct (collect_grows check_table pd
              (<["bio" := VStr (before +:+ bio +:+ after)]> pd) fs
              check_table_emits (checks_grow pd bio before after Hbio) Hfs)
    as (fs' & Hfs' & Hsub & Hle).
  rewrite analyze_profile_run. fold checks in Hfs'. rewrite Hfs'. cbn zeta.
  destruct (view_ok_transfer m pd (<["bio" := VStr (before +:+ bio +:+ after)]> pd) view Hview)
    as [view2 ->].
  - by rewrite lookup_insert_ne.
  - right. rewrite lookup_insert_eq. by eexists.
  - eexists _, _. split; [reflexivity|].
    cbn [report_of scored Report.red_flags Report.risk_assessment Report.score
         red_flags score max_score].
    split; [done|]. rewrite !sum_impacts_total. lia.
Qed.

Lemma padding_the_bio_keeps_flags_witness :
  exists r2 self2,
    analyze_profile
      (<["bio" := VStr ("Blessed. " +:+ "Follow me on t.me/test for signals!"
                        +:+ " DM me for alpha")]> scenario)
      "discovery" (__init__ sample_now) = (Ok r2, self2) /\
    sublist (type <$> Report.red_flags scenario_report) (type <$> Report.red_flags r2) /\
    Report.score (Report.risk_assessment scenario_report)
      <= Report.score (Report.risk_assessment r2).
Proof.
  refine (padding_the_bio_keeps_flags scenario "Follow me on t.me/test for signals!"
            "Blessed. " " DM me for alpha" "discovery" (__init__ sample_now)
            scenario_report scenario_final _ scenario_run).
  by_evaluation.
Defined.

(** ** When each flag appears *)

(** The flags of a check are among the flags collected. *)
Lemma collect_includes (tbl : list (string * M unit)) pd fs ty c fs_c :
  (ty, c) ∈ tbl ->
  collect (map snd tbl) pd = (fs, None) ->
  flags_of c pd = Ok fs_c ->
  fs_c ⊆ fs.
Proof.
  revert fs. induction tbl as [|[ty0 c0] tbl IH]; intros fs Hin; [by apply elem_of_nil in Hin|].
  cbn [map collect snd].
  destruct (flags_of c0 pd) as [fs0|] eqn:Hfs0; [|discriminate].
  destruct (collect (map snd tbl) pd) as [fs' err] eqn:Hrest. intros [= <- ->] Hc.
  apply elem_of_cons in Hin as [[= -> ->]|Hin].
  - rewrite Hfs0 in Hc. injection Hc as ->. intros f Hf. apply elem_of_app. by left.
  - intros f Hf. apply elem_of_app. right. by apply (IH fs' Hin eq_refl Hc).
Qed.

(** A report has a flag of a check's type exactly when the check appended
    one. *)
Lemma flagged_iff pd m self r self' ty c :
  analyze_profile pd m self = (Ok r, self') ->
  (ty, c) ∈ check_table ->
  flagged r ty <-> exists f, flags_of c pd = Ok [f].
Proof.
  intros (fs & view & Hfs & _ & -> & ->)%analyze_profile_ok Hin.
  unfold flagged. cbn [report_of scored Report.red_flags red_flags].
  pose proof check_table_emits as Hem. rewrite Forall_forall in Hem.
  specialize (Hem (ty, c) Hin). cbn [fst snd] in Hem.
  destruct (collect_per_check _ _ _ Hfs) as (per & Hper & _).
  assert (exists fs_c, flags_of c pd = Ok fs_c) as [fs_c Hc].
  { apply list_elem_of_lookup in Hin as [i Hi].
    assert (checks !! i = Some c) as Hci
      by (unfold checks; rewrite list_lookup_fmap, Hi; reflexivity).
    destruct (Forall2_lookup_l _ _ _ i c Hper Hci) as (fs_c & _ & Hc). eauto. }
  destruct (Hem pd fs_c Hc) as [->|(f & -> & Hty & _)].
  - split.
    + intros Hflag. exfalso. revert Hflag.
      apply (collect_omits check_table pd fs ty c); try done.
      * exact check_table_types_distinct.
      * exact check_table_emits.
    + intros [f Hf]. congruence.
  - split; [by eauto|]. intros _.
    apply list_elem_of_fmap. exists f. split; [done|].
    apply (collect_includes check_table pd fs ty c [f] Hin Hfs Hc). by left.
Qed.

Section Triggers.
Context (pd : dict) (Hwt : well_typed pd = true).

Lemma get_text key :
  (key, TStr) ∈ schema -> dict_get pd key (VStr "") = VStr (text_of pd key).
Proof.
  intros Hin. pose proof (well_typed_field pd Hwt key TStr Hin) as Hf.
  unfold field_ok, dict_get, text_of in *.
  by destruct (pd !! key) as [[]|].
Qed.

Lemma get_count key :
  (key, TInt) ∈ schema -> dict_get pd key (VInt 0) = VInt (count_of pd key).
Proof.
  intros Hin. pose proof (well_typed_field pd Hwt key TInt Hin) as Hf.
  unfold field_ok, dict_get, count_of in *.
  by destruct (pd !! key) as [[]|].
Qed.

Lemma get_channels :
  dict_get pd "shared_channels" (VList []) = VList (channels_of pd).
Proof.
  pose proof (well_typed_field pd Hwt "shared_channels" TList ltac:(in_schema)) as Hf.
  unfold field_ok, dict_get, channels_of in *.
  by destruct (pd !! "shared_channels") as [[]|].
Qed.

Lemma any_in_empty pats :
  Forall (fun p => p <> "") pats -> any_in pats "" = false.
Proof.
  unfold any_in. induction 1 as [|p pats Hp _ IH]; [done|].
  cbn [existsb]. rewrite IH, orb_false_r. by destruct p.
Qed.

Lemma geo_trigger :
  (exists f, flags_of _check_geo_inconsistency pd = Ok [f]) <->
  any_in us_indicators (Py.lower (text_of pd "declared_location")) = true /\
  any_in nigeria_indicators (Py.lower (text_of pd "technical_location")) = true.
Proof.
  unfold_check _check_geo_inconsistency.
  rewrite (get_text "declared_location") by in_schema.
  rewrite (get_text "technical_location") by in_schema.
  unfold py_lower. cbn [fst snd].
  set (d := text_of pd "declared_location"). set (t := text_of pd "technical_location").
  assert (any_in us_indicators "" = false) as Hus
    by (apply any_in_empty; unfold us_indicators; repeat constructor; discriminate).
  assert (any_in nigeria_indicators "" = false) as Hng
    by (apply any_in_empty; unfold nigeria_indicators; repeat constructor; discriminate).
  destruct (String.eqb_spec (Py.lower d) "") as [Hd|Hd]; cbn [orb].
  - rewrite Hd, Hus. cbn. split; [intros [f [=]]|intros [[=] _]].
  - destruct (String.eqb_spec (Py.lower t) "") as [Ht|Ht].
    + rewrite Ht, Hng. cbn. split; [intros [f [=]]|intros [_ [=]]].
    + destruct (any_in us_indicators (Py.lower d)), (any_in nigeria_indicators (Py.lower t));
        cbn [andb fst snd red_flags set_red_flags blank app];
        first [ split; [done|intros _; by eexists]
              | split; [intros [f [=]]|intros [? ?]; discriminate] ].
Qed.

Lemma age_trigger :
  (exists f, flags_of _check_account_age pd = Ok [f]) <->
  (Py.contains "2024" (text_of pd "join_date") = true \/
   Py.contains "2023" (text_of pd "join_date") = true) /\
  1000 < count_of pd "followers".
Proof.
  unfold_check _check_account_age.
  rewrite (get_text "join_date") by in_schema.
  rewrite (get_count "followers") by in_schema.
  unfold py_in, py_gt, py_number. cbn [fst snd rbind].
  destruct (Py.contains "2024" _) eqn:H24; [|destruct (Py.contains "2023" _) eqn:H23];
    cbn [fst snd].
  - destruct (Z.ltb_spec 1000 (count_of pd "followers")); cbn.
    + split; [intros _; split; [by left|done]|intros _; by eexists].
    + split; [intros [f [=]]|intros [_ ?]; lia].
  - destruct (Z.ltb_spec 1000 (count_of pd "followers")); cbn.
    + split; [intros _; split; [by right|done]|intros _; by eexists].
    + split; [intros [f [=]]|intros [_ ?]; lia].
  - cbn. split; [intros [f [=]]|intros [[?|?] _]; discriminate].
Qed.

Lemma names_trigger :
  (exists f, flags_of _check_name_changes pd = Ok [f]) <->
  3 <= count_of pd "name_changes".
Proof.
  unfold_check _check_name_changes.
  rewrite (get_count "name_changes") by in_schema.
  unfold py_ge, py_number. cbn [fst snd rbind].
  destruct (Z.leb_spec 3 (count_of pd "name_changes")); cbn.
  - split; [done|intros _; by eexists].
  - split; [intros [f [=]]|lia].
Qed.

Lemma telegram_trigger :
  (exists f, flags_of _check_telegram_links pd = Ok [f]) <->
  any_in telegram_patterns (Py.lower (text_of pd "bio")) = true.
Proof.
  unfold_check _check_telegram_links.
  rewrite (get_text "bio") by in_schema. unfold py_lower. cbn [fst snd].
  destruct (any_in telegram_patterns _); cbn.
  - split; [done|intros _; by eexists].
  - split; [intros [f [=]]|done].
Qed.

Lemma filter_nil_existsb {A} (P : A -> bool) l :
  List.filter P l = [] <-> existsb P l = false.
Proof.
  induction l as [|x l IH]; cbn [List.filter existsb]; [done|].
  destruct (P x); cbn [orb]; [split; discriminate|exact IH].
Qed.

Lemma bio_trigger :
  (exists f, flags_of _check_suspicious_bio pd = Ok [f]) <->
  any_in scam_keywords (Py.lower (text_of pd "bio")) = true.
Proof.
  unfold_check _check_suspicious_bio.
  rewrite (get_text "bio") by in_schema. unfold py_lower. cbn [fst snd].
  destruct (List.filter _ scam_keywords) as [|k found] eqn:Hfound;
    cbn [fst snd red_flags set_red_flags blank app]; unfold any_in.
  - apply filter_nil_existsb in Hfound. rewrite Hfound.
    split; [intros [f [=]]|done].
  - destruct (existsb _ scam_keywords) eqn:Hex.
    + split; [done|intros _; by eexists].
    + apply filter_nil_existsb in Hex. congruence.
Qed.

Lemma ratio_trigger :
  (exists f, flags_of _check_follow_ratio pd = Ok [f]) <->
  0 < count_of pd "followers" /\
  exists ratio,
    Py.true_divide (count_of pd "following") (count_of pd "followers") = Ok ratio /\
    Py.float_gt_int ratio 10 = true.
Proof.
  unfold flags_of.
  rewrite (check_follow_ratio_run (blank pd) pd (count_of pd "following")
             (count_of pd "followers"));
    [|done|by rewrite (get_count "following") by in_schema
      |by rewrite (get_count "followers") by in_schema].
  destruct (Z.ltb_spec 0 (count_of pd "followers")).
  - destruct (Py.true_divide _ _) as [ratio|e].
    + destruct (Py.float_gt_int ratio 10) eqn:Hgt; cbn.
      * split; [intros _; split; [done|by exists ratio]|intros _; by eexists].
      * split; [intros [f [=]]|intros (_ & ratio' & [= <-] & ?); congruence].
    + split; [intros [f [=]]|intros (_ & ratio & [=] & _)].
  - cbn. split; [intros [f [=]]|intros [? _]; lia].
Qed.

Lemma coordination_trigger :
  (exists f, flags_of _check_coordination_patterns pd = Ok [f]) <->
  (2 <= length (channels_of pd))%nat.
Proof.
  unfold_check _check_coordination_patterns.
  rewrite get_channels. unfold py_len. cbn [fst snd].
  destruct (Nat.leb_spec 2 (length (channels_of pd))); cbn.
  - split; [done|intros _; by eexists].
  - split; [intros [f [=]]|lia].
Qed.

Lemma like_trigger :
  (exists f, flags_of _check_like_behavior pd = Ok [f]) <->
  pd !! "like_fishing" = Some (VBool true).
Proof.
  unfold_check _check_like_behavior.
  pose proof (well_typed_field pd Hwt "like_fishing" TBool ltac:(in_schema)) as Hf.
  unfold field_ok, dict_get, py_truthy in *.
  destruct (pd !! "like_fishing") as [[| |[]| |]|]; try discriminate; cbn;
    split; try (intros [f [=]]); try discriminate; try done; intros _; by eexists.
Qed.

End Triggers.



(** ** Printing *)

#[local] Arguments str_repeat : simpl never.
#[local] Arguments str_upper : simpl never.

Lemma and_then_prints lines next : and_then (prints lines) next = (lines ++ next.1, next.2).
Proof. reflexivity. Qed.

(** The output is seven lines, the profile section unless the mode is
    discovery, and parts that do not raise. *)
Lemma print_report_parts report :
  exists head tail,
    length head = 7%nat /\
    print_report report =
      and_then (prints head)
        (and_then
           (if negb (String.eqb (Report.mode (Report.meta report)) "discovery")
            then print_profile (Report.profile report)
            else prints [])
           (prints tail)).
Proof.
  unfold print_report.
  lazymatch goal with
  | |- exists head tail, _ /\ and_then (prints ?h) (and_then ?p ?rest) = _ =>
      exists h, (rest.1); split; [reflexivity|];
      assert (rest = prints rest.1) as <-; [|reflexivity]
  end.
  destruct (Report.red_flags report); destruct (String.eqb _ "expert"); reflexivity.
Qed.

(** The profile section prints six lines, or three and raises on a bio
    that cannot be sliced. *)
Lemma print_profile_cases profile :
  (exists lines,
     print_profile profile = (lines, None) /\ length lines = 6%nat /\
     forall v, profile !! "bio" = Some v -> has_ty TStr v || has_ty TList v = true) \/
  (exists lines v,
     print_profile profile = (lines, Some TypeError) /\ length lines = 3%nat /\
     profile !! "bio" = Some v /\ has_ty TStr v = false /\ has_ty TList v = false).
Proof.
  unfold print_profile. rewrite and_then_prints.
  unfold py_slice_to.
  change (dict_get profile "bio" (VStr "N/A")) with (default (VStr "N/A") (profile !! "bio")).
  destruct (profile !! "bio") as [[s|z|b|l|]|] eqn:Hbio; cbn [default from_option id].
  - left. eexists. split; [reflexivity|]. split; [reflexivity|]. by intros v [= <-].
  - right. eexists _, _. split; [reflexivity|]. done.
  - right. eexists _, _. split; [reflexivity|]. done.
  - left. eexists. split; [reflexivity|]. split; [reflexivity|]. by intros v [= <-].
  - right. eexists _, _. split; [reflexivity|]. done.
  - left. eexists. split; [reflexivity|]. split; [reflexivity|]. by intros v [=].
Qed.

Lemma print_report_raises report e :
  (print_report report).2 = Some e <->
  e = TypeError /\
  Report.mode (Report.meta report) <> "discovery" /\
  exists v, Report.profile report !! "bio" = Some v /\
            has_ty TStr v = false /\ has_ty TList v = false.
Proof.
  destruct (print_report_parts report) as (head & tail & Hhead & ->).
  rewrite and_then_prints.
  destruct (String.eqb_spec (Report.mode (Report.meta report)) "discovery") as [Hm|Hm];
    cbn [negb].
  - rewrite and_then_prints. cbn [fst snd].
    split; [discriminate|]. by intros (_ & ? & _).
  - destruct (print_profile_cases (Report.profile report))
      as [(lines & Hp & Hlen & Hbio)|(lines & v & Hp & Hlen & Hbio & Hs & Hl)].
    + rewrite Hp. unfold and_then, prints. cbn [fst snd].
      split; [discriminate|]. intros (_ & _ & v & Hv & Hs & Hl).
      specialize (Hbio v Hv). rewrite Hs, Hl in Hbio. discriminate.
    + assert (and_then (print_profile (Report.profile report)) (prints tail)
              = (lines, Some TypeError)) as -> by (by rewrite Hp).
      cbn [fst snd]. split; [|by intros (-> & _)].
      intros [= <-]. split; [done|]. split; [done|]. by exists v.
Qed.


(** The bio of a view is a string, or absent, when the record's is. *)
Lemma view_bio m pd view :
  view_for m pd = Ok view ->
  (pd !! "bio" = None \/ exists bio, pd !! "bio" = Some (VStr bio)) ->
  view !! "bio" = None \/ exists bio, view !! "bio" = Some (VStr bio).
Proof.
  intros Hview Hbio.
  destruct (String.eqb_spec m "discovery") as [->|Hd];
    [|destruct (String.eqb_spec m "investigation") as [->|Hi]].
  - rewrite view_for_discovery in Hview. cbn zeta in Hview.
    destruct Hbio as [Hn|[bio Hb]].
    + rewrite Hn in Hview. injection Hview as <-. left. rewrite !redact_lookup.
      by repeat (destruct (decide _) as [|_]; [discriminate|]).
    + rewrite Hb in Hview. injection Hview as <-. right.
      rewrite lookup_insert_eq. by eexists.
  - rewrite view_for_investigation in Hview.
    destruct (pd !! "username") as [u|]; [|by injection Hview as <-].
    destruct (py_len u) as [n|]; [|discriminate]. cbn [rbind] in Hview.
    destruct (4 <? n)%nat; [|by injection Hview as <-].
    destruct (mask_username u) as [masked|]; [|discriminate].
    injection Hview as <-. by rewrite lookup_insert_ne.
  - rewrite view_for_other in Hview by done. by injection Hview as <-.
Qed.

Lemma slice_to_length n s : (String.length (Py.slice_to n s) <= n)%nat.
Proof.
  revert s. induction n as [|n IH]; intros [|c s]; cbn [Py.slice_to String.length]; try lia.
  specialize (IH s). lia.
Qed.



(** X18. What a discovery-mode report prints is fixed by the ten fields
    the checks use: the calls on two records that agree on these print the
    same lines, to the end, whatever the usernames, display names and other
    fields of the two records. *)
Theorem discovery_printout_reads_ten_fields pd1 pd2 self r1 r2 self1 self2 :
  Forall (fun k => pd1 !! k = pd2 !! k) signal_keys ->
  analyze_profile pd1 "discovery" self = (Ok r1, self1) ->
  analyze_profile pd2 "discovery" self = (Ok r2, self2) ->
  print_report r1 = print_report r2 /\ (print_report r1).2 = None.
Proof.
  intros Hkeys%signal_keys_readings%readings_collect.
  intros (fs1 & v1 & Hfs1 & _ & -> & ->)%analyze_profile_ok.
  intros (fs2 & v2 & Hfs2 & _ & -> & ->)%analyze_profile_ok.
  rewrite Hkeys in Hfs1. rewrite Hfs1 in Hfs2. injection Hfs2 as <-.
  split; [reflexivity|].
  destruct (print_report _).2 as [e|] eqn:He; [|done].
  apply print_report_raises in He as (_ & Hm & _). done.
Qed.

Lemma discovery_printout_reads_ten_fields_witness :
  Forall (fun k => scenario !! k = scenario !! k) signal_keys /\
  (print_report scenario_report).2 = None.
Proof.
  assert (Forall (fun k => scenario !! k = scenario !! k) signal_keys) as Hkeys
    by (apply Forall_forall; reflexivity).
  split; [exact Hkeys|].
  exact (proj2 (discovery_printout_reads_ten_fields scenario scenario (__init__ sample_now)
                  scenario_report scenario_report scenario_final scenario_final
                  Hkeys scenario_run scenario_run)).
Defined.

(** ** What the messages say *)

Lemma collect_member cs pd fs f :
  collect cs pd = (fs, None) -> f ∈ fs ->
  exists c fs_c, c ∈ cs /\ flags_of c pd = Ok fs_c /\ f ∈ fs_c.
Proof.
  revert fs. induction cs as [|c cs IH]; intros fs; cbn [collect].
  - intros [= <-] Hf. by apply elem_of_nil in Hf.
  - destruct (flags_of c pd) as [fs_c|] eqn:Hc; [|discriminate].
    destruct (collect cs pd) as [fs' err]. intros [= <- ->] [Hf|Hf]%elem_of_app.
    + exists c, fs_c. split; [by left|done].
    + destruct (IH fs' eq_refl Hf) as (c' & fs_c' & Hin & Hc' & Hf').
      exists c', fs_c'. split; [by right|done].
Qed.

(** A flag that a check appended is the one flag it builds. *)
Ltac the_flag :=
  repeat (step_match; cbn [profile_data blank red_flags app fst snd set_red_flags]);
  intros [= <-] Hf; try (by apply elem_of_nil in Hf);
  apply list_elem_of_singleton in Hf; subst;
  unfold says; cbn [type message];
  repeat split_and; intros Hty; first [discriminate Hty | reflexivity].

Section Messages.
Context (pd : dict) (Hwt : well_typed pd = true).

Lemma checks_say :
  Forall (fun c => forall fs f, flags_of c pd = Ok fs -> f ∈ fs -> says pd f) checks.
Proof.
  unfold checks, check_table; cbn [map snd].
  repeat (apply Forall_cons_2; [intros fs f|]); [..|apply Forall_nil_2].
  - unfold_check _check_geo_inconsistency.
    rewrite (get_text pd Hwt "declared_location") by in_schema.
    rewrite (get_text pd Hwt "technical_location") by in_schema.
    unfold py_lower. cbn [fst snd]. the_flag.
  - unfold_check _check_account_age.
    rewrite (get_text pd Hwt "join_date") by in_schema.
    rewrite (get_count pd Hwt "followers") by in_schema.
    unfold py_in, py_gt, py_number. cbn [fst snd rbind]. the_flag.
  - unfold_check _check_name_changes.
    rewrite (get_count pd Hwt "name_changes") by in_schema.
    rewrite (get_text pd Hwt "last_name_change") by in_schema.
    unfold py_ge, py_number. cbn [fst snd rbind]. the_flag.
  - unfold_check _check_telegram_links.
    rewrite (get_text pd Hwt "bio") by in_schema.
    unfold py_lower. cbn [fst snd]. the_flag.
  - unfold_check _check_suspicious_bio.
    rewrite (get_text pd Hwt "bio") by in_schema.
    unfold py_lower. cbn [fst snd].
    destruct (List.filter _ scam_keywords) as [|k found] eqn:Hfound;
      cbn [fst snd red_flags set_red_flags blank app];
      intros [= <-] Hf; [by apply elem_of_nil in Hf|].
    apply list_elem_of_singleton in Hf. subst. unfold says. cbn [type message].
    repeat split_and; intros Hty; try discriminate Hty.
    by rewrite Hfound.
  - unfold flags_of.
    rewrite (check_follow_ratio_run (blank pd) pd (count_of pd "following")
               (count_of pd "followers"));
      [|done|by rewrite (get_count pd Hwt "following") by in_schema
        |by rewrite (get_count pd Hwt "followers") by in_schema].
    rewrite (get_count pd Hwt "following") by in_schema.
    rewrite (get_count pd Hwt "followers") by in_schema.
    destruct (0 <? count_of pd "followers"); [|intros [= <-] Hf; by apply elem_of_nil in Hf].
    destruct (Py.true_divide _ _) as [ratio|] eqn:Hdiv; [|discriminate].
    destruct (Py.float_gt_int ratio 10);
      cbn [fst snd red_flags set_red_flags blank app];
      intros [= <-] Hf; [|by apply elem_of_nil in Hf].
    apply list_elem_of_singleton in Hf. subst. unfold says, ratio_flag. cbn [type message].
    repeat split_and; intros Hty; try discriminate Hty.
    exists ratio. split; [exact Hdiv|reflexivity].
  - unfold_check _check_coordination_patterns.
    rewrite (get_channels pd Hwt). unfold py_len. cbn [fst snd]. the_flag.
  - unfold_check _check_like_behavior. the_flag.
Qed.

End Messages.



(** ** How many flags a score needs *)

Lemma total_impact_count flags :
  Forall (fun f => 1 <= score_impact f <= 3) flags ->
  Z.of_nat (length flags) <= total_impact flags <= 3 * Z.of_nat (length flags).
Proof.
  induction 1 as [|f flags Hf _ IH]; [done|].
  change (total_impact (f :: flags)) with (score_impact f + total_impact flags).
  cbn [length]. lia.
Qed.

(** The flags of each check weigh no more than its cap. *)
Lemma checks_capped :
  Forall2 (fun tc cap => forall pd fs, flags_of tc.2 pd = Ok fs -> total_impact fs <= cap)
          check_table impact_caps.
Proof.
  pose proof check_table_emits as Hem. pose proof checks_build_kinds as Hk.
  unfold checks in Hk. rewrite Forall_fmap in Hk.
  unfold check_table, impact_caps in *.
  repeat match goal with
         | H : Forall _ (_ :: _) |- _ => apply Forall_cons in H as [? H]
         end.
  repeat (apply Forall2_cons; split); [..|apply Forall2_nil; exact I];
    unfold compose in *; cbn [fst snd] in *; intros pd fs Hfs;
    match goal with
    | He : emits _ ?c, Hb : builds_kinds ?c, Hfs : flags_of ?c _ = _ |- _ =>
        destruct (He pd fs Hfs) as [->|(f & -> & Hty & _)]; [cbn; lia|];
        specialize (Hb pd [f] Hfs); apply Forall_cons in Hb as [Hb _];
        unfold kind_of, flag_kinds in Hb; rewrite Hty in Hb;
        apply list_elem_of_In in Hb; cbn in Hb;
        repeat (destruct Hb as [Heq|Hb];
                [try discriminate Heq; injection Heq as _ Heq; cbn; lia|]);
        done
    end.
Qed.

Lemma collect_capped (tbl : list (string * M unit)) caps pd fs :
  Forall2 (fun tc cap => forall pd fs, flags_of tc.2 pd = Ok fs -> total_impact fs <= cap)
          tbl caps ->
  collect (map snd tbl) pd = (fs, None) ->
  total_impact fs <= foldr Z.add 0 caps.
Proof.
  intros Hcaps. revert fs.
  induction Hcaps as [|[ty c] cap tbl caps Hc _ IH]; intros fs; cbn [map collect snd foldr].
  - by intros [= <-].
  - destruct (flags_of c pd) as [fs_c|] eqn:Hfs_c; [|discriminate].
    destruct (collect (map snd tbl) pd) as [fs' err]. intros [= <- ->].
    rewrite total_impact_app. specialize (Hc pd fs_c Hfs_c). specialize (IH fs' eq_refl).
    cbn [snd] in Hc. lia.
Qed.

(** X20. The impacts of a report's flags sum to at least the number of
    flags, at most three times that number, and at most 17, so that the
    clamp to 10 can apply. On an instance made by [__init__], a score of 6
    or more, which is a level of HIGH or CRITICAL, takes at least two
    flags, and a score of 10 at least four. *)
Theorem score_needs_flags now calls pd m r self' :
  analyze_profile pd m (run_calls calls (__init__ now)) = (Ok r, self') ->
  Z.of_nat (length (Report.red_flags r)) <= total_impact (Report.red_flags r) /\
  total_impact (Report.red_flags r) <= 3 * Z.of_nat (length (Report.red_flags r)) /\
  total_impact (Report.red_flags r) <= 17 /\
  (6 <= Report.score (Report.risk_assessment r) ->
   (2 <= length (Report.red_flags r))%nat) /\
  (Report.score (Report.risk_assessment r) = 10 ->
   (4 <= length (Report.red_flags r))%nat).
Proof.
  intros (fs & view & Hfs & _ & -> & ->)%analyze_profile_ok.
  cbn [report_of scored Report.score Report.risk_assessment Report.red_flags
       score red_flags max_score].
  rewrite max_score_after_calls, sum_impacts_total.
  pose proof (collect_shape check_table pd fs check_table_emits Hfs) as [_ Himp].
  apply total_impact_count in Himp.
  pose proof (collect_capped check_table impact_caps pd fs checks_capped Hfs) as Hcap.
  cbn in Hcap. lia.
Qed.

Lemma score_needs_flags_witness :
  analyze_profile scenario "discovery" (run_calls [] (__init__ sample_now))
    = (Ok scenario_report, scenario_final) /\
  total_impact (Report.red_flags scenario_report) <= 17.
Proof.
  split; [exact scenario_run|].
  exact (proj1 (proj2 (proj2 (score_needs_flags sample_now [] scenario "discovery"
                                scenario_report scenario_final scenario_run)))).
Defined.

(** ** Recommendations and level *)

Lemma avoid_financial_in_advice s types :
  rec_avoid_financial ∈ spec_recommendations s types <-> 6 <= s.
Proof.
  unfold spec_recommendations, spec_advice.
  destruct (bool_decide (6 <= s)) eqn:Hs;
    [apply bool_decide_eq_true in Hs|apply bool_decide_eq_false in Hs].
  - split; [done|]. intros _. cbn [app]. by left.
  - split; [|lia]. intros Hin. exfalso. revert Hin.
    repeat case_bool_decide; cbn [app]; by_evaluation.
Qed.

Lemma risk_level_high s :
  (risk_level s = "HIGH" \/ risk_level s = "CRITICAL") <-> 6 <= s.
Proof.
  unfold risk_level.
  destruct (Z.leb_spec 8 s), (Z.leb_spec 6 s), (Z.leb_spec 4 s), (Z.leb_spec 2 s);
    (split; [intros [?|?]; first [discriminate | lia]
            |intros ?; first [lia | by left | by right]]).
Qed.

(** X21. A report advises against financial interaction, and to report
    the account, exactly when its level is HIGH or CRITICAL, that is when
    its score is 6 or more; each of the three topical advices is given
    exactly when a flag of its type is in the report. *)
Theorem warnings_iff_high_level pd m self r self' :
  analyze_profile pd m self = (Ok r, self') ->
  (rec_avoid_financial ∈ Report.recommendations r <->
   Report.level (Report.risk_assessment r) = "HIGH" \/
   Report.level (Report.risk_assessment r) = "CRITICAL") /\
  (rec_avoid_financial ∈ Report.recommendations r <->
   rec_report_scams ∈ Report.recommendations r) /\
  (rec_avoid_financial ∈ Report.recommendations r <->
   6 <= Report.score (Report.risk_assessment r)) /\
  (rec_verify_geo ∈ Report.recommendations r <-> flagged r "geo_inconsistency") /\
  (rec_telegram_caution ∈ Report.recommendations r <-> flagged r "telegram_promotion") /\
  (rec_likes_bait ∈ Report.recommendations r <-> flagged r "like_fishing").
Proof.
  intros (fs & view & _ & _ & -> & ->)%analyze_profile_ok.
  unfold flagged.
  cbn [report_of scored Report.recommendations Report.red_flags Report.score
       Report.level Report.risk_assessment red_flags score].
  set (s := Z.min (sum_impacts fs) (max_score self)).
  rewrite recommendations_for_spec. set (types := type <$> fs).
  rewrite risk_level_high.
  assert (forall rec, rec ∈ spec_recommendations s types <->
            (rec = rec_appears_normal /\ spec_advice s types = []) \/
            rec ∈ spec_advice s types) as Hrec.
  { intros rec. unfold spec_recommendations.
    destruct (spec_advice s types) as [|a advice].
    - rewrite list_elem_of_singleton. split; [by left|]. intros [[? _]|Hin]; [done|].
      by apply elem_of_nil in Hin.
    - split; [by right|]. by intros [[_ ?]|?]. }
  assert (forall rec, rec ∈ spec_advice s types <->
            (6 <= s /\ (rec = rec_avoid_financial \/ rec = rec_report_scams)) \/
            ("geo_inconsistency" ∈ types /\ rec = rec_verify_geo) \/
            ("telegram_promotion" ∈ types /\ rec = rec_telegram_caution) \/
            ("like_fishing" ∈ types /\ rec = rec_likes_bait)) as Hadv.
  { intros rec. unfold spec_advice. rewrite !elem_of_app.
    repeat case_bool_decide;
      rewrite ?elem_of_cons, ?list_elem_of_singleton, ?elem_of_nil; intuition auto. }
  assert (rec_avoid_financial <> rec_appears_normal /\
          rec_report_scams <> rec_appears_normal /\
          rec_verify_geo <> rec_appears_normal /\
          rec_telegram_caution <> rec_appears_normal /\
          rec_likes_bait <> rec_appears_normal /\
          rec_avoid_financial <> rec_report_scams /\
          rec_avoid_financial <> rec_verify_geo /\
          rec_avoid_financial <> rec_telegram_caution /\
          rec_avoid_financial <> rec_likes_bait /\
          rec_report_scams <> rec_verify_geo /\
          rec_report_scams <> rec_telegram_caution /\
          rec_report_scams <> rec_likes_bait /\
          rec_verify_geo <> rec_telegram_caution /\
          rec_verify_geo <> rec_likes_bait /\
          rec_telegram_caution <> rec_likes_bait)
    as (N1 & N2 & N3 & N4 & N5 & D1 & D2 & D3 & D4 & D5 & D6 & D7 & D8 & D9 & D10)
    by (repeat split; by_evaluation).
  rewrite !Hrec, !Hadv. repeat split_and; intuition congruence.
Qed.

Lemma warnings_iff_high_level_witness :
  analyze_profile scenario "discovery" (__init__ sample_now)
    = (Ok scenario_report, scenario_final) /\
  (rec_avoid_financial ∈ Report.recommendations scenario_report <->
   Report.level (Report.risk_assessment scenario_report) = "HIGH" \/
   Report.level (Report.risk_assessment scenario_report) = "CRITICAL").
Proof.
  split; [exact scenario_run|].
  exact (proj1 (warnings_iff_high_level scenario "discovery" (__init__ sample_now)
                  scenario_report scenario_final scenario_run)).
Defined.
